(** * Saturni Nigrum: the interaction gates of the scene, verified

    A shallow embedding of the puzzle logic of the repository:

    - [SaturnObject.checkTimingSecret]   (the clock gate),
    - [TriangleObject.checkBreathClick]  (the breath gate),
    - [FlowerOfLife.handleClick]         (the 13-click sequence gate),
    - [reducer] of [store.js]            (the scene state machine),
    - [updateCubeAppearance] and the alignment computation of
      [SaturnianCube.svelte]             (the alignment detector),
    - the [onMount] of [App.svelte]      (the magic word),
    - the pointer and key handlers, the visibility block and the fade of
      [SaturnianCube.svelte], with the buttons of [SecretButtons.svelte]
                                         (the component).

    JavaScript objects are records, mutation is explicit state passing:
    a method [m] of the source is a function from the object before the
    call to the object after it, paired with the returned value.  The
    fields that only hold rendering objects (scene, meshes, geometry) are
    left out of the records.

    Numbers.  Counters, identifiers and millisecond timestamps are
    integers ([Z]).  The quotients the gates compute from them (seconds
    elapsed, phase within a cycle, opacities, thresholds) are exact
    rationals ([Q]) where the code has binary64 numbers.  For the whole
    milliseconds of [Date.now()], a comparison of a phase with a whole
    number of seconds comes out as in the code, and one with 1.3 or 1.7
    does unless the exact phase is that bound (see
    [TriangleObject.elapsed]); the properties of the breath gate that
    are stated on milliseconds leave the two bounds out.  The vectors of
    the alignment computation are binary64 numbers ([float], the
    primitive floating-point numbers), with the roundings of the code. *)

From Stdlib Require Import ZArith QArith Qround List String Ascii Bool Lia.
From Stdlib Require Import DecimalString.
From Stdlib Require Import Sorted.
From Stdlib Require Lqa PrimFloat.
From stdpp Require Import gmap.

Import ListNotations.
#[local] Open Scope Z_scope.

(** ** The JavaScript primitives the gates use *)

Module JS.

(** [Number.prototype.toString] on an integer: decimal digits, with a
    leading minus sign for a negative one. *)
Definition toString (n : Z) : string :=
  NilEmpty.string_of_int (Z.to_int n).

(** [count] copies of the characters of [pad], cycling through it. *)
Fixpoint fill (count : nat) (pad cur : string) : string :=
  match count with
  | O => EmptyString
  | S count' =>
      match cur with
      | String c cur' => String c (fill count' pad cur')
      | EmptyString =>
          match pad with
          | String c pad' => String c (fill count' pad pad')
          | EmptyString => EmptyString
          end
      end
  end.

(** [String.prototype.padStart(targetLength, padString)]. *)
Definition padStart (targetLength : nat) (padString s : string) : string :=
  if (targetLength <=? String.length s)%nat then s
  else String.append
         (fill (targetLength - String.length s) padString padString) s.

(** [String.prototype.includes(searchString)]. *)
Definition includes (searchString s : string) : bool :=
  match String.index 0 searchString s with
  | Some _ => true
  | None => false
  end.

(** Rounding towards zero, as the quotient inside JavaScript's [%]. *)
Definition trunc (q : Q) : Z := Z.quot (Qnum q) (Z.pos (Qden q)).

(** The remainder operator [a % b]: the sign follows the dividend. *)
Definition rem (a b : Q) : Q := (a - b * inject_Z (trunc (a / b)))%Q.

(** [Math.floor]. *)
Definition floor (q : Q) : Z := Qfloor q.

End JS.

(** ** ClockSecretGate: [SaturnObject] *)

Module SaturnObject.

Record t := mk {
  saturnCounter : Z;
  lastSixMoment : Z;
  saturnSecretUnlocked : bool;
  triangleRevealed : bool
}.

(** The fields the constructor sets. *)
Definition constructor : t :=
  {| saturnCounter := 0;
     lastSixMoment := 0;
     saturnSecretUnlocked := false;
     triangleRevealed := false |}.

(** [containsSix] of the source, from [currentTime.getSeconds()]. *)
Definition containsSix (seconds : Z) : bool :=
  let secondsStr := JS.padStart 2 "0" (JS.toString seconds) in
  JS.includes "6" secondsStr.

(** [checkTimingSecret(currentTime)]; [seconds] is
    [currentTime.getSeconds()]. *)
Definition checkTimingSecret (seconds : Z) (this : t) : t * bool :=
  if negb (containsSix seconds) then
    ({| saturnCounter := 0;
        lastSixMoment := seconds;
        saturnSecretUnlocked := saturnSecretUnlocked this;
        triangleRevealed := triangleRevealed this |}, false)
  else if lastSixMoment this =? seconds then
    (this, false)
  else
    let counter := saturnCounter this + 1 in
    if 3 <=? counter then
      ({| saturnCounter := counter;
          lastSixMoment := seconds;
          saturnSecretUnlocked := true;
          triangleRevealed := triangleRevealed this |}, true)
    else
      ({| saturnCounter := counter;
          lastSixMoment := seconds;
          saturnSecretUnlocked := saturnSecretUnlocked this;
          triangleRevealed := triangleRevealed this |}, false).

(** The gate after a sequence of attempts, oldest first. *)
Definition attempts (secs : list Z) (this : t) : t :=
  fold_left (fun g s => fst (checkTimingSecret s g)) secs this.

(** The value each attempt of a sequence returns, oldest first. *)
Fixpoint returns (secs : list Z) (this : t) : list bool :=
  match secs with
  | [] => []
  | s :: secs' =>
      let '(this', r) := checkTimingSecret s this in
      r :: returns secs' this'
  end.

(** The counter after each attempt of a sequence, oldest first. *)
Fixpoint counters (secs : list Z) (this : t) : list Z :=
  match secs with
  | [] => []
  | s :: secs' =>
      let this' := fst (checkTimingSecret s this) in
      saturnCounter this' :: counters secs' this'
  end.

(** A reading of [Date.prototype.getSeconds]. *)
Definition isSeconds (s : Z) : Prop := 0 <= s <= 59.

(** The counter is never negative, and it is below 3 as long as the gate
    is locked. *)
Definition locked_below_three (g : t) : Prop :=
  0 <= saturnCounter g
  /\ (saturnSecretUnlocked g = false -> saturnCounter g <= 2).

(** [shouldShowProgress(time)]; [seconds] is [time.getSeconds()]. *)
Definition shouldShowProgress (seconds : Z) (this : t) : bool :=
  if saturnCounter this =? 0 then false else containsSix seconds.

(** [shouldShowTriangleButton()]. *)
Definition shouldShowTriangleButton (this : t) : bool :=
  saturnSecretUnlocked this.

(** [shouldShowTriangle()]. *)
Definition shouldShowTriangle (this : t) : bool :=
  triangleRevealed this || false.

(** [onTriangleButtonClick()]. *)
Definition onTriangleButtonClick (this : t) : t :=
  {| saturnCounter := saturnCounter this;
     lastSixMoment := lastSixMoment this;
     saturnSecretUnlocked := saturnSecretUnlocked this;
     triangleRevealed := true |}.

(** The gate has progress whenever the second it recorded has a 6. *)
Definition credited (g : t) : Prop :=
  0 <= saturnCounter g
  /\ (containsSix (lastSixMoment g) = true -> 1 <= saturnCounter g).

(** The counter is not above the length of a run of attempts at seconds
    with a 6 that ends the sequence [secs]. *)
Definition streakBound (secs : list Z) (g : t) : Prop :=
  exists pre run,
    secs = pre ++ run
    /\ Forall (fun s => containsSix s = true) run
    /\ saturnCounter g <= Z.of_nat (length run).

(** The sequence [secs] has three attempts in a row, or more, at seconds
    with a 6. *)
Definition threeInARow (secs : list Z) : Prop :=
  exists pre run post,
    secs = pre ++ run ++ post
    /\ Forall (fun s => containsSix s = true) run
    /\ (3 <= length run)%nat.

End SaturnObject.

(** ** BreathCycleGate: [TriangleObject] *)

Module TriangleObject.

Inductive phase := inhale | exhale.

(** The mesh [this.triangle]; only its visibility is read by the gate. *)
Record mesh := { visible : bool }.

Record t := mk {
  triangle : option mesh;
  breathStartTime : Z;          (* milliseconds, 0 = not started *)
  breathPhase : phase;
  breathCounter : Z;
  triangleGlowActive : bool;
  glowTimeout : option Z;       (* pending timer: when it is due *)
  lastClickCycle : Z
}.

Definition constructor : t :=
  {| triangle := None;
     breathStartTime := 0;
     breathPhase := inhale;
     breathCounter := 0;
     triangleGlowActive := false;
     glowTimeout := None;
     lastClickCycle := -1 |}.

(** [create()]: the mesh exists afterwards and is hidden. *)
Definition create (this : t) : t :=
  {| triangle := Some {| visible := false |};
     breathStartTime := breathStartTime this;
     breathPhase := breathPhase this;
     breathCounter := breathCounter this;
     triangleGlowActive := triangleGlowActive this;
     glowTimeout := glowTimeout this;
     lastClickCycle := lastClickCycle this |}.

Definition cycleDuration : Q := 6.

(** [elapsed = (currentTime - this.breathStartTime) / 1000], as the exact
    quotient.  The code rounds it to binary64, and so the remainder by
    the cycle: below, the phase of a whole millisecond is compared with
    1.3, 1.7 and 3, and the rounding matters only where the exact phase is
    1.3 or 1.7 (at 7300 and 7700 ms the code finds 1.2999999999999998 and
    1.7000000000000002, outside the window; at 1300 and 1700 ms it finds
    1.3 and 1.7, inside). *)
Definition elapsed (currentTime : Z) (this : t) : Q :=
  inject_Z (currentTime - breathStartTime this) / 1000.

(** [updateBreath()], with [currentTime] the value of [Date.now()].
    The colours written to the edge materials are not part of the
    gate and are left out. *)
Definition updateBreath (currentTime : Z) (this : t) : t * phase :=
  let start :=
    if breathStartTime this =? 0 then currentTime
    else breathStartTime this in
  let lastCycle :=
    if breathStartTime this =? 0 then -1 else lastClickCycle this in
  let elapsed := (inject_Z (currentTime - start) / 1000)%Q in
  let phaseTime := JS.rem elapsed cycleDuration in
  let newPhase := if Qlt_le_dec phaseTime 3 then inhale else exhale in
  ({| triangle := triangle this;
      breathStartTime := start;
      breathPhase := newPhase;
      breathCounter := breathCounter this;
      triangleGlowActive := triangleGlowActive this;
      glowTimeout := glowTimeout this;
      lastClickCycle := lastCycle |}, newPhase).

(** [phaseTime >= 1.3 && phaseTime <= 1.7], on the exact phase: as in the
    code for every whole millisecond strictly inside or outside the
    window. *)
Definition isPeakMoment (phaseTime : Q) : bool :=
  Qle_bool 1.3 phaseTime && Qle_bool phaseTime 1.7.

Definition phaseTime (currentTime : Z) (this : t) : Q :=
  JS.rem (elapsed currentTime this) cycleDuration.

Definition currentCycle (currentTime : Z) (this : t) : Z :=
  JS.floor (elapsed currentTime this / cycleDuration).

(** [checkBreathClick()], with [currentTime] the value of [Date.now()].
    The timer of the glow is kept as the time it is due at. *)
Definition checkBreathClick (currentTime : Z) (this : t) : t * bool :=
  if isPeakMoment (phaseTime currentTime this) then
    if currentCycle currentTime this =? lastClickCycle this then
      (this, false)
    else
      let counter := breathCounter this + 1 in
      if 3 <=? counter then
        ({| triangle := triangle this;
            breathStartTime := breathStartTime this;
            breathPhase := breathPhase this;
            breathCounter := 0;
            triangleGlowActive := true;
            glowTimeout := Some (currentTime + 500);
            lastClickCycle := -1 |}, true)
      else
        ({| triangle := triangle this;
            breathStartTime := breathStartTime this;
            breathPhase := breathPhase this;
            breathCounter := counter;
            triangleGlowActive := true;
            glowTimeout := Some (currentTime + 500);
            lastClickCycle := currentCycle currentTime this |}, false)
  else
    ({| triangle := triangle this;
        breathStartTime := breathStartTime this;
        breathPhase := breathPhase this;
        breathCounter := 0;
        triangleGlowActive := false;
        glowTimeout :=
          if triangleGlowActive this then None else glowTimeout this;
        lastClickCycle := -1 |}, false).

(** The callback of the glow timer, when it fires. *)
Definition glowExpired (this : t) : t :=
  {| triangle := triangle this;
     breathStartTime := breathStartTime this;
     breathPhase := breathPhase this;
     breathCounter := breathCounter this;
     triangleGlowActive := false;
     glowTimeout := None;
     lastClickCycle := lastClickCycle this |}.

(** [show()]. *)
Definition show (this : t) : t :=
  match triangle this with
  | Some _ =>
      {| triangle := Some {| visible := true |};
         breathStartTime := 0;
         breathPhase := breathPhase this;
         breathCounter := 0;
         triangleGlowActive := false;
         glowTimeout := glowTimeout this;
         lastClickCycle := -1 |}
  | None => this
  end.

(** [hide()]. *)
Definition hide (this : t) : t :=
  match triangle this with
  | Some _ =>
      {| triangle := Some {| visible := false |};
         breathStartTime := breathStartTime this;
         breathPhase := breathPhase this;
         breathCounter := breathCounter this;
         triangleGlowActive := triangleGlowActive this;
         glowTimeout := glowTimeout this;
         lastClickCycle := lastClickCycle this |}
  | None => this
  end.

(** The gate after a sequence of clicks at the given times. *)
Definition clicks (times : list Z) (this : t) : t :=
  fold_left (fun g now => fst (checkBreathClick now g)) times this.

(** Counter and returned value of each click of a sequence. *)
Fixpoint trace (times : list Z) (this : t) : list (Z * bool) :=
  match times with
  | [] => []
  | now :: times' =>
      let '(this', r) := checkBreathClick now this in
      (breathCounter this', r) :: trace times' this'
  end.

(** The counter is within 0..2, and with progress the cycle credited last
    is at least the counter less one and not after the cycle of the time
    [m] (milliseconds after the anchor). *)
Definition paced (m : Z) (g : t) : Prop :=
  0 <= breathCounter g <= 2
  /\ (1 <= breathCounter g ->
      breathCounter g - 1 <= lastClickCycle g <= m / 6000).

End TriangleObject.

(** ** SequenceGate: [FlowerOfLife] *)

Module FlowerOfLife.

(** A [THREE.Object3D] as the gate sees it: whether it is shown. *)
Record object3d := { visible : bool }.

(** What the raycaster hits: the [userData] of a child of the flower
    group.  A clickable node has [isNode] set; the tube mesh of a circle
    carries an [id] and no [isNode].  No ancestor of a child (the group,
    the scene) is a node, so the walk up the parents finds nothing. *)
Record userData := { isNode : bool; id : option Z }.

Record t := mk {
  flowerGroup : option object3d;
  metatronCube : option object3d;
  metatronClicks : list Z;
  showMetatron : bool;
  nodeMap : gmap Z Z;           (* id of a circle, colour of its material *)
  revealTimers : nat            (* callbacks scheduled by [setTimeout] *)
}.

Definition FRUIT_OF_LIFE_ORDER : list Z :=
  [0; 1; 3; 5; 2; 4; 6; 7; 9; 11; 8; 10; 12].

Definition white : Z := 0xffffff.
Definition dimmed : Z := 0x666666.

Definition constructor : t :=
  {| flowerGroup := None;
     metatronCube := None;
     metatronClicks := [];
     showMetatron := false;
     nodeMap := empty;
     revealTimers := 0 |}.

(** [create()]: thirteen white circles, ids 0 to 12, in a hidden group. *)
Definition create (this : t) : t :=
  {| flowerGroup := Some {| visible := false |};
     metatronCube := metatronCube this;
     metatronClicks := metatronClicks this;
     showMetatron := showMetatron this;
     nodeMap :=
       fold_left (fun m i => <[ i := white ]> m)
         ([0] ++ map (fun i => i + 1) [0; 1; 2; 3; 4; 5]
              ++ map (fun i => i + 7) [0; 1; 2; 3; 4; 5])
         (nodeMap this);
     revealTimers := revealTimers this |}.

(** [reset()]. *)
Definition reset (this : t) : t :=
  {| flowerGroup := flowerGroup this;
     metatronCube := metatronCube this;
     metatronClicks := [];
     showMetatron := false;
     nodeMap := (fun _ => white) <$> nodeMap this;
     revealTimers := revealTimers this |}.

(** The node a hit resolves to: [clickedNode.userData.id] when the
    first intersection is a node with an id. *)
Definition clickedNode (intersects : list userData) : option Z :=
  match intersects with
  | [] => None
  | clickedObject :: _ =>
      if isNode clickedObject then id clickedObject else None
  end.

(** [handleClick(raycaster)]; [intersects] is what
    [raycaster.intersectObjects] returns.  [None] is the [TypeError] of
    reading [this.flowerGroup.children] before [create()]. *)
Definition handleClick (intersects : list userData) (this : t)
  : option (t * bool) :=
  if showMetatron this then Some (this, false)
  else
    match flowerGroup this with
    | None => None
    | Some _ =>
        match clickedNode intersects with
        | None => Some (this, false)
        | Some clickedId =>
            let expectedId :=
              nth_error FRUIT_OF_LIFE_ORDER (length (metatronClicks this)) in
            if decide (Some clickedId = expectedId) then
              let clicks := metatronClicks this ++ [clickedId] in
              let colours := alter (fun _ => dimmed) clickedId (nodeMap this) in
              if (length clicks =? 13)%nat then
                Some ({| flowerGroup := flowerGroup this;
                         metatronCube :=
                           match metatronCube this with
                           | Some cube => Some cube
                           | None => Some {| visible := false |}
                           end;
                         metatronClicks := clicks;
                         showMetatron := true;
                         nodeMap := colours;
                         revealTimers := S (revealTimers this) |}, true)
              else
                Some ({| flowerGroup := flowerGroup this;
                         metatronCube := metatronCube this;
                         metatronClicks := clicks;
                         showMetatron := showMetatron this;
                         nodeMap := colours;
                         revealTimers := revealTimers this |}, true)
            else Some (reset this, false)
        end
    end.

(** The callback scheduled on completion, when it fires. *)
Definition revealTimeout (this : t) : t :=
  {| flowerGroup :=
       match flowerGroup this with
       | Some _ => Some {| visible := false |}
       | None => None
       end;
     metatronCube :=
       match metatronCube this with
       | Some _ => Some {| visible := true |}
       | None => None
       end;
     metatronClicks := metatronClicks this;
     showMetatron := showMetatron this;
     nodeMap := nodeMap this;
     revealTimers := pred (revealTimers this) |}.

(** [show()]. *)
Definition show (this : t) : t :=
  match flowerGroup this with
  | Some _ =>
      reset {| flowerGroup := Some {| visible := true |};
               metatronCube := metatronCube this;
               metatronClicks := metatronClicks this;
               showMetatron := showMetatron this;
               nodeMap := nodeMap this;
               revealTimers := revealTimers this |}
  | None => this
  end.

(** [hide()]. *)
Definition hide (this : t) : t :=
  {| flowerGroup :=
       match flowerGroup this with
       | Some _ => Some {| visible := false |}
       | None => None
       end;
     metatronCube :=
       match metatronCube this with
       | Some _ => Some {| visible := false |}
       | None => None
       end;
     metatronClicks := metatronClicks this;
     showMetatron := false;
     nodeMap := nodeMap this;
     revealTimers := revealTimers this |}.

(** [isShowingMetatron()]. *)
Definition isShowingMetatron (this : t) : bool := showMetatron this.

(** A click that lands on the node of circle [i]. *)
Definition node (i : Z) : list userData :=
  [{| isNode := true; id := Some i |}].

(** Clicking the nodes [ids] one after the other: for each click, the
    value returned and the [showMetatron] flag after it; then the gate
    at the end.  [None] if a click raises. *)
Fixpoint clickAll (ids : list Z) (this : t)
  : option (list (bool * bool) * t) :=
  match ids with
  | [] => Some ([], this)
  | i :: ids' =>
      match handleClick (node i) this with
      | None => None
      | Some (this', accepted) =>
          match clickAll ids' this' with
          | None => None
          | Some (log, final) =>
              Some ((accepted, showMetatron this') :: log, final)
          end
      end
  end.

(** What thirteen right clicks report: twelve accepted clicks that do not
    complete the pattern, then one that does. *)
Definition thirteen_clicks : list (bool * bool) :=
  repeat (true, false) 12 ++ [(true, true)].

(** [dispose()]. *)
Definition dispose (this : t) : t :=
  {| flowerGroup := None;
     metatronCube := None;
     metatronClicks := metatronClicks this;
     showMetatron := showMetatron this;
     nodeMap := empty;
     revealTimers := revealTimers this |}.

(** The flowers that [create()] and the methods of the puzzle lead to. *)
Inductive reachable : t -> Prop :=
| reach_create : reachable (create constructor)
| reach_click intersects g g' accepted :
    reachable g ->
    handleClick intersects g = Some (g', accepted) ->
    reachable g'
| reach_reset g : reachable g -> reachable (reset g)
| reach_show g : reachable g -> reachable (show g)
| reach_hide g : reachable g -> reachable (hide g)
| reach_timeout g : reachable g -> reachable (revealTimeout g).

(** The colour a circle has when the clicks [clicks] were accepted. *)
Definition colourOf (clicks : list Z) (i : Z) : Z :=
  if decide (elem_of i clicks) then dimmed else white.

(** Progress and appearance agree: the clicks recorded are the first ones
    of the sacred order, all of them when the pattern is complete, and the
    thirteen circles are dimmed when clicked and white otherwise. *)
Definition consistent (g : t) : Prop :=
  flowerGroup g <> None
  /\ (exists k, metatronClicks g = firstn k FRUIT_OF_LIFE_ORDER)
  /\ (showMetatron g = true -> metatronClicks g = FRUIT_OF_LIFE_ORDER)
  /\ (forall i : Z,
        nodeMap g !! i
        = if decide (0 <= i <= 12)
          then Some (colourOf (metatronClicks g) i) else None).

End FlowerOfLife.

(** ** SceneStateMachine: the reducer of [store.js] *)

Module Store.

(** The JavaScript values an action can carry; an object is the list of
    its own properties, each name once. *)
#[warnings="-register-all"]
Inductive value :=
| Undefined
| Null
| Bool (b : bool)
| Num (q : Q)
| Str (s : string)
| Obj (fields : list (string * value)).

(** [!v] is [negb (truthy v)]. *)
Definition truthy (v : value) : bool :=
  match v with
  | Undefined | Null => false
  | Bool b => b
  | Num q => negb (Qeq_bool q 0)
  | Str s => negb (String.eqb s "")
  | Obj _ => true
  end.

Fixpoint field (name : string) (fields : list (string * value)) : value :=
  match fields with
  | [] => Undefined
  | (k, v) :: rest => if String.eqb k name then v else field name rest
  end.

(** [v.name]; [None] is the [TypeError] of reading a property of
    [undefined] or [null]. *)
Definition prop (name : string) (v : value) : option value :=
  match v with
  | Undefined | Null => None
  | Obj fields => Some (field name fields)
  | _ => Some Undefined
  end.

Record action := { type : value; payload : value }.

Record state := mk {
  showCube : bool;
  showSaturn : bool;
  showTriangle : bool;
  showFlower : bool;
  autoRotate : value;
  cubeSecretUnlocked : bool;
  saturnSecretUnlocked : bool;
  trinitySecretUnlocked : bool;
  mouseX : value;
  mouseY : value;
  saturnRotationX : value;
  saturnRotationY : value;
  isLoading : value;
  error : value;
  status : value;
  performanceMode : value;
  lastAction : value;
  timestamp : Z
}.

(** [initialState]; [now] is the [Date.now()] it is built at. *)
Definition initialState (now : Z) : state :=
  {| showCube := true; showSaturn := false;
     showTriangle := false; showFlower := false;
     autoRotate := Bool true;
     cubeSecretUnlocked := false;
     saturnSecretUnlocked := false;
     trinitySecretUnlocked := false;
     mouseX := Num 0; mouseY := Num 0;
     saturnRotationX := Num 0; saturnRotationY := Num 0;
     isLoading := Bool true;
     error := Null;
     status := Str "init";
     performanceMode := Undefined;
     lastAction := Null;
     timestamp := now |}.

(** [{ ...state, showCube, showSaturn, showTriangle, showFlower }]. *)
Definition withTableau (c s t f : bool) (st : state) : state :=
  {| showCube := c; showSaturn := s; showTriangle := t; showFlower := f;
     autoRotate := autoRotate st;
     cubeSecretUnlocked := cubeSecretUnlocked st;
     saturnSecretUnlocked := saturnSecretUnlocked st;
     trinitySecretUnlocked := trinitySecretUnlocked st;
     mouseX := mouseX st; mouseY := mouseY st;
     saturnRotationX := saturnRotationX st;
     saturnRotationY := saturnRotationY st;
     isLoading := isLoading st; error := error st; status := status st;
     performanceMode := performanceMode st;
     lastAction := lastAction st; timestamp := timestamp st |}.

(** [{ ...state, autoRotate }]. *)
Definition withAutoRotate (v : value) (st : state) : state :=
  {| showCube := showCube st; showSaturn := showSaturn st;
     showTriangle := showTriangle st; showFlower := showFlower st;
     autoRotate := v;
     cubeSecretUnlocked := cubeSecretUnlocked st;
     saturnSecretUnlocked := saturnSecretUnlocked st;
     trinitySecretUnlocked := trinitySecretUnlocked st;
     mouseX := mouseX st; mouseY := mouseY st;
     saturnRotationX := saturnRotationX st;
     saturnRotationY := saturnRotationY st;
     isLoading := isLoading st; error := error st; status := status st;
     performanceMode := performanceMode st;
     lastAction := lastAction st; timestamp := timestamp st |}.

(** [{ ...state, cubeSecretUnlocked, saturnSecretUnlocked,
      trinitySecretUnlocked }]. *)
Definition withSecrets (c s t : bool) (st : state) : state :=
  {| showCube := showCube st; showSaturn := showSaturn st;
     showTriangle := showTriangle st; showFlower := showFlower st;
     autoRotate := autoRotate st;
     cubeSecretUnlocked := c;
     saturnSecretUnlocked := s;
     trinitySecretUnlocked := t;
     mouseX := mouseX st; mouseY := mouseY st;
     saturnRotationX := saturnRotationX st;
     saturnRotationY := saturnRotationY st;
     isLoading := isLoading st; error := error st; status := status st;
     performanceMode := performanceMode st;
     lastAction := lastAction st; timestamp := timestamp st |}.

(** [{ ...state, mouseX, mouseY, saturnRotationX, saturnRotationY }]. *)
Definition withInput (mx my rx ry : value) (st : state) : state :=
  {| showCube := showCube st; showSaturn := showSaturn st;
     showTriangle := showTriangle st; showFlower := showFlower st;
     autoRotate := autoRotate st;
     cubeSecretUnlocked := cubeSecretUnlocked st;
     saturnSecretUnlocked := saturnSecretUnlocked st;
     trinitySecretUnlocked := trinitySecretUnlocked st;
     mouseX := mx; mouseY := my;
     saturnRotationX := rx; saturnRotationY := ry;
     isLoading := isLoading st; error := error st; status := status st;
     performanceMode := performanceMode st;
     lastAction := lastAction st; timestamp := timestamp st |}.

(** [{ ...state, isLoading, error, status, performanceMode }]. *)
Definition withSystem (l e s p : value) (st : state) : state :=
  {| showCube := showCube st; showSaturn := showSaturn st;
     showTriangle := showTriangle st; showFlower := showFlower st;
     autoRotate := autoRotate st;
     cubeSecretUnlocked := cubeSecretUnlocked st;
     saturnSecretUnlocked := saturnSecretUnlocked st;
     trinitySecretUnlocked := trinitySecretUnlocked st;
     mouseX := mouseX st; mouseY := mouseY st;
     saturnRotationX := saturnRotationX st;
     saturnRotationY := saturnRotationY st;
     isLoading := l; error := e; status := s;
     performanceMode := p;
     lastAction := lastAction st; timestamp := timestamp st |}.

(** [{ ...state, lastAction: action.type, timestamp }]. *)
Definition stamped (a : action) (now : Z) (st : state) : state :=
  {| showCube := showCube st; showSaturn := showSaturn st;
     showTriangle := showTriangle st; showFlower := showFlower st;
     autoRotate := autoRotate st;
     cubeSecretUnlocked := cubeSecretUnlocked st;
     saturnSecretUnlocked := saturnSecretUnlocked st;
     trinitySecretUnlocked := trinitySecretUnlocked st;
     mouseX := mouseX st; mouseY := mouseY st;
     saturnRotationX := saturnRotationX st;
     saturnRotationY := saturnRotationY st;
     isLoading := isLoading st; error := error st; status := status st;
     performanceMode := performanceMode st;
     lastAction := type a; timestamp := now |}.

(** The [case] of the [switch] that a string [action.type] selects. *)
Definition typed (now : Z) (st : state) (a : action) (t : string)
  : option state :=
  if String.eqb t "SHOW_CUBE" then
    Some (stamped a now (withTableau true false false false st))
  else if String.eqb t "SHOW_SATURN" then
    Some (stamped a now (withTableau false true false false st))
  else if String.eqb t "SHOW_TRIANGLE" then
    Some (stamped a now (withTableau false false true false st))
  else if String.eqb t "SHOW_FLOWER" then
    Some (stamped a now (withTableau false false false true st))
  else if String.eqb t "TOGGLE_AUTO_ROTATE" then
    Some (stamped a now
            (withAutoRotate (Bool (negb (truthy (autoRotate st)))) st))
  else if String.eqb t "SET_AUTO_ROTATE" then
    Some (stamped a now (withAutoRotate (payload a) st))
  else if String.eqb t "UNLOCK_CUBE_SECRET" then
    Some (stamped a now
            (withSecrets true (saturnSecretUnlocked st)
               (trinitySecretUnlocked st) st))
  else if String.eqb t "UNLOCK_SATURN_SECRET" then
    Some (stamped a now
            (withSecrets (cubeSecretUnlocked st) true
               (trinitySecretUnlocked st) st))
  else if String.eqb t "UNLOCK_TRINITY_SECRET" then
    Some (stamped a now
            (withSecrets (cubeSecretUnlocked st)
               (saturnSecretUnlocked st) true st))
  else if String.eqb t "UPDATE_MOUSE_POSITION" then
    match prop "x" (payload a), prop "y" (payload a) with
    | Some x, Some y =>
        Some (stamped a now
                (withInput x y (saturnRotationX st) (saturnRotationY st) st))
    | _, _ => None
    end
  else if String.eqb t "UPDATE_ROTATION" then
    match prop "x" (payload a), prop "y" (payload a) with
    | Some x, Some y =>
        Some (stamped a now (withInput (mouseX st) (mouseY st) x y st))
    | _, _ => None
    end
  else if String.eqb t "SET_LOADING" then
    Some (stamped a now
            (withSystem (payload a) (error st) (status st)
               (performanceMode st) st))
  else if String.eqb t "SET_ERROR" then
    Some (stamped a now
            (withSystem (Bool false) (payload a) (Str "error")
               (performanceMode st) st))
  else if String.eqb t "SET_STATUS" then
    Some (stamped a now
            (withSystem (isLoading st) (error st) (payload a)
               (performanceMode st) st))
  else if String.eqb t "RESET_STATE" then
    Some (initialState now)
  else Some st.

(** [reducer(state, action)]; [now] is the [Date.now()] it reads, and
    [None] a [TypeError].  [ACTION_TYPES] has no [SET_PERFORMANCE_MODE]
    key, so the label of that [case] is [undefined]: it is selected by
    an action without a [type]. *)
Definition reducer (now : Z) (st : state) (a : action) : option state :=
  match type a with
  | Str t => typed now st a t
  | Undefined =>
      Some (stamped a now
              (withSystem (isLoading st) (error st) (status st)
                 (payload a) st))
  | _ => Some st
  end.

(** The [actions] creators. *)
Module actions.
Definition plain (t : string) : action :=
  {| type := Str t; payload := Undefined |}.
Definition showCube := plain "SHOW_CUBE".
Definition showSaturn := plain "SHOW_SATURN".
Definition showTriangle := plain "SHOW_TRIANGLE".
Definition showFlower := plain "SHOW_FLOWER".
Definition toggleAutoRotate := plain "TOGGLE_AUTO_ROTATE".
Definition setAutoRotate (v : value) : action :=
  {| type := Str "SET_AUTO_ROTATE"; payload := v |}.
Definition unlockCubeSecret := plain "UNLOCK_CUBE_SECRET".
Definition unlockSaturnSecret := plain "UNLOCK_SATURN_SECRET".
Definition unlockTrinitySecret := plain "UNLOCK_TRINITY_SECRET".
Definition updateMousePosition (x y : value) : action :=
  {| type := Str "UPDATE_MOUSE_POSITION";
     payload := Obj [("x"%string, x); ("y"%string, y)] |}.
Definition updateRotation (x y : value) : action :=
  {| type := Str "UPDATE_ROTATION";
     payload := Obj [("x"%string, x); ("y"%string, y)] |}.
Definition setLoading (v : value) : action :=
  {| type := Str "SET_LOADING"; payload := v |}.
Definition setError (v : value) : action :=
  {| type := Str "SET_ERROR"; payload := v |}.
Definition setStatus (v : value) : action :=
  {| type := Str "SET_STATUS"; payload := v |}.
Definition reset := plain "RESET_STATE".
End actions.

(** [sceneStore.dispatch(action)] for each action of a list; the k-th
    call of the reducer reads [clock k] from [Date.now()].  A
    [TypeError] of the reducer ends the sequence. *)
Fixpoint dispatchAll (clock : nat -> Z) (k : nat) (acts : list action)
    (st : state) : option state :=
  match acts with
  | [] => Some st
  | a :: acts' =>
      match reducer (clock k) st a with
      | Some st' => dispatchAll clock (S k) acts' st'
      | None => None
      end
  end.

(** [action.type === t] for a string [t]. *)
Definition hasType (t : string) (a : action) : bool :=
  match type a with
  | Str s => String.eqb s t
  | _ => false
  end.

End Store.

(** ** The magic word: [onMount] of [App.svelte] *)

Module App.

(** The mutable state of the page: the component variables of
    [App.svelte], the store, and the three gate objects of the scene. *)
Record page := mk {
  mounted : bool;
  magicMode : bool;
  sceneStore : Store.state;
  saturnObject : SaturnObject.t;
  triangleObject : TriangleObject.t;
  flowerObject : FlowerOfLife.t
}.

(** [URLSearchParams.prototype.get]: the first value of the name, or
    [null]. *)
Fixpoint get (name : string) (urlParams : list (string * string))
  : option string :=
  match urlParams with
  | [] => None
  | (k, v) :: rest => if String.eqb k name then Some v else get name rest
  end.

(** [urlParams.get('magic_word') === 'abracadabra']. *)
Definition magic (urlParams : list (string * string)) : bool :=
  match get "magic_word" urlParams with
  | Some w => String.eqb w "abracadabra"
  | None => false
  end.

(** The actions [onMount] dispatches, in order. *)
Definition dispatched (urlParams : list (string * string))
  : list Store.action :=
  (if magic urlParams
   then [Store.actions.unlockCubeSecret;
         Store.actions.unlockSaturnSecret;
         Store.actions.unlockTrinitySecret]
   else [])
  ++ [Store.actions.setStatus (Store.Str "ready");
      Store.actions.setLoading (Store.Bool false)].

(** The callback of [onMount]; [urlParams] are the parameters of
    [window.location.search], [clock] the readings of [Date.now()];
    [None] if a dispatch raises. *)
Definition onMount (urlParams : list (string * string))
    (clock : nat -> Z) (p : page) : option page :=
  match Store.dispatchAll clock 0 (dispatched urlParams) (sceneStore p) with
  | Some store =>
      Some {| mounted := true;
              magicMode := if magic urlParams then true else magicMode p;
              sceneStore := store;
              saturnObject := saturnObject p;
              triangleObject := triangleObject p;
              flowerObject := flowerObject p |}
  | None => None
  end.

(** The page as the scripts leave it before [onMount] runs. *)
Definition initial (now : Z) : page :=
  {| mounted := false;
     magicMode := false;
     sceneStore := Store.initialState now;
     saturnObject := SaturnObject.constructor;
     triangleObject := TriangleObject.create TriangleObject.constructor;
     flowerObject := FlowerOfLife.create FlowerOfLife.constructor |}.

End App.

(** ** AlignmentDetector, the reveal timer: [updateCubeAppearance] *)

Module SaturnianCube.

(** The material of an edge of the cube. *)
Record material := { color : Z; opacity : Q }.

(** The variables of the component that [updateCubeAppearance] uses. *)
Record vars := {
  cubeObject : bool;              (* the cube object exists *)
  targetCubeOpacity : Q;
  yellowEdgeStartTime : Z;        (* milliseconds, 0 = timer off *)
  yellowEdgeDuration : Q;
  cubeEdges : list material
}.

(** What one call reads from outside: the store, the strength computed by
    [animate], the successive values of [Date.now()] and, for each edge,
    on which side of the cube it lies. *)
Record frame := {
  state : Store.state;
  hexagonStrength : Q;
  clock : nat -> Z;
  isFrontFacing : nat -> bool
}.

(** A call in progress: the variables, how many times the clock was
    read, and the actions dispatched so far. *)
Record run := {
  this : vars;
  reads : nat;
  dispatched : list Store.action
}.

Definition M (A : Type) : Type := run -> A * run.

Definition ret {A} (a : A) : M A := fun r => (a, r).

Definition bind {A B} (c : M A) (k : A -> M B) : M B :=
  fun r => let '(a, r') := c r in k a r'.

Notation "'let!' x := c 'in' k" := (bind c (fun x => k))
  (at level 10, x name, c at level 200, k at level 200).
Notation "c >> k" := (bind c (fun _ => k))
  (at level 100, k at level 200, right associativity).

Definition when (b : bool) (c : M unit) : M unit :=
  if b then c else ret tt.

(** [Date.now()]. *)
Definition dateNow (f : frame) : M Z :=
  fun r => (clock f (reads r),
            {| this := this r; reads := S (reads r);
               dispatched := dispatched r |}).

Definition get : M vars := fun r => (this r, r).

Definition put (v : vars) : M unit :=
  fun r => (tt, {| this := v; reads := reads r;
                   dispatched := dispatched r |}).

Definition setStartTime (t : Z) : M unit :=
  let! v := get in
  put {| cubeObject := cubeObject v;
         targetCubeOpacity := targetCubeOpacity v;
         yellowEdgeStartTime := t;
         yellowEdgeDuration := yellowEdgeDuration v;
         cubeEdges := cubeEdges v |}.

Definition setDuration (d : Q) : M unit :=
  let! v := get in
  put {| cubeObject := cubeObject v;
         targetCubeOpacity := targetCubeOpacity v;
         yellowEdgeStartTime := yellowEdgeStartTime v;
         yellowEdgeDuration := d;
         cubeEdges := cubeEdges v |}.

Definition setTargetOpacity (o : Q) : M unit :=
  let! v := get in
  put {| cubeObject := cubeObject v;
         targetCubeOpacity := o;
         yellowEdgeStartTime := yellowEdgeStartTime v;
         yellowEdgeDuration := yellowEdgeDuration v;
         cubeEdges := cubeEdges v |}.

(** [edge.material.color.setHex(c); edge.material.opacity = o]. *)
Definition setEdge (index : nat) (c : Z) (o : Q) : M unit :=
  let! v := get in
  put {| cubeObject := cubeObject v;
         targetCubeOpacity := targetCubeOpacity v;
         yellowEdgeStartTime := yellowEdgeStartTime v;
         yellowEdgeDuration := yellowEdgeDuration v;
         cubeEdges := <[ index := {| color := c; opacity := o |} ]>
                        (cubeEdges v) |}.

(** [sceneStore.dispatch(a)], recorded. *)
Definition dispatch (a : Store.action) : M unit :=
  fun r => (tt, {| this := this r; reads := reads r;
                   dispatched := dispatched r ++ [a] |}).

(** [state.secretUnlocked]: the store has no such key. *)
Definition secretUnlocked (st : Store.state) : Store.value :=
  Store.Undefined.

(** The timer is switched off. *)
Definition resetTimer : M unit :=
  setStartTime 0 >> setDuration 0.

(** The body of [cubeEdges.forEach((edge, index) => ...)]. *)
Definition edgeBody (f : frame) (index : nat) : M unit :=
  if Qlt_le_dec 0.995 (hexagonStrength f) then
    setTargetOpacity 0.0 >>
    setEdge index 0xffcc00 1.0 >>
    let! v := get in
    when (yellowEdgeStartTime v =? 0)
      (let! t := dateNow f in setStartTime t) >>
    let! t := dateNow f in
    let! v := get in
    setDuration (inject_Z (t - yellowEdgeStartTime v) / 1000) >>
    let! v := get in
    when (negb (Store.truthy (secretUnlocked (state f)))
          && Qle_bool 2.0 (yellowEdgeDuration v))
      (dispatch Store.actions.unlockCubeSecret)
  else if Qlt_le_dec 0.95 (hexagonStrength f) then
    setTargetOpacity 0.1 >>
    (if isFrontFacing f index then setEdge index 0xcccccc 0.9
     else setEdge index 0x666666 0.4) >>
    resetTimer
  else
    setTargetOpacity 1.0 >>
    setEdge index 0x888888 1.0 >>
    resetTimer.

(** [forEach] over the indices of the edges. *)
Fixpoint forEach (indices : list nat) (body : nat -> M unit) : M unit :=
  match indices with
  | [] => ret tt
  | i :: rest => body i >> forEach rest body
  end.

(** The statements under "Handle yellow edge timing". *)
Definition yellowEdgeTiming (f : frame) : M unit :=
  let! v := get in
  when (Store.cubeSecretUnlocked (state f) && (yellowEdgeStartTime v =? 0))
    (let! t := dateNow f in setStartTime t) >>
  let! v := get in
  if 0 <? yellowEdgeStartTime v
  then let! t := dateNow f in
       setDuration (inject_Z (t - yellowEdgeStartTime v))
  else setDuration 0.

(** The statement under "Update opacity based on hexagon strength". *)
Definition updateOpacity (f : frame) : M unit :=
  if Qlt_le_dec 0.995 (hexagonStrength f) then
    setTargetOpacity 0.0 >>
    let! v := get in
    when (negb (Store.truthy (secretUnlocked (state f)))
          && Qle_bool 2000 (yellowEdgeDuration v))
      (dispatch Store.actions.unlockCubeSecret)
  else if Qlt_le_dec 0.95 (hexagonStrength f) then
    setTargetOpacity 0.1 >> resetTimer
  else
    setTargetOpacity 1.0 >> resetTimer.

(** [updateCubeAppearance(hexagonStrength)]. *)
Definition updateCubeAppearance (f : frame) : M unit :=
  let! v := get in
  if negb (cubeObject v) then ret tt
  else
    yellowEdgeTiming f >>
    updateOpacity f >>
    let! v := get in
    forEach (seq 0 (length (cubeEdges v))) (edgeBody f).

(** One call on the variables [v]: the variables after it and the
    actions it dispatched. *)
Definition call (f : frame) (v : vars) : vars * list Store.action :=
  let '(_, r) :=
    updateCubeAppearance f {| this := v; reads := 0; dispatched := [] |} in
  (this r, dispatched r).

(** The variables after a sequence of calls, oldest first. *)
Definition calls (frames : list frame) (v : vars) : vars :=
  fold_left (fun v f => fst (call f v)) frames v.

(** The full-reveal condition of a call. *)
Definition fullReveal (f : frame) : Prop := (0.995 < hexagonStrength f)%Q.

(** The timer of a call in progress. *)
Definition timer (r : run) : Z := yellowEdgeStartTime (this r).

(** [s] was read from the clock during a call of [frames], and that call
    and all the calls after it were at full reveal. *)
Definition heldSince (frames : list frame) (s : Z) : Prop :=
  exists older f0 rest a,
    frames = older ++ f0 :: rest
    /\ Forall fullReveal (f0 :: rest)
    /\ clock f0 a = s.

(** The scene exists and a running timer was started by a call from
    which on the reveal was full. *)
Definition timerHeld (frames : list frame) (v : vars) : Prop :=
  cubeObject v = true
  /\ (yellowEdgeStartTime v <> 0 -> heldSince frames (yellowEdgeStartTime v)).

(** During a call [f]: a running timer has an admissible start, and an
    unlock was dispatched only when the clock of [f] read 2000 ms or more
    past an admissible start. *)
Definition debounced (f : frame) (adm : Z -> Prop) (r : run) : Prop :=
  (timer r <> 0 -> adm (timer r))
  /\ (dispatched r <> [] -> exists s b, adm s /\ 2000 <= clock f b - s).

(** During a call below full reveal: the timer is off and nothing more
    was dispatched than [log]. *)
Definition timerOff (log : list Store.action) (r : run) : Prop :=
  yellowEdgeStartTime (this r) = 0
  /\ yellowEdgeDuration (this r) = 0%Q
  /\ dispatched r = log.

(** The cube object is not touched by a call, and the only action a
    call dispatches is the unlock of the cube. *)
Definition untouched (v : vars) (r : run) : Prop :=
  cubeObject (this r) = cubeObject v
  /\ Forall (eq Store.actions.unlockCubeSecret) (dispatched r).

(** The variables when the component is created, with the twelve edges
    of [CubeObject.createIndividualEdges]. *)
Definition created : vars :=
  {| cubeObject := true;
     targetCubeOpacity := 1.0;
     yellowEdgeStartTime := 0;
     yellowEdgeDuration := 0;
     cubeEdges := repeat {| color := 0x888888; opacity := 1.0 |} 12 |}.

(** [state.showCube]: with the cube object, the condition under which
    [animate] calls [updateCubeAppearance]. *)
Definition onCube (f : frame) : bool := Store.showCube (state f).

(** What [animate] makes of the strength of a frame before it is used: 0
    in automatic rotation, and 0 on the Saturn tableau, where the largest
    alignment is left at 0. *)
Definition computed (f : frame) : Prop :=
  Store.truthy (Store.autoRotate (state f)) = true
  \/ Store.showSaturn (state f) = true ->
  (hexagonStrength f == 0)%Q.

(** A frame of [animate], as far as the detector goes: the strength
    [hexagonStrength f] is computed on every frame, and
    [updateCubeAppearance] is called with it only when
    [state.showCube && cubeObject]; nothing else in the frame touches the
    timer. *)
Definition animate (f : frame) (v : vars) : vars * list Store.action :=
  if Store.showCube (state f) && cubeObject v then call f v else (v, []).

(** The variables after a sequence of frames, oldest first. *)
Definition animations (frames : list frame) (v : vars) : vars :=
  fold_left (fun v f => fst (animate f v)) frames v.

End SaturnianCube.

(** ** AlignmentDetector, the reveal strength: the computation of
       [hexagonStrength] in [animate]

    The scene works on the vectors of three.js, whose coordinates are
    binary64 numbers; they are the primitive floating-point numbers here,
    and each operation rounds as the code does.  three.js and [Math] are
    dependencies, not part of the repository.  [applyEuler] turns a
    vector by the quaternion that three.js computes from the Euler angles
    through [Math.sin] and [Math.cos]: that quaternion is the rotation of
    the model, and the function that turns a vector by it enters the
    detector as a parameter, with the two formulas by which three.js has
    computed it as instances.  [Math.pow], whose result the language
    leaves to the implementation, is a parameter too. *)

Module Alignment.

Import PrimFloat.
#[local] Open Scope float_scope.

(** [THREE.Vector3]. *)
Record Vector3 := Vec { x : float; y : float; z : float }.

(** [THREE.Quaternion]. *)
Record Quaternion := Quat { qx : float; qy : float; qz : float; qw : float }.

(** [a || b] on numbers: [b] when [a] is 0 or NaN. *)
Definition orElse (a b : float) : float :=
  if is_zero a || is_nan a then b else a.

(** [Math.max(a, b)]: NaN when an argument is NaN, and +0 above -0. *)
Definition max (a b : float) : float :=
  if is_nan a || is_nan b then nan
  else if a <? b then b
  else if b <? a then a
  else if get_sign a then b else a.

(** [a.dot(b)]. *)
Definition dot (a b : Vector3) : float :=
  x a * x b + y a * y b + z a * z b.

(** [a.clone().sub(b)]. *)
Definition sub (a b : Vector3) : Vector3 :=
  Vec (x a - x b) (y a - y b) (z a - z b).

(** [v.length()]. *)
Definition length (v : Vector3) : float :=
  sqrt (x v * x v + y v * y v + z v * z v).

(** [v.multiplyScalar(s)]. *)
Definition multiplyScalar (v : Vector3) (s : float) : Vector3 :=
  Vec (x v * s) (y v * s) (z v * s).

(** [v.divideScalar(s)], that is [v.multiplyScalar(1 / s)]. *)
Definition divideScalar (v : Vector3) (s : float) : Vector3 :=
  multiplyScalar v (1 / s).

(** [v.normalize()], that is [v.divideScalar(v.length() || 1)]. *)
Definition normalize (v : Vector3) : Vector3 :=
  divideScalar v (orElse (length v) 1).



(** [new THREE.Vector3(a, b, c).normalize()]. *)
Definition corner (a b c : float) : Vector3 := normalize (Vec a b c).

(** The eight corner directions of the cube, in local space. *)
Definition localCorners : list Vector3 :=
  [ corner 1 1 1;       corner 1 1 (-1);
    corner 1 (-1) 1;    corner 1 (-1) (-1);
    corner (-1) 1 1;    corner (-1) 1 (-1);
    corner (-1) (-1) 1; corner (-1) (-1) (-1) ].

Section Detector.

(** [corner.clone().applyEuler(cube.rotation)]: three.js turns the corner
    by the quaternion of the rotation. *)
Variable rotate : Quaternion -> Vector3 -> Vector3.

(** [Math.pow]. *)
Variable pow : float -> float -> float.

(** [worldCorners]. *)
Definition worldCorners (rotation : Quaternion) : list Vector3 :=
  map (fun corner => rotate rotation corner) localCorners.

(** [maxAlignment] after the [forEach] over the world corners. *)
Definition maxAlignment (viewDir : Vector3) (rotation : Quaternion) : float :=
  fold_left (fun maxAlignment corner =>
               max maxAlignment (abs (dot viewDir corner)))
    (worldCorners rotation) 0.

(** [Math.pow(maxAlignment, 100)]. *)
Definition computeRevealStrength (viewDirection : Vector3)
    (objectRotation : Quaternion) : float :=
  pow (maxAlignment viewDirection objectRotation) 100.

(** [hexagonStrength] as [animate] computes it; [cube] is the rotation
    and the position of the cube when it exists. *)
Definition hexagonStrength (st : Store.state)
    (cameraPosition : Vector3) (cube : option (Quaternion * Vector3))
  : float :=
  let maxAlignment :=
    match cube with
    | Some (rotation, position) =>
        if Store.showSaturn st then 0
        else maxAlignment (normalize (sub cameraPosition position)) rotation
    | None => 0
    end in
  if Store.truthy (Store.autoRotate st) then 0 else pow maxAlignment 100.

End Detector.


(** One unit in the last place above 1. *)
Definition aboveOne : float := 0x1.0000000000001p+0.

End Alignment.

(** ** The handlers of [SaturnianCube.svelte] *)

Module Scene.

(** The component and what it holds: the store, the visibility of the
    cube and of Saturn, the three gate objects, and the variables of the
    script.  [currentTime] is [currentTime.getSeconds()] of the [Date]
    that [animate] stores at every frame. *)
Record t := mk {
  sceneStore : Store.state;
  cubeVisible : bool;
  saturnVisible : bool;
  saturnObject : SaturnObject.t;
  triangleObject : TriangleObject.t;
  flowerObject : FlowerOfLife.t;
  currentTime : Z;
  saturnCounter : Z;
  breathPhase : TriangleObject.phase;
  triangleGlowActive : bool;
  showMetatron : bool;
  currentCubeOpacity : Q
}.

(** The component after [init()], over a store [store]. *)
Definition init (store : Store.state) : t :=
  {| sceneStore := store;
     cubeVisible := true;
     saturnVisible := false;
     saturnObject := SaturnObject.constructor;
     triangleObject := TriangleObject.create TriangleObject.constructor;
     flowerObject := FlowerOfLife.create FlowerOfLife.constructor;
     currentTime := 0;
     saturnCounter := 0;
     breathPhase := TriangleObject.inhale;
     triangleGlowActive := false;
     showMetatron := false;
     currentCubeOpacity := 1.0 |}.

Definition withStore (store : Store.state) (s : t) : t :=
  {| sceneStore := store;
     cubeVisible := cubeVisible s;
     saturnVisible := saturnVisible s;
     saturnObject := saturnObject s;
     triangleObject := triangleObject s;
     flowerObject := flowerObject s;
     currentTime := currentTime s;
     saturnCounter := saturnCounter s;
     breathPhase := breathPhase s;
     triangleGlowActive := triangleGlowActive s;
     showMetatron := showMetatron s;
     currentCubeOpacity := currentCubeOpacity s |}.

(** [sceneStore.dispatch(a)]; [now] is the [Date.now()] of the reducer,
    [None] a [TypeError]. *)
Definition dispatch (now : Z) (a : Store.action) (s : t) : option t :=
  match Store.reducer now (sceneStore s) a with
  | Some store => Some (withStore store s)
  | None => None
  end.

(** [$canInteractWithCube]. *)
Definition canInteractWithCube (s : t) : bool :=
  negb (Store.showTriangle (sceneStore s)).

(** [handleSaturnTimingClick()]. *)
Definition handleSaturnTimingClick (now : Z) (s : t) : option t :=
  let '(saturn, unlocked) :=
    SaturnObject.checkTimingSecret (currentTime s) (saturnObject s) in
  let after (s' : t) : t :=
    {| sceneStore := sceneStore s';
       cubeVisible := cubeVisible s';
       saturnVisible := saturnVisible s';
       saturnObject := saturn;
       triangleObject := triangleObject s';
       flowerObject := flowerObject s';
       currentTime := currentTime s';
       saturnCounter := SaturnObject.saturnCounter saturn;
       breathPhase := breathPhase s';
       triangleGlowActive := triangleGlowActive s';
       showMetatron := showMetatron s';
       currentCubeOpacity := currentCubeOpacity s' |} in
  if unlocked then
    match dispatch now Store.actions.unlockSaturnSecret s with
    | Some s' => Some (after s')
    | None => None
    end
  else Some (after s).

(** [updateTriangleBreath()]; [now] is the [Date.now()] that
    [updateBreath] reads. *)
Definition updateTriangleBreath (now : Z) (s : t) : t :=
  let '(triangle, newPhase) :=
    TriangleObject.updateBreath now (triangleObject s) in
  {| sceneStore := sceneStore s;
     cubeVisible := cubeVisible s;
     saturnVisible := saturnVisible s;
     saturnObject := saturnObject s;
     triangleObject := triangle;
     flowerObject := flowerObject s;
     currentTime := currentTime s;
     saturnCounter := saturnCounter s;
     breathPhase := newPhase;
     triangleGlowActive := TriangleObject.triangleGlowActive triangle;
     showMetatron := showMetatron s;
     currentCubeOpacity := currentCubeOpacity s |}.

(** [handleTriangleBreathClick()]; [clock] gives the readings of
    [Date.now()], first by [checkBreathClick], then by the reducer. *)
Definition handleTriangleBreathClick (clock : nat -> Z) (s : t) : option t :=
  let '(triangle, trinity) :=
    TriangleObject.checkBreathClick (clock 0%nat) (triangleObject s) in
  let after (s' : t) : t :=
    {| sceneStore := sceneStore s';
       cubeVisible := cubeVisible s';
       saturnVisible := saturnVisible s';
       saturnObject := saturnObject s';
       triangleObject := triangle;
       flowerObject := flowerObject s';
       currentTime := currentTime s';
       saturnCounter := saturnCounter s';
       breathPhase := breathPhase s';
       triangleGlowActive := TriangleObject.triangleGlowActive triangle;
       showMetatron := showMetatron s';
       currentCubeOpacity := currentCubeOpacity s' |} in
  if trinity then
    match dispatch (clock 1%nat) Store.actions.unlockTrinitySecret s with
    | Some s1 =>
        match dispatch (clock 2%nat) Store.actions.showFlower s1 with
        | Some s2 => Some (after s2)
        | None => None
        end
    | None => None
    end
  else Some (after s).

(** A pointer event: whether its target is a button, and, when it has
    coordinates, what the raycaster through them intersects. *)
Record pointer := {
  targetIsButton : bool;
  intersects : option (list FlowerOfLife.userData)
}.

(** [handleFlowerClick(event)]. *)
Definition handleFlowerClick (event : pointer) (s : t) : option t :=
  if negb (Store.showFlower (sceneStore s)) then Some s
  else
    match intersects event with
    | None => Some s
    | Some hits =>
        match FlowerOfLife.handleClick hits (flowerObject s) with
        | None => None
        | Some (flower, accepted) =>
            Some {| sceneStore := sceneStore s;
                    cubeVisible := cubeVisible s;
                    saturnVisible := saturnVisible s;
                    saturnObject := saturnObject s;
                    triangleObject := triangleObject s;
                    flowerObject := flower;
                    currentTime := currentTime s;
                    saturnCounter := saturnCounter s;
                    breathPhase := breathPhase s;
                    triangleGlowActive := triangleGlowActive s;
                    showMetatron :=
                      if accepted then true else showMetatron s;
                    currentCubeOpacity := currentCubeOpacity s |}
        end
    end.

(** [handlePointerDown(event)]. *)
Definition handlePointerDown (event : pointer) (clock : nat -> Z) (s : t)
  : option t :=
  if targetIsButton event then Some s
  else if Store.showFlower (sceneStore s) then handleFlowerClick event s
  else if Store.showTriangle (sceneStore s) then
    handleTriangleBreathClick clock s
  else if Store.showSaturn (sceneStore s) then
    handleSaturnTimingClick (clock 0%nat) s
  else if canInteractWithCube s then
    dispatch (clock 0%nat) Store.actions.toggleAutoRotate s
  else Some s.

(** [handleKeyPress(event)]; [key] is [event.key]. *)
Definition handleKeyPress (key : string) (now : Z) (s : t) : option t :=
  if negb (canInteractWithCube s) then Some s
  else if String.eqb key " " then
    dispatch now Store.actions.toggleAutoRotate s
  else if String.eqb key "Escape" then
    dispatch now (Store.actions.setAutoRotate (Store.Bool true)) s
  else Some s.

(** [handlePointerMove(event)]; [client] are [clientX] and [clientY]
    when the event has them, [inner] the width and the height of the
    window. *)
Definition handlePointerMove (client : option (Q * Q)) (inner : Q * Q)
    (now : Z) (s : t) : option t :=
  if Store.showFlower (sceneStore s) then Some s
  else
    match client with
    | Some (clientX, clientY) =>
        let x := (clientX / fst inner * 2 - 1)%Q in
        let y := (- (clientY / snd inner) * 2 + 1)%Q in
        dispatch now
          (Store.actions.updateMousePosition (Store.Num x) (Store.Num y)) s
    | None => Some s
    end.

(** The reactive block "show exactly what the store says to show"; it
    runs when the objects of the scene exist. *)
Definition syncVisibility (s : t) : t :=
  match TriangleObject.triangle (triangleObject s),
        FlowerOfLife.flowerGroup (flowerObject s) with
  | Some triangle, Some flowerGroup =>
      let store := sceneStore s in
      {| sceneStore := store;
         cubeVisible := Store.showCube store;
         saturnVisible :=
           if Store.showSaturn store && negb (saturnVisible s) then true
           else if negb (Store.showSaturn store) && saturnVisible s
                then false
                else saturnVisible s;
         saturnObject := saturnObject s;
         triangleObject :=
           if Store.showTriangle store
              && negb (TriangleObject.visible triangle)
           then TriangleObject.show (triangleObject s)
           else if negb (Store.showTriangle store)
                   && TriangleObject.visible triangle
                then TriangleObject.hide (triangleObject s)
                else triangleObject s;
         flowerObject :=
           if Store.showFlower store
              && negb (FlowerOfLife.visible flowerGroup)
           then FlowerOfLife.show (flowerObject s)
           else if negb (Store.showFlower store)
                   && FlowerOfLife.visible flowerGroup
                then FlowerOfLife.hide (flowerObject s)
                else flowerObject s;
         currentTime := currentTime s;
         saturnCounter := saturnCounter s;
         breathPhase := breathPhase s;
         triangleGlowActive := triangleGlowActive s;
         showMetatron := showMetatron s;
         currentCubeOpacity := currentCubeOpacity s |}
  | _, _ => s
  end.

(** The smooth fade of [animate]:
    [currentCubeOpacity += (targetCubeOpacity - currentCubeOpacity) * fadeSpeed],
    in exact arithmetic; the code rounds the difference, the product and
    the sum, none of which takes the opacity past the target. *)
Definition fadeSpeed : Q := 0.08.

Definition fade (targetCubeOpacity currentCubeOpacity : Q) : Q :=
  (currentCubeOpacity
   + (targetCubeOpacity - currentCubeOpacity) * fadeSpeed)%Q.

(** The opacity after [n] frames towards the same target. *)
Fixpoint fadeFrames (n : nat) (target current : Q) : Q :=
  match n with
  | O => current
  | S n' => fadeFrames n' target (fade target current)
  end.

(** A sequence of clicks on Saturn, each with the seconds the clock
    showed at the frame before it and the [Date.now()] of the reducer. *)
Fixpoint saturnClicks (clicks : list (Z * Z)) (s : t) : option t :=
  match clicks with
  | [] => Some s
  | (seconds, now) :: rest =>
      match handleSaturnTimingClick now
              {| sceneStore := sceneStore s;
                 cubeVisible := cubeVisible s;
                 saturnVisible := saturnVisible s;
                 saturnObject := saturnObject s;
                 triangleObject := triangleObject s;
                 flowerObject := flowerObject s;
                 currentTime := seconds;
                 saturnCounter := saturnCounter s;
                 breathPhase := breathPhase s;
                 triangleGlowActive := triangleGlowActive s;
                 showMetatron := showMetatron s;
                 currentCubeOpacity := currentCubeOpacity s |} with
      | Some s' => saturnClicks rest s'
      | None => None
      end
  end.

(** Exactly one tableau is shown. *)
Definition oneTableau (store : Store.state) : Prop :=
  (if Store.showCube store then 1 else 0)
  + (if Store.showSaturn store then 1 else 0)
  + (if Store.showTriangle store then 1 else 0)
  + (if Store.showFlower store then 1 else 0) = 1.

(** The buttons of [SecretButtons.svelte]. *)
Inductive button := goToSaturn | showTriangle | showFlower | showCube.

(** Whether the template renders the button: each of the first three
    when the secret before its tableau is unlocked or in magic mode, the
    return to the cube in magic mode only. *)
Definition rendered (magicMode : bool) (state : Store.state) (b : button)
  : bool :=
  match b with
  | goToSaturn => Store.cubeSecretUnlocked state || magicMode
  | showTriangle => Store.saturnSecretUnlocked state || magicMode
  | showFlower => Store.trinitySecretUnlocked state || magicMode
  | showCube => magicMode
  end.

(** The handler that the component binds to the event of the button. *)
Definition onButton (b : button) (now : Z) (s : t) : option t :=
  match b with
  | goToSaturn => dispatch now Store.actions.showSaturn s
  | showTriangle => dispatch now Store.actions.showTriangle s
  | showFlower => dispatch now Store.actions.showFlower s
  | showCube => dispatch now Store.actions.showCube s
  end.

(** The component in the course of a session that starts at [s0]: what
    the pointer, the keys and the rendered buttons lead to, together with
    the unlock of the cube secret by [updateCubeAppearance], the breath
    update of a frame and the runs of the visibility block.  These are
    all the places where the component dispatches to the store:
    [updateSaturnAppearance] is never called. *)
Inductive session (magicMode : bool) (s0 : t) : t -> Prop :=
| session_start : session magicMode s0 s0
| session_pointer_down event clock s s' :
    session magicMode s0 s ->
    handlePointerDown event clock s = Some s' ->
    session magicMode s0 s'
| session_pointer_move client inner now s s' :
    session magicMode s0 s ->
    handlePointerMove client inner now s = Some s' ->
    session magicMode s0 s'
| session_key key now s s' :
    session magicMode s0 s ->
    handleKeyPress key now s = Some s' ->
    session magicMode s0 s'
| session_button b now s s' :
    session magicMode s0 s ->
    rendered magicMode (sceneStore s) b = true ->
    onButton b now s = Some s' ->
    session magicMode s0 s'
| session_cube_secret now s s' :
    session magicMode s0 s ->
    dispatch now Store.actions.unlockCubeSecret s = Some s' ->
    session magicMode s0 s'
| session_breath now s :
    session magicMode s0 s ->
    session magicMode s0 (updateTriangleBreath now s)
| session_visibility s :
    session magicMode s0 s ->
    session magicMode s0 (syncVisibility s).

(** Every tableau but the cube is behind its secret. *)
Definition guarded (state : Store.state) : Prop :=
  (Store.showSaturn state = true -> Store.cubeSecretUnlocked state = true)
  /\ (Store.showTriangle state = true ->
      Store.saturnSecretUnlocked state = true)
  /\ (Store.showFlower state = true ->
      Store.trinitySecretUnlocked state = true).

(** The three secrets are unlocked. *)
Definition allUnlocked (state : Store.state) : Prop :=
  Store.cubeSecretUnlocked state = true
  /\ Store.saturnSecretUnlocked state = true
  /\ Store.trinitySecretUnlocked state = true.

(** From one state of the store to another, the tableaux stay behind
    their secrets, and the three secrets stay unlocked. *)
Definition keeps (state state' : Store.state) : Prop :=
  (guarded state -> guarded state')
  /\ (allUnlocked state -> allUnlocked state').

End Scene.

(** * Properties *)

(** ** The embedding on the inputs of the repository's tests *)

Example toString_6 : JS.padStart 2 "0" (JS.toString 6) = "06"%string.
Proof. reflexivity. Qed.

Example containsSix_table :
  map SaturnObject.containsSix [6; 16; 26; 5; 60; 0; 59; 36]
  = [true; true; true; false; true; false; false; true].
Proof. reflexivity. Qed.

Example breath_trace :
  TriangleObject.trace [1500; 7500; 13500; 4500; 1500; 1600; 7400]
    TriangleObject.constructor
  = [(1, false); (2, false); (0, true); (0, false); (1,false); (1,false); (2, false)].
Proof. vm_compute. reflexivity. Qed.

Example flower_trace :
  fst <$> FlowerOfLife.clickAll [0;1;2;0;1;3]
    (FlowerOfLife.create FlowerOfLife.constructor)
  = Some [(true,false);(true,false);(false,false);(true,false);(true,false);(true,false)].
Proof. vm_compute. reflexivity. Qed.

Example cube_calls :
  let f t h := {| SaturnianCube.state := Store.initialState 0;
                  SaturnianCube.hexagonStrength := h;
                  SaturnianCube.clock := fun _ => t;
                  SaturnianCube.isFrontFacing := fun _ => true |} in
  let v1 := SaturnianCube.calls [f 1000 0.999%Q; f 2000 1%Q] SaturnianCube.created in
  (SaturnianCube.yellowEdgeStartTime v1,
   length (snd (SaturnianCube.call (f 2999 1%Q) v1)),
   length (snd (SaturnianCube.call (f 3000 1%Q) v1)),
   SaturnianCube.yellowEdgeStartTime (fst (SaturnianCube.call (f 3000 0.995%Q) v1)))
  = (1000, 0%nat, 13%nat, 0).
Proof. vm_compute. reflexivity. Qed.

(** ** ClockSecretGate *)

Section ClockGate.

Import SaturnObject.

(** For a reading of [getSeconds], the two-digit string has a 6 exactly
    when the last digit is 6: the tens digit is at most 5. *)
Lemma containsSix_last_digit (seconds : Z) :
  isSeconds seconds ->
  containsSix seconds = (seconds mod 10 =? 6).
Proof.
  intros [Hlow Hhigh].
  assert (Htable :
            forallb (fun s => Bool.eqb (containsSix s) (s mod 10 =? 6))
              (map Z.of_nat (seq 0 60)) = true) by (vm_compute; reflexivity).
  rewrite forallb_forall in Htable.
  apply Bool.eqb_prop, Htable.
  rewrite in_map_iff. exists (Z.to_nat seconds). split; [lia |].
  apply in_seq. lia.
Qed.

(** An attempt at a second without a 6 puts the counter back to 0 and
    returns false. *)
Lemma checkTimingSecret_wrong_second (seconds : Z) (g : t) :
  containsSix seconds = false ->
  saturnCounter (fst (checkTimingSecret seconds g)) = 0
  /\ snd (checkTimingSecret seconds g) = false.
Proof.
  intros Hsix. unfold checkTimingSecret. rewrite Hsix. cbn. auto.
Qed.

(** After an attempt at a second with a 6, that second is the recorded
    one, whichever branch was taken. *)
Lemma checkTimingSecret_records (seconds : Z) (g : t) :
  containsSix seconds = true ->
  lastSixMoment (fst (checkTimingSecret seconds g)) = seconds.
Proof.
  intros Hsix. unfold checkTimingSecret. rewrite Hsix. cbn.
  destruct (Z.eqb_spec (lastSixMoment g) seconds) as [Heq | Hne]; cbn.
  - exact Heq.
  - destruct (3 <=? saturnCounter g + 1); reflexivity.
Qed.

(** A second attempt at the same second is ignored. *)
Lemma checkTimingSecret_same_second (seconds : Z) (g : t) :
  containsSix seconds = true ->
  checkTimingSecret seconds (fst (checkTimingSecret seconds g))
  = (fst (checkTimingSecret seconds g), false).
Proof.
  intros Hsix.
  pose proof (checkTimingSecret_records seconds g Hsix) as Hrec.
  unfold checkTimingSecret at 1. rewrite Hsix, Hrec, Z.eqb_refl.
  reflexivity.
Qed.

(** The bound on a locked gate is kept by every attempt. *)
Lemma locked_below_three_step (seconds : Z) (g : t) :
  locked_below_three g ->
  locked_below_three (fst (checkTimingSecret seconds g)).
Proof.
  intros [Hpos Hlocked]. unfold checkTimingSecret, locked_below_three.
  destruct (containsSix seconds); cbn.
  - destruct (lastSixMoment g =? seconds); cbn; [tauto |].
    destruct (Z.leb_spec 3 (saturnCounter g + 1)); cbn.
    + split; [lia | discriminate].
    + split; [lia | intros _; lia].
  - split; [lia | intros _; lia].
Qed.

Lemma locked_below_three_attempts (secs : list Z) (g : t) :
  locked_below_three g -> locked_below_three (attempts secs g).
Proof.
  revert g. induction secs as [| s secs IH]; intros g Hg; cbn.
  - exact Hg.
  - apply IH, locked_below_three_step, Hg.
Qed.

(** An attempt at a second with a 6 that is not the recorded one adds 1
    to the counter. *)
Lemma checkTimingSecret_new_second (seconds : Z) (g : t) :
  containsSix seconds = true ->
  lastSixMoment g <> seconds ->
  saturnCounter (fst (checkTimingSecret seconds g)) = saturnCounter g + 1.
Proof.
  intros Hsix Hnew. unfold checkTimingSecret. rewrite Hsix. cbn.
  destruct (Z.eqb_spec (lastSixMoment g) seconds) as [| _];
    [contradiction |].
  destruct (3 <=? saturnCounter g + 1); reflexivity.
Qed.

(** Once set, the unlocked flag stays. *)
Lemma unlocked_stays (seconds : Z) (g : t) :
  saturnSecretUnlocked g = true ->
  saturnSecretUnlocked (fst (checkTimingSecret seconds g)) = true.
Proof.
  intros Hu. unfold checkTimingSecret.
  destruct (containsSix seconds); cbn; [| exact Hu].
  destruct (lastSixMoment g =? seconds); cbn; [exact Hu |].
  destruct (3 <=? saturnCounter g + 1); cbn; [reflexivity | exact Hu].
Qed.

End ClockGate.

(** C2.  From the gate as constructed, attempts at seconds 06, 16 and 26
    bring the counter to 1, 2 and 3, and the third returns true with the
    gate unlocked; a second attempt at the same second with a 6 returns
    false and changes nothing, so 06 twice counts once; an attempt at a
    second without a 6, such as 05, puts the counter of any gate, one at
    2 included, back to 0. *)
Theorem clock_gate_scenarios :
  SaturnObject.counters [6; 16; 26] SaturnObject.constructor = [1; 2; 3]
  /\ SaturnObject.returns [6; 16; 26] SaturnObject.constructor
     = [false; false; true]
  /\ SaturnObject.saturnSecretUnlocked
       (SaturnObject.attempts [6; 16; 26] SaturnObject.constructor) = true
  /\ SaturnObject.counters [6; 6] SaturnObject.constructor = [1; 1]
  /\ (forall seconds g,
        SaturnObject.containsSix seconds = true ->
        SaturnObject.checkTimingSecret seconds
          (fst (SaturnObject.checkTimingSecret seconds g))
        = (fst (SaturnObject.checkTimingSecret seconds g), false))
  /\ SaturnObject.containsSix 5 = false
  /\ (forall seconds g,
        SaturnObject.containsSix seconds = false ->
        SaturnObject.saturnCounter g = 2 ->
        SaturnObject.saturnCounter
          (fst (SaturnObject.checkTimingSecret seconds g)) = 0
        /\ snd (SaturnObject.checkTimingSecret seconds g) = false).
Proof.
  repeat split; try reflexivity.
  - intros seconds g Hsix. apply checkTimingSecret_same_second, Hsix.
  - apply checkTimingSecret_wrong_second; assumption.
  - apply checkTimingSecret_wrong_second; assumption.
Qed.

Lemma clock_gate_scenarios_witness :
  SaturnObject.checkTimingSecret 6
    (fst (SaturnObject.checkTimingSecret 6 SaturnObject.constructor))
  = (fst (SaturnObject.checkTimingSecret 6 SaturnObject.constructor), false)
  /\ SaturnObject.saturnCounter
       (fst (SaturnObject.checkTimingSecret 5
          (SaturnObject.attempts [6; 16] SaturnObject.constructor))) = 0.
Proof.
  destruct clock_gate_scenarios as (_ & _ & _ & _ & Hsame & _ & Hreset).
  split.
  - apply Hsame. reflexivity.
  - apply Hreset; reflexivity.
Defined.

(** C6, as stated, fails: after the unlock at 06, 16, 26 a fourth attempt
    at 36 brings the counter to 4, and an attempt at 05 still puts it
    back to 0. *)
Lemma clock_counter_exceeds_three :
  let g := SaturnObject.attempts [6; 16; 26] SaturnObject.constructor in
  SaturnObject.isSeconds 36
  /\ SaturnObject.saturnSecretUnlocked g = true
  /\ SaturnObject.saturnCounter g = 3
  /\ SaturnObject.saturnCounter
       (fst (SaturnObject.checkTimingSecret 36 g)) = 4
  /\ ~ (0 <= SaturnObject.saturnCounter
               (SaturnObject.attempts [6; 16; 26; 36]
                  SaturnObject.constructor) <= 3)
  /\ SaturnObject.saturnCounter
       (fst (SaturnObject.checkTimingSecret 5 g)) = 0.
Proof.
  cbv zeta. unfold SaturnObject.isSeconds.
  repeat split; try reflexivity; try lia.
  vm_compute. intros [_ H]. apply H. reflexivity.
Qed.

(** C6, amended.  In every state reached from the constructed gate by a
    sequence of attempts the counter is at least 0; while the gate is
    locked the counter is at most 2, so the attempt that follows leaves it
    within 0..3; and the unlocked flag, once true, stays true.  The rule
    of the gate does not read the flag: also once unlocked, an attempt at
    a new second with a 6 adds 1 to the counter and an attempt at a second
    without a 6 puts it back to 0. *)
Theorem clock_counter_range (secs : list Z) :
  let g := SaturnObject.attempts secs SaturnObject.constructor in
  0 <= SaturnObject.saturnCounter g
  /\ (SaturnObject.saturnSecretUnlocked g = false ->
      SaturnObject.saturnCounter g <= 2)
  /\ (forall seconds,
        SaturnObject.saturnSecretUnlocked g = false ->
        0 <= SaturnObject.saturnCounter
               (fst (SaturnObject.checkTimingSecret seconds g)) <= 3)
  /\ (forall seconds,
        SaturnObject.saturnSecretUnlocked g = true ->
        SaturnObject.saturnSecretUnlocked
          (fst (SaturnObject.checkTimingSecret seconds g)) = true)
  /\ (forall seconds,
        SaturnObject.saturnSecretUnlocked g = true ->
        SaturnObject.containsSix seconds = true ->
        SaturnObject.lastSixMoment g <> seconds ->
        SaturnObject.saturnCounter
          (fst (SaturnObject.checkTimingSecret seconds g))
        = SaturnObject.saturnCounter g + 1)
  /\ (forall seconds,
        SaturnObject.saturnSecretUnlocked g = true ->
        SaturnObject.containsSix seconds = false ->
        SaturnObject.saturnCounter
          (fst (SaturnObject.checkTimingSecret seconds g)) = 0).
Proof.
  intros g.
  assert (Hg : SaturnObject.locked_below_three g).
  { apply locked_below_three_attempts. split; cbn; [lia | intros _; lia]. }
  destruct Hg as [Hpos Hlocked].
  split; [exact Hpos |]. split; [exact Hlocked |].
  split; [| split; [| split]].
  - intros seconds Hl. specialize (Hlocked Hl).
    unfold SaturnObject.checkTimingSecret.
    destruct (SaturnObject.containsSix seconds); cbn; [| lia].
    destruct (SaturnObject.lastSixMoment g =? seconds); cbn; [lia |].
    destruct (3 <=? SaturnObject.saturnCounter g + 1); cbn; lia.
  - intros seconds. apply unlocked_stays.
  - intros seconds _ Hsix Hnew. apply checkTimingSecret_new_second;
      assumption.
  - intros seconds _ Hsix. apply checkTimingSecret_wrong_second, Hsix.
Qed.

Lemma clock_counter_range_witness :
  0 <= SaturnObject.saturnCounter
         (fst (SaturnObject.checkTimingSecret 26
            (SaturnObject.attempts [6; 16] SaturnObject.constructor))) <= 3
  /\ SaturnObject.saturnSecretUnlocked
       (fst (SaturnObject.checkTimingSecret 36
          (SaturnObject.attempts [6; 16; 26] SaturnObject.constructor)))
     = true
  /\ SaturnObject.saturnCounter
       (fst (SaturnObject.checkTimingSecret 36
          (SaturnObject.attempts [6; 16; 26] SaturnObject.constructor)))
     = 3 + 1
  /\ SaturnObject.saturnCounter
       (fst (SaturnObject.checkTimingSecret 5
          (SaturnObject.attempts [6; 16; 26] SaturnObject.constructor)))
     = 0.
Proof.
  split; [| split; [| split]].
  - apply (clock_counter_range [6; 16]). reflexivity.
  - apply (clock_counter_range [6; 16; 26]). reflexivity.
  - apply (clock_counter_range [6; 16; 26]);
      [reflexivity | reflexivity | discriminate].
  - apply (clock_counter_range [6; 16; 26]); reflexivity.
Defined.

(** ** BreathCycleGate *)

Section BreathGate.

Import TriangleObject.

(** The time elapsed at [d] milliseconds after the anchor. *)
Lemma elapsed_after_anchor (d : Z) (g : t) :
  elapsed (breathStartTime g + d) g = (inject_Z d / 1000)%Q.
Proof.
  unfold elapsed. now rewrite Z.add_simpl_l.
Qed.

(** A click outside the peak window. *)
Lemma checkBreathClick_off_peak (now : Z) (g : t) :
  isPeakMoment (phaseTime now g) = false ->
  let g' := fst (checkBreathClick now g) in
  breathCounter g' = 0
  /\ triangleGlowActive g' = false
  /\ lastClickCycle g' = -1
  /\ snd (checkBreathClick now g) = false.
Proof.
  intros Hpeak. unfold checkBreathClick. rewrite Hpeak. cbn. auto.
Qed.

(** A click in the peak window of the cycle credited last. *)
Lemma checkBreathClick_same_cycle (now : Z) (g : t) :
  isPeakMoment (phaseTime now g) = true ->
  currentCycle now g = lastClickCycle g ->
  checkBreathClick now g = (g, false).
Proof.
  intros Hpeak Hcycle. unfold checkBreathClick.
  now rewrite Hpeak, Hcycle, Z.eqb_refl.
Qed.

(** A click in the peak window of another cycle. *)
Lemma checkBreathClick_credit (now : Z) (g : t) :
  isPeakMoment (phaseTime now g) = true ->
  currentCycle now g <> lastClickCycle g ->
  let g' := fst (checkBreathClick now g) in
  triangleGlowActive g' = true
  /\ glowTimeout g' = Some (now + 500)
  /\ (breathCounter g + 1 < 3 ->
      breathCounter g' = breathCounter g + 1
      /\ lastClickCycle g' = currentCycle now g
      /\ snd (checkBreathClick now g) = false)
  /\ (3 <= breathCounter g + 1 ->
      breathCounter g' = 0
      /\ lastClickCycle g' = -1
      /\ snd (checkBreathClick now g) = true).
Proof.
  intros Hpeak Hcycle. unfold checkBreathClick. rewrite Hpeak.
  destruct (Z.eqb_spec (currentCycle now g) (lastClickCycle g)) as [| _];
    [contradiction |].
  destruct (Z.leb_spec 3 (breathCounter g + 1)); cbn;
    repeat split; try reflexivity; intros; lia.
Qed.

(** Where in its cycle a click at [d] milliseconds after the anchor
    falls. *)
Lemma phaseTime_after_anchor (d : Z) (g : t) :
  phaseTime (breathStartTime g + d) g
  = JS.rem (inject_Z d / 1000) cycleDuration.
Proof. unfold phaseTime. now rewrite elapsed_after_anchor. Qed.

Lemma currentCycle_after_anchor (d : Z) (g : t) :
  currentCycle (breathStartTime g + d) g
  = JS.floor (inject_Z d / 1000 / cycleDuration).
Proof. unfold currentCycle. now rewrite elapsed_after_anchor. Qed.

(** The anchor is not moved by a click. *)
Lemma checkBreathClick_anchor (now : Z) (g : t) :
  breathStartTime (fst (checkBreathClick now g)) = breathStartTime g.
Proof.
  unfold checkBreathClick.
  destruct (isPeakMoment _); [| reflexivity].
  destruct (_ =? _); [reflexivity |].
  destruct (3 <=? _); reflexivity.
Qed.

(** The outcome of a click depends on the time since the anchor, the
    counter and the cycle credited last, and on nothing else. *)
Lemma checkBreathClick_translate (d : Z) (g g' : t) :
  breathCounter g = breathCounter g' ->
  lastClickCycle g = lastClickCycle g' ->
  let r := checkBreathClick (breathStartTime g + d) g in
  let r' := checkBreathClick (breathStartTime g' + d) g' in
  snd r = snd r'
  /\ breathCounter (fst r) = breathCounter (fst r')
  /\ lastClickCycle (fst r) = lastClickCycle (fst r').
Proof.
  intros Hcounter Hcycle. unfold checkBreathClick.
  rewrite !phaseTime_after_anchor, !currentCycle_after_anchor.
  rewrite <- Hcounter, <- Hcycle.
  destruct (isPeakMoment _); [| cbn; auto].
  destruct (_ =? _); [cbn; auto |].
  destruct (3 <=? _); cbn; auto.
Qed.

(** Hence a sequence of clicks can be replayed from any anchor. *)
Lemma trace_translate (ds : list Z) (g g' : t) :
  breathCounter g = breathCounter g' ->
  lastClickCycle g = lastClickCycle g' ->
  trace (map (Z.add (breathStartTime g)) ds) g
  = trace (map (Z.add (breathStartTime g')) ds) g'.
Proof.
  revert g g'. induction ds as [| d ds IH]; intros g g' Hcounter Hcycle.
  - reflexivity.
  - cbn [map trace].
    destruct (checkBreathClick_translate d g g' Hcounter Hcycle)
      as (Hr & Hc & Hl).
    pose proof (checkBreathClick_anchor (breathStartTime g + d) g) as Ha.
    pose proof (checkBreathClick_anchor (breathStartTime g' + d) g') as Ha'.
    destruct (checkBreathClick (breathStartTime g + d) g) as [g1 r1].
    destruct (checkBreathClick (breathStartTime g' + d) g') as [g1' r1'].
    cbn in Hr, Hc, Hl, Ha, Ha'. subst r1'.
    rewrite <- Ha, <- Ha', Hc. f_equal. apply IH; assumption.
Qed.

End BreathGate.

(** C3.  For a gate with counter 0 and no cycle credited, clicks at 1.5 s,
    7.5 s and 13.5 s after the anchor leave the counter at 1, 2 and 0,
    the third returning true; a click at 4.5 s after the anchor puts the
    counter of any gate back to 0 and returns false; clicks at 1.5 s and
    1.6 s after the anchor, in the same cycle, leave the counter at 1. *)
Theorem breath_gate_scenarios (g : TriangleObject.t) :
  TriangleObject.breathCounter g = 0 ->
  TriangleObject.lastClickCycle g = -1 ->
  let t0 := TriangleObject.breathStartTime g in
  TriangleObject.trace [t0 + 1500; t0 + 7500; t0 + 13500] g
  = [(1, false); (2, false); (0, true)]
  /\ (forall g' : TriangleObject.t,
        let t' := TriangleObject.breathStartTime g' in
        TriangleObject.isPeakMoment (TriangleObject.phaseTime (t' + 4500) g')
        = false
        /\ TriangleObject.breathCounter
             (fst (TriangleObject.checkBreathClick (t' + 4500) g')) = 0
        /\ snd (TriangleObject.checkBreathClick (t' + 4500) g') = false)
  /\ TriangleObject.trace [t0 + 1500; t0 + 1600] g
     = [(1, false); (1, false)].
Proof.
  intros Hcounter Hcycle t0.
  split; [| split].
  - change [t0 + 1500; t0 + 7500; t0 + 13500]
      with (map (Z.add t0) [1500; 7500; 13500]).
    unfold t0.
    rewrite (trace_translate _ g TriangleObject.constructor Hcounter Hcycle).
    vm_compute. reflexivity.
  - intros g' t'.
    assert (Hoff : TriangleObject.isPeakMoment
                     (TriangleObject.phaseTime (t' + 4500) g') = false).
    { unfold t'. rewrite phaseTime_after_anchor. reflexivity. }
    split; [exact Hoff |].
    destruct (checkBreathClick_off_peak (t' + 4500) g' Hoff)
      as (Hc & _ & _ & Hr).
    split; assumption.
  - change [t0 + 1500; t0 + 1600] with (map (Z.add t0) [1500; 1600]).
    unfold t0.
    rewrite (trace_translate _ g TriangleObject.constructor Hcounter Hcycle).
    vm_compute. reflexivity.
Qed.

Lemma breath_gate_scenarios_witness :
  let g := fst (TriangleObject.updateBreath 1000
                  (TriangleObject.show
                     (TriangleObject.create TriangleObject.constructor))) in
  TriangleObject.breathStartTime g = 1000
  /\ TriangleObject.trace [2500; 8500; 14500] g
     = [(1, false); (2, false); (0, true)]
  /\ TriangleObject.trace [2500; 2600] g = [(1, false); (1, false)].
Proof.
  cbv zeta.
  destruct (breath_gate_scenarios
              (fst (TriangleObject.updateBreath 1000
                      (TriangleObject.show
                         (TriangleObject.create TriangleObject.constructor)))))
    as (H3 & _ & H2); [reflexivity | reflexivity |].
  split; [reflexivity |]. split; [exact H3 | exact H2].
Defined.

(** C4, as stated, fails: a second click in the peak window of the cycle
    just credited returns false and leaves the counter at 1 and the glow
    on. *)
Lemma breath_same_cycle_no_reset :
  let g := fst (TriangleObject.checkBreathClick 1500
                  TriangleObject.constructor) in
  TriangleObject.isPeakMoment (TriangleObject.phaseTime 1600 g) = true
  /\ TriangleObject.currentCycle 1600 g = TriangleObject.lastClickCycle g
  /\ snd (TriangleObject.checkBreathClick 1600 g) = false
  /\ TriangleObject.breathCounter
       (fst (TriangleObject.checkBreathClick 1600 g)) = 1
  /\ TriangleObject.triangleGlowActive
       (fst (TriangleObject.checkBreathClick 1600 g)) = true
  /\ TriangleObject.breathCounter
       (fst (TriangleObject.checkBreathClick 1600 g)) <> 0.
Proof.
  cbv zeta. repeat split; try (vm_compute; reflexivity).
  vm_compute. discriminate.
Qed.

(** ** SequenceGate *)

Section SequenceGate.

Import FlowerOfLife.

(** [reset] empties the sequence, clears the flag and whitens every
    circle. *)
Lemma reset_spec (g : t) :
  metatronClicks (reset g) = []
  /\ showMetatron (reset g) = false
  /\ flowerGroup (reset g) = flowerGroup g
  /\ (forall (i c : Z), nodeMap (reset g) !! i = Some c -> c = white)
  /\ dom (nodeMap (reset g)) = dom (nodeMap g).
Proof.
  repeat split.
  - intros i c. cbn. rewrite lookup_fmap.
    destruct (nodeMap g !! i); cbn; congruence.
  - cbn. apply dom_fmap_L.
Qed.

(** From the empty sequence, the thirteen clicks in the sacred order are
    all accepted and the pattern is complete at the thirteenth, not
    before. *)
Lemma sacred_order_completes (g : t) :
  flowerGroup g <> None ->
  metatronClicks g = [] ->
  showMetatron g = false ->
  exists final,
    clickAll FRUIT_OF_LIFE_ORDER g = Some (thirteen_clicks, final)
    /\ showMetatron final = true
    /\ metatronClicks final = FRUIT_OF_LIFE_ORDER.
Proof.
  intros Hgroup Hclicks Hshow.
  destruct g as [[group |] cube clicks shown colours timers];
    cbn in Hgroup, Hclicks, Hshow; [| congruence].
  subst clicks shown.
  destruct (clickAll FRUIT_OF_LIFE_ORDER _) as [[log final] |] eqn:Hrun;
    vm_compute in Hrun; [| discriminate].
  injection Hrun as Hlog Hfinal. subst log final.
  eexists. split; [reflexivity |]. split; reflexivity.
Qed.

(** A click on the node of a circle that is not the expected one. *)
Lemma handleClick_wrong (i : Z) (g : t) :
  showMetatron g = false ->
  flowerGroup g <> None ->
  nth_error FRUIT_OF_LIFE_ORDER (length (metatronClicks g)) <> Some i ->
  handleClick (node i) g = Some (reset g, false).
Proof.
  intros Hshow Hgroup Hwrong. unfold handleClick. rewrite Hshow.
  destruct (flowerGroup g); [| congruence]. cbn.
  destruct (decide _) as [Heq | _]; [| reflexivity].
  exfalso. apply Hwrong. symmetry. exact Heq.
Qed.

(** A click once the pattern is complete. *)
Lemma handleClick_completed (intersects : list userData) (g : t) :
  showMetatron g = true ->
  handleClick intersects g = Some (g, false).
Proof. intros Hshow. unfold handleClick. now rewrite Hshow. Qed.

End SequenceGate.

(** C1.  From an empty sequence, the thirteen clicks in the order
    0,1,3,5,2,4,6,7,9,11,8,10,12 are all accepted and [showMetatron]
    becomes true at the thirteenth and not before; while the pattern is
    not complete, a click on a node that is not the expected one empties
    the sequence (and returns false); once [showMetatron] is true, every
    click returns false and changes nothing. *)
Theorem sequence_gate_rules :
  (forall g,
     FlowerOfLife.flowerGroup g <> None ->
     FlowerOfLife.metatronClicks g = [] ->
     FlowerOfLife.showMetatron g = false ->
     exists final,
       FlowerOfLife.clickAll [0; 1; 3; 5; 2; 4; 6; 7; 9; 11; 8; 10; 12] g
       = Some (repeat (true, false) 12 ++ [(true, true)], final)
       /\ FlowerOfLife.showMetatron final = true)
  /\ (forall i g,
        FlowerOfLife.showMetatron g = false ->
        FlowerOfLife.flowerGroup g <> None ->
        nth_error FlowerOfLife.FRUIT_OF_LIFE_ORDER
          (length (FlowerOfLife.metatronClicks g)) <> Some i ->
        exists g',
          FlowerOfLife.handleClick (FlowerOfLife.node i) g = Some (g', false)
          /\ FlowerOfLife.metatronClicks g' = [])
  /\ (forall intersects g,
        FlowerOfLife.showMetatron g = true ->
        FlowerOfLife.handleClick intersects g = Some (g, false)).
Proof.
  split; [| split].
  - intros g Hgroup Hclicks Hshow.
    destruct (sacred_order_completes g Hgroup Hclicks Hshow)
      as (final & Hrun & Hdone & _).
    exists final. split; assumption.
  - intros i g Hshow Hgroup Hwrong.
    exists (FlowerOfLife.reset g). split.
    + apply handleClick_wrong; assumption.
    + reflexivity.
  - apply handleClick_completed.
Qed.

Lemma sequence_gate_rules_witness :
  let fresh := FlowerOfLife.create FlowerOfLife.constructor in
  (exists final,
     FlowerOfLife.clickAll [0; 1; 3; 5; 2; 4; 6; 7; 9; 11; 8; 10; 12] fresh
     = Some (repeat (true, false) 12 ++ [(true, true)], final)
     /\ FlowerOfLife.showMetatron final = true)
  /\ (exists g final,
        FlowerOfLife.clickAll [0; 1] fresh = Some ([(true, false); (true, false)], g)
        /\ FlowerOfLife.handleClick (FlowerOfLife.node 2) g
           = Some (final, false)
        /\ FlowerOfLife.metatronClicks final = []).
Proof.
  destruct sequence_gate_rules as (Hrun & Hwrong & _).
  cbv zeta. split.
  - apply Hrun; [discriminate | reflexivity | reflexivity].
  - destruct (FlowerOfLife.clickAll [0; 1]
                (FlowerOfLife.create FlowerOfLife.constructor))
      as [[log g] |] eqn:Hclicks; vm_compute in Hclicks; [| discriminate].
    injection Hclicks as Hlog Hg. subst log.
    destruct (Hwrong 2 g) as (final & Hclick & Hempty).
    + subst g. reflexivity.
    + subst g. discriminate.
    + subst g. vm_compute. discriminate.
    + exists g, final. repeat split; assumption.
Defined.

(** C10.  [hide()] puts [showMetatron] back to false; [show()], on a
    flower that was created, calls [reset()]: the sequence is empty, the
    flag false and every circle white; so after leaving the tableau and
    entering it again, from any state, a completed one included, the
    thirteen clicks have to be made again from the first. *)
Theorem flower_navigation_restarts :
  (forall g, FlowerOfLife.showMetatron (FlowerOfLife.hide g) = false)
  /\ (forall g,
        FlowerOfLife.flowerGroup g <> None ->
        FlowerOfLife.metatronClicks (FlowerOfLife.show g) = []
        /\ FlowerOfLife.showMetatron (FlowerOfLife.show g) = false
        /\ (forall (i c : Z),
              FlowerOfLife.nodeMap (FlowerOfLife.show g) !! i = Some c ->
              c = FlowerOfLife.white)
        /\ dom (FlowerOfLife.nodeMap (FlowerOfLife.show g))
           = dom (FlowerOfLife.nodeMap g))
  /\ (forall g,
        FlowerOfLife.flowerGroup g <> None ->
        FlowerOfLife.showMetatron g = true ->
        let g' := FlowerOfLife.show (FlowerOfLife.hide g) in
        FlowerOfLife.metatronClicks g' = []
        /\ FlowerOfLife.showMetatron g' = false
        /\ exists final,
             FlowerOfLife.clickAll FlowerOfLife.FRUIT_OF_LIFE_ORDER g'
             = Some (repeat (true, false) 12 ++ [(true, true)], final)
             /\ FlowerOfLife.showMetatron final = true).
Proof.
  split; [| split].
  - reflexivity.
  - intros g Hgroup. unfold FlowerOfLife.show.
    destruct (FlowerOfLife.flowerGroup g) as [group |] eqn:Hg;
      [| congruence].
    match goal with |- context [FlowerOfLife.reset ?s] =>
      destruct (reset_spec s) as (Hc & Hs & _ & Hw & Hd) end.
    repeat split; assumption.
  - intros g Hgroup _ g'.
    assert (Hg' : FlowerOfLife.flowerGroup g' <> None
                  /\ FlowerOfLife.metatronClicks g' = []
                  /\ FlowerOfLife.showMetatron g' = false).
    { unfold g', FlowerOfLife.show, FlowerOfLife.hide.
      destruct (FlowerOfLife.flowerGroup g); [| congruence].
      cbn. repeat split. discriminate. }
    destruct Hg' as (Hgroup' & Hclicks & Hshow).
    split; [exact Hclicks |]. split; [exact Hshow |].
    destruct (sacred_order_completes g' Hgroup' Hclicks Hshow)
      as (final & Hrun & Hdone & _).
    exists final. split; assumption.
Qed.

Lemma flower_navigation_restarts_witness :
  exists done,
    FlowerOfLife.clickAll FlowerOfLife.FRUIT_OF_LIFE_ORDER
      (FlowerOfLife.create FlowerOfLife.constructor)
    = Some (repeat (true, false) 12 ++ [(true, true)], done)
    /\ FlowerOfLife.showMetatron done = true
    /\ FlowerOfLife.metatronClicks
         (FlowerOfLife.show (FlowerOfLife.hide done)) = []
    /\ FlowerOfLife.showMetatron
         (FlowerOfLife.show (FlowerOfLife.hide done)) = false.
Proof.
  destruct (FlowerOfLife.clickAll FlowerOfLife.FRUIT_OF_LIFE_ORDER
              (FlowerOfLife.create FlowerOfLife.constructor))
    as [[log done] |] eqn:Hrun; vm_compute in Hrun; [| discriminate].
  injection Hrun as Hlog Hdone. subst log.
  exists done. split; [reflexivity |].
  assert (Hshown : FlowerOfLife.showMetatron done = true)
    by (subst done; reflexivity).
  split; [exact Hshown |].
  destruct flower_navigation_restarts as (_ & _ & Hrestart).
  destruct (Hrestart done) as (Hclicks & Hflag & _).
  - subst done. discriminate.
  - exact Hshown.
  - split; assumption.
Defined.

(** ** SceneStateMachine *)

Section Reducer.

Import Store.

(** The three unlock flags of a state. *)
Lemma stamped_flags (a : action) (now : Z) (st : state) :
  cubeSecretUnlocked (stamped a now st) = cubeSecretUnlocked st
  /\ saturnSecretUnlocked (stamped a now st) = saturnSecretUnlocked st
  /\ trinitySecretUnlocked (stamped a now st) = trinitySecretUnlocked st.
Proof. repeat split. Qed.

(** Each flag of the state after an action that is not the reset is
    either the flag before it or true. *)
Lemma typed_flags (now : Z) (st st' : state) (a : action) (t : string) :
  t <> "RESET_STATE"%string ->
  typed now st a t = Some st' ->
  (cubeSecretUnlocked st' = cubeSecretUnlocked st
   \/ cubeSecretUnlocked st' = true)
  /\ (saturnSecretUnlocked st' = saturnSecretUnlocked st
      \/ saturnSecretUnlocked st' = true)
  /\ (trinitySecretUnlocked st' = trinitySecretUnlocked st
      \/ trinitySecretUnlocked st' = true).
Proof.
  intros Hreset. unfold typed.
  repeat match goal with
         | |- context [String.eqb t ?c] =>
             destruct (String.eqb_spec t c) as [-> | ?]
         end;
    try contradiction;
    repeat match goal with
           | |- context [prop ?n ?v] => destruct (prop n v)
           end;
    intros Hst'; try discriminate;
    injection Hst' as <-; cbn; auto.
Qed.

Lemma reducer_flags (now : Z) (st st' : state) (a : action) :
  type a <> Str "RESET_STATE" ->
  reducer now st a = Some st' ->
  (cubeSecretUnlocked st' = cubeSecretUnlocked st
   \/ cubeSecretUnlocked st' = true)
  /\ (saturnSecretUnlocked st' = saturnSecretUnlocked st
      \/ saturnSecretUnlocked st' = true)
  /\ (trinitySecretUnlocked st' = trinitySecretUnlocked st
      \/ trinitySecretUnlocked st' = true).
Proof.
  intros Hreset. unfold reducer.
  destruct (type a) as [| | b | q | t | fields] eqn:Htype;
    try (intros Hst'; injection Hst' as <-; cbn; auto).
  apply typed_flags. congruence.
Qed.

(** Reading a property raises on [undefined] and [null] only. *)
Lemma prop_raises (name : string) (v : value) :
  prop name v = None <-> v = Undefined \/ v = Null.
Proof.
  destruct v; cbn; split; intros H; try discriminate; auto;
    destruct H; discriminate.
Qed.

(** The reducer raises exactly on the two actions that read [payload.x]
    and [payload.y], when the payload is [undefined] or [null]. *)
Lemma reducer_raises (now : Z) (st : state) (a : action) :
  reducer now st a = None <->
  (type a = Str "UPDATE_MOUSE_POSITION" \/ type a = Str "UPDATE_ROTATION")
  /\ (payload a = Undefined \/ payload a = Null).
Proof.
  unfold reducer.
  destruct (type a) as [| | b | q | t | fields] eqn:Htype;
    try (split; [discriminate | intros [[H | H] _]; discriminate]).
  unfold typed.
  repeat match goal with
         | |- context [String.eqb t ?c] =>
             destruct (String.eqb_spec t c) as [-> | ?]
         end;
    try (split; [discriminate | intros [[H | H] _]; congruence]).
  - destruct (prop "x" (payload a)) eqn:Hx.
    + destruct (prop "y" (payload a)) eqn:Hy.
      * split; [discriminate |]. intros [_ H].
        apply (prop_raises "x") in H. congruence.
      * split; [| reflexivity]. intros _. split; [now left |].
        now apply (prop_raises "y").
    + split; [| reflexivity]. intros _. split; [now left |].
      now apply (prop_raises "x").
  - destruct (prop "x" (payload a)) eqn:Hx.
    + destruct (prop "y" (payload a)) eqn:Hy.
      * split; [discriminate |]. intros [_ H].
        apply (prop_raises "x") in H. congruence.
      * split; [| reflexivity]. intros _. split; [now right |].
        now apply (prop_raises "y").
    + split; [| reflexivity]. intros _. split; [now right |].
      now apply (prop_raises "x").
Qed.

End Reducer.

(** C7.  For every action whose type is not RESET_STATE, each of the three
    unlock flags that is true before the reducer runs is true in the state
    it returns.  The reducer returns a state for every action but the two
    that read [payload.x] and [payload.y], given without a payload. *)
Theorem unlock_flags_monotonic
    (now : Z) (st : Store.state) (a : Store.action) :
  Store.type a <> Store.Str "RESET_STATE" ->
  (Store.reducer now st a = None <->
   (Store.type a = Store.Str "UPDATE_MOUSE_POSITION"
    \/ Store.type a = Store.Str "UPDATE_ROTATION")
   /\ (Store.payload a = Store.Undefined \/ Store.payload a = Store.Null))
  /\ (forall st',
        Store.reducer now st a = Some st' ->
        (Store.cubeSecretUnlocked st = true ->
         Store.cubeSecretUnlocked st' = true)
        /\ (Store.saturnSecretUnlocked st = true ->
            Store.saturnSecretUnlocked st' = true)
        /\ (Store.trinitySecretUnlocked st = true ->
            Store.trinitySecretUnlocked st' = true)).
Proof.
  intros Hreset. split; [apply reducer_raises |].
  intros st' Hst'.
  destruct (reducer_flags now st st' a Hreset Hst')
    as ([Hc | Hc] & [Hs | Hs] & [Ht | Ht]);
    repeat split; congruence.
Qed.

Lemma unlock_flags_monotonic_witness :
  let st := Store.withSecrets true true true (Store.initialState 0) in
  exists st',
    Store.reducer 1 st Store.actions.showSaturn = Some st'
    /\ Store.cubeSecretUnlocked st' = true
    /\ Store.saturnSecretUnlocked st' = true
    /\ Store.trinitySecretUnlocked st' = true.
Proof.
  intros st. eexists. split; [reflexivity |].
  match goal with |- Store.cubeSecretUnlocked ?st' = _ /\ _ =>
    destruct (unlock_flags_monotonic 1 st Store.actions.showSaturn)
      as (_ & Hflags); [discriminate |];
    destruct (Hflags st' eq_refl) as (Hc & Hs & Ht)
  end.
  split; [apply Hc | split; [apply Hs | apply Ht]]; reflexivity.
Defined.

(** ** The magic word *)

(** C9.  When the parameter [magic_word] of the URL is [abracadabra],
    [onMount] ends without raising, with the three unlock flags of the
    store true.  It does so by dispatching the three unlock actions: the
    gate objects of the scene (their counters, click sequence and own
    flags) are the ones it found. *)
Theorem magic_word_unlocks
    (urlParams : list (string * string)) (clock : nat -> Z) (p : App.page) :
  App.get "magic_word" urlParams = Some "abracadabra"%string ->
  exists p',
    App.onMount urlParams clock p = Some p'
    /\ Store.cubeSecretUnlocked (App.sceneStore p') = true
    /\ Store.saturnSecretUnlocked (App.sceneStore p') = true
    /\ Store.trinitySecretUnlocked (App.sceneStore p') = true
    /\ App.dispatched urlParams
       = [Store.actions.unlockCubeSecret;
          Store.actions.unlockSaturnSecret;
          Store.actions.unlockTrinitySecret;
          Store.actions.setStatus (Store.Str "ready");
          Store.actions.setLoading (Store.Bool false)]
    /\ App.saturnObject p' = App.saturnObject p
    /\ App.triangleObject p' = App.triangleObject p
    /\ App.flowerObject p' = App.flowerObject p.
Proof.
  intros Hword.
  assert (Hmagic : App.magic urlParams = true).
  { unfold App.magic. rewrite Hword. reflexivity. }
  unfold App.onMount, App.dispatched. rewrite Hmagic.
  eexists. split; [vm_compute; reflexivity |].
  repeat split.
Qed.

Lemma magic_word_unlocks_witness :
  exists p',
    App.onMount [("magic_word", "abracadabra")]%string (fun _ => 0)
      (App.initial 0) = Some p'
    /\ Store.cubeSecretUnlocked (App.sceneStore p') = true
    /\ Store.saturnSecretUnlocked (App.sceneStore p') = true
    /\ Store.trinitySecretUnlocked (App.sceneStore p') = true
    /\ SaturnObject.saturnCounter (App.saturnObject p') = 0.
Proof.
  destruct (magic_word_unlocks [("magic_word", "abracadabra")]%string
              (fun _ => 0) (App.initial 0))
    as (p' & Hmount & Hc & Hs & Ht & _ & Hsaturn & _); [reflexivity |].
  exists p'. rewrite Hsaturn. repeat split; assumption.
Defined.

(** ** AlignmentDetector: the reveal timer *)

Section RevealTimer.

Import SaturnianCube.

(** The two tests on the duration, in milliseconds and in seconds. *)
Lemma Qle_bool_millis (z : Z) :
  Qle_bool 2000 (inject_Z z) = true -> 2000 <= z.
Proof.
  rewrite Qle_bool_iff. unfold Qle, inject_Z. cbn. lia.
Qed.

Lemma Qle_bool_seconds (z : Z) :
  Qle_bool 2.0 (inject_Z z / 1000) = true -> 2000 <= z.
Proof.
  rewrite Qle_bool_iff. unfold Qle, Qdiv, Qmult, Qinv, inject_Z. cbn. lia.
Qed.

(** Runs the monadic operations of a call on an explicit state. *)
Ltac exec :=
  cbv [bind ret when get put setStartTime setDuration setTargetOpacity
       setEdge dispatch dateNow resetTimer secretUnlocked Store.truthy
       negb andb];
  cbn [fst snd this reads dispatched cubeObject targetCubeOpacity
       yellowEdgeStartTime yellowEdgeDuration cubeEdges].

(** A property kept by the body of a loop is kept by the loop. *)
Lemma forEach_keeps (body : nat -> M unit) (P : run -> Prop) :
  (forall i r, P r -> P (snd (body i r))) ->
  forall indices r, P r -> P (snd (forEach indices body r)).
Proof.
  intros Hbody indices. induction indices as [| i rest IH]; intros r Hr.
  - exact Hr.
  - cbn. unfold bind. specialize (Hbody i r Hr).
    destruct (body i r) as [[] r1]. apply IH, Hbody.
Qed.

(** A property that holds after the two opening statements and is kept
    by the body of the loop over the edges holds after the call. *)
Lemma updateCubeAppearance_keeps (f : frame) (P : run -> Prop) (r : run) :
  (cubeObject (this r) = false -> P r) ->
  (cubeObject (this r) = true ->
   P (snd ((yellowEdgeTiming f >> updateOpacity f) r))) ->
  (forall i r', P r' -> P (snd (edgeBody f i r'))) ->
  P (snd (updateCubeAppearance f r)).
Proof.
  intros Hnone Hpre Hbody.
  unfold updateCubeAppearance. unfold bind at 1. cbn [get].
  destruct (cubeObject (this r)); cbn [negb].
  - specialize (Hpre eq_refl).
    unfold bind at 1. unfold bind at 1 in Hpre.
    destruct (yellowEdgeTiming f r) as [[] r1].
    unfold bind at 1.
    destruct (updateOpacity f r1) as [[] r2]. cbn [snd] in Hpre.
    unfold bind at 1. cbn [get].
    apply forEach_keeps; [exact Hbody | exact Hpre].
  - apply Hnone. reflexivity.
Qed.

(** What [call] returns, from a property of the run. *)
Lemma call_run (f : frame) (v : vars) (P : run -> Prop) :
  P (snd (updateCubeAppearance f
            {| this := v; reads := 0; dispatched := [] |})) ->
  exists r, call f v = (this r, dispatched r) /\ P r.
Proof.
  intros Hrun. unfold call.
  destruct (updateCubeAppearance f _) as [[] r]. exists r. split; auto.
Qed.

Section FullReveal.

Variable f : frame.
Variable adm : Z -> Prop.
Hypothesis Hfull : fullReveal f.
Hypothesis Hclock : forall a, adm (clock f a).

(** At full reveal, with every reading of the clock admissible. *)
Lemma edgeBody_full (i : nat) (r : run) :
  debounced f adm r -> debounced f adm (snd (edgeBody f i r)).
Proof.
  intros [Htimer Hlog]. unfold edgeBody.
  destruct (Qlt_le_dec 0.995 (hexagonStrength f)) as [_ | Hle];
    [| exfalso; apply (Qlt_not_le _ _ Hfull Hle)].
  destruct r as [[co tgt start dur edges] n log].
  unfold debounced, timer in *. cbn in Htimer, Hlog. cbn.
  destruct (Z.eqb_spec start 0) as [-> | Hstart]; cbn;
    destruct (Qle_bool _ _) eqn:Hdur; cbn;
    (split; [first [exact Htimer | intros _; apply Hclock] |]);
    try exact Hlog;
    intros _; apply Qle_bool_seconds in Hdur; eauto.
Qed.

Lemma preamble_full (r : run) :
  dispatched r = [] ->
  (timer r <> 0 -> adm (timer r)) ->
  debounced f adm (snd ((yellowEdgeTiming f >> updateOpacity f) r)).
Proof.
  intros Hlog Htimer. unfold yellowEdgeTiming, updateOpacity.
  destruct (Qlt_le_dec 0.995 (hexagonStrength f)) as [_ | Hle];
    [| exfalso; apply (Qlt_not_le _ _ Hfull Hle)].
  destruct r as [[co tgt start dur edges] n log].
  unfold debounced, timer in *. cbn in Htimer, Hlog. subst log. exec.
  destruct (Store.cubeSecretUnlocked (state f)); exec;
    destruct (Z.eqb_spec start 0) as [-> | Hstart]; exec;
    repeat match goal with
      | |- context [0 <? ?t] => destruct (Z.ltb_spec 0 t); exec
      | |- context [Qle_bool ?a ?b] => destruct (Qle_bool a b) eqn:Hdur; exec
      end.
  all: try (split; [first [exact Htimer | intros _; apply Hclock
                   | intros H; now elim H] |]).
  all: try (intros Hne; exfalso; apply Hne; reflexivity).
  all: intros _; apply Qle_bool_millis in Hdur;
    first [exfalso; lia | eauto].
Qed.

Lemma updateCubeAppearance_full (v : vars) :
  (yellowEdgeStartTime v <> 0 -> adm (yellowEdgeStartTime v)) ->
  (yellowEdgeStartTime (fst (call f v)) <> 0 ->
   adm (yellowEdgeStartTime (fst (call f v))))
  /\ (snd (call f v) <> [] -> exists s b, adm s /\ 2000 <= clock f b - s).
Proof.
  intros Htimer.
  destruct (call_run f v (debounced f adm)) as (r & -> & Hr); [| exact Hr].
  apply updateCubeAppearance_keeps.
  - intros _. split; [exact Htimer | intros Hne; now elim Hne].
  - intros _. apply preamble_full; [reflexivity | exact Htimer].
  - apply edgeBody_full.
Qed.

End FullReveal.

Section BelowFullReveal.

Variable f : frame.
Hypothesis Hbelow : ~ fullReveal f.

(** Below full reveal the timer is switched off and stays off. *)
Lemma edgeBody_below (log : list Store.action) (i : nat) (r : run) :
  timerOff log r -> timerOff log (snd (edgeBody f i r)).
Proof.
  intros (Hstart & Hdur & Hlog). unfold edgeBody.
  destruct (Qlt_le_dec 0.995 (hexagonStrength f)) as [Hlt | _];
    [contradiction |].
  destruct r as [[co tgt start dur edges] n log'].
  unfold timerOff in *. cbn in Hstart, Hdur, Hlog.
  destruct (Qlt_le_dec 0.95 (hexagonStrength f));
    [destruct (isFrontFacing f i) |]; exec; auto.
Qed.

Lemma preamble_below (r : run) :
  timerOff (dispatched r)
    (snd ((yellowEdgeTiming f >> updateOpacity f) r)).
Proof.
  unfold yellowEdgeTiming, updateOpacity.
  destruct (Qlt_le_dec 0.995 (hexagonStrength f)) as [Hlt | _];
    [contradiction |].
  destruct r as [[co tgt start dur edges] n log].
  unfold timerOff. exec.
  destruct (Store.cubeSecretUnlocked (state f)); exec;
    destruct (start =? 0); exec;
    repeat match goal with
      | |- context [0 <? ?t] => destruct (0 <? t); exec
      end;
    destruct (Qlt_le_dec 0.95 (hexagonStrength f)); exec; auto.
Qed.

Lemma updateCubeAppearance_below (v : vars) :
  cubeObject v = true ->
  yellowEdgeStartTime (fst (call f v)) = 0
  /\ yellowEdgeDuration (fst (call f v)) = 0%Q
  /\ snd (call f v) = [].
Proof.
  intros Hcube.
  destruct (call_run f v (timerOff [])) as (r & -> & Hr); [| exact Hr].
  apply updateCubeAppearance_keeps.
  - cbn. congruence.
  - intros _. apply preamble_below.
  - apply edgeBody_below.
Qed.

End BelowFullReveal.

(** A call keeps the cube object and dispatches nothing but the unlock
    of the cube. *)
Lemma call_untouched (f : frame) (v : vars) :
  cubeObject (fst (call f v)) = cubeObject v
  /\ Forall (eq Store.actions.unlockCubeSecret) (snd (call f v)).
Proof.
  destruct (call_run f v (untouched v)) as (r & -> & Hr); [| exact Hr].
  apply updateCubeAppearance_keeps.
  - intros _. split; [reflexivity | constructor].
  - intros _. unfold untouched, yellowEdgeTiming, updateOpacity. exec.
    destruct (Store.cubeSecretUnlocked (state f)); exec;
      destruct (yellowEdgeStartTime v =? 0); exec;
      repeat match goal with
        | |- context [0 <? ?t] => destruct (0 <? t); exec
        end;
      repeat match goal with
        | |- context [Qlt_le_dec ?a ?b] => destruct (Qlt_le_dec a b); exec
        end;
      repeat match goal with
        | |- context [Qle_bool ?a ?b] => destruct (Qle_bool a b); exec
        end;
      split; try reflexivity; repeat constructor.
  - intros i [[co tgt start dur edges] n log]. unfold untouched, edgeBody.
    cbn [this dispatched cubeObject]. intros [-> Hlog].
    destruct (Qlt_le_dec 0.995 _); [| destruct (Qlt_le_dec 0.95 _)]; exec.
    + destruct (start =? 0); exec; destruct (Qle_bool _ _); exec;
        (split; [reflexivity |]); try exact Hlog;
        rewrite Forall_app; (split; [exact Hlog | repeat constructor]).
    + destruct (isFrontFacing f i); split; try reflexivity; exact Hlog.
    + split; [reflexivity | exact Hlog].
Qed.

(** A reading of a call at full reveal starts a run. *)
Lemma heldSince_now (pre : list frame) (f : frame) (a : nat) :
  fullReveal f -> heldSince (pre ++ [f]) (clock f a).
Proof.
  intros Hfull. exists pre, f, [], a.
  repeat split. constructor; [exact Hfull | constructor].
Qed.

(** A call at full reveal extends the runs that reached it. *)
Lemma heldSince_extend (pre : list frame) (f : frame) (s : Z) :
  fullReveal f -> heldSince pre s -> heldSince (pre ++ [f]) s.
Proof.
  intros Hfull (older & f0 & rest & a & -> & Hall & Hs).
  exists older, f0, (rest ++ [f]), a. split; [| split].
  - now rewrite <- app_assoc.
  - change (f0 :: rest ++ [f]) with ((f0 :: rest) ++ [f]).
    apply Forall_app. split; [exact Hall |].
    constructor; [exact Hfull | constructor].
  - exact Hs.
Qed.

(** The invariant of the timer over a sequence of calls. *)
Lemma timerHeld_call (pre : list frame) (f : frame) (v : vars) :
  timerHeld pre v -> timerHeld (pre ++ [f]) (fst (call f v)).
Proof.
  intros [Hcube Htimer]. split.
  - destruct (call_untouched f v) as [-> _]. exact Hcube.
  - destruct (Qlt_le_dec 0.995 (hexagonStrength f)) as [Hfull | Hle].
    + apply (updateCubeAppearance_full f (heldSince (pre ++ [f])) Hfull).
      * intros a. apply heldSince_now, Hfull.
      * intros Hrun. apply heldSince_extend; [exact Hfull | auto].
    + assert (Hbelow : ~ fullReveal f)
        by (intros Hfull; apply (Qlt_not_le _ _ Hfull Hle)).
      destruct (updateCubeAppearance_below f Hbelow v Hcube) as (-> & _).
      intros Hne. now elim Hne.
Qed.

Lemma timerHeld_calls (frames : list frame) (v : vars) :
  cubeObject v = true ->
  yellowEdgeStartTime v = 0 ->
  timerHeld frames (calls frames v).
Proof.
  intros Hcube Hstart.
  induction frames as [| f pre IH] using rev_ind.
  - split; [exact Hcube |]. cbn. intros Hne. now elim Hne.
  - unfold calls. rewrite fold_left_app. cbn [fold_left].
    apply timerHeld_call, IH.
Qed.

End RevealTimer.

(** In a sequence of calls of [updateCubeAppearance] on a scene whose
    timer is off at first, a call dispatches the unlock of the cube only
    if it ends a run of consecutive calls that are all at full reveal
    (strength above 0.995) and in which the clock has advanced by 2000 ms
    or more between a reading of the first call of the run and a reading
    of this one; the action dispatched is the unlock of the cube and
    nothing else; and a call whose strength is at or below 0.995 leaves
    the timer at zero, start and duration, and dispatches nothing. *)
Lemma calls_debounce :
  (forall (pre : list SaturnianCube.frame) (f : SaturnianCube.frame)
          (v : SaturnianCube.vars),
     SaturnianCube.cubeObject v = true ->
     SaturnianCube.yellowEdgeStartTime v = 0 ->
     snd (SaturnianCube.call f (SaturnianCube.calls pre v)) <> [] ->
     exists older f0 rest a b,
       pre ++ [f] = older ++ f0 :: rest
       /\ Forall (fun g => (0.995 < SaturnianCube.hexagonStrength g)%Q)
            (f0 :: rest)
       /\ 2000 <= SaturnianCube.clock f b - SaturnianCube.clock f0 a)
  /\ (forall (f : SaturnianCube.frame) (v : SaturnianCube.vars),
        Forall (eq Store.actions.unlockCubeSecret)
          (snd (SaturnianCube.call f v)))
  /\ (forall (f : SaturnianCube.frame) (v : SaturnianCube.vars),
        SaturnianCube.cubeObject v = true ->
        (SaturnianCube.hexagonStrength f <= 0.995)%Q ->
        SaturnianCube.yellowEdgeStartTime (fst (SaturnianCube.call f v)) = 0
        /\ SaturnianCube.yellowEdgeDuration (fst (SaturnianCube.call f v))
           = 0%Q
        /\ snd (SaturnianCube.call f v) = []).
Proof.
  split; [| split].
  - intros pre f v Hcube Hstart Hfired.
    pose proof (timerHeld_calls pre v Hcube Hstart) as [Hcube' Htimer].
    destruct (Qlt_le_dec 0.995 (SaturnianCube.hexagonStrength f))
      as [Hfull | Hle].
    + destruct (updateCubeAppearance_full f
                  (SaturnianCube.heldSince (pre ++ [f])) Hfull)
        with (v := SaturnianCube.calls pre v) as [_ Hlog].
      * intros a. apply heldSince_now, Hfull.
      * intros Hrun. apply heldSince_extend; [exact Hfull | auto].
      * destruct (Hlog Hfired)
          as (s & b & (older & f0 & rest & a & Hsplit & Hall & <-) & Hlate).
        exists older, f0, rest, a, b. repeat split; assumption.
    + assert (Hbelow : ~ SaturnianCube.fullReveal f)
        by (intros Hfull; apply (Qlt_not_le _ _ Hfull Hle)).
      destruct (updateCubeAppearance_below f Hbelow _ Hcube')
        as (_ & _ & Hnone).
      contradiction.
  - intros f v. apply call_untouched.
  - intros f v Hcube Hle.
    apply updateCubeAppearance_below; [| exact Hcube].
    intros Hfull. apply (Qlt_not_le _ _ Hfull Hle).
Qed.

Section RevealFrames.

Import SaturnianCube.

Lemma animate_off (f : frame) (v : vars) :
  onCube f = false -> animate f v = (v, []).
Proof. unfold animate, onCube. now intros ->. Qed.

Lemma animate_on (f : frame) (v : vars) :
  onCube f = true -> animate f v = call f v.
Proof.
  unfold animate, onCube. intros ->. cbn [andb].
  destruct (cubeObject v) eqn:Hcube; [reflexivity |].
  destruct v as [co tgt start dur edges]. cbn in Hcube. subst co.
  reflexivity.
Qed.

(** The frames off the cube tableau do not count. *)
Lemma animations_calls (frames : list frame) :
  forall v : vars, animations frames v = calls (List.filter onCube frames) v.
Proof.
  induction frames as [| f frames IH]; intros v; [reflexivity |].
  cbn [animations fold_left List.filter].
  change (fold_left _ frames ?w) with (animations frames w).
  destruct (onCube f) eqn:Hon.
  - rewrite animate_on by exact Hon. cbn [calls fold_left].
    change (fold_left _ (List.filter onCube frames) ?w)
      with (calls (List.filter onCube frames) w).
    apply IH.
  - rewrite animate_off by exact Hon. apply IH.
Qed.

End RevealFrames.

(** C5, as stated, fails: the timer that a frame at full reveal started
    survives the frames of another tableau, on which the strength is 0,
    and the next frame at full reveal on the cube tableau dispatches the
    unlock: the full reveal held on two frames four seconds apart and on
    none between them. *)
Lemma reveal_not_held_continuously :
  let store :=
    Store.withAutoRotate (Store.Bool false)
      (Store.withSecrets true true true (Store.initialState 0)) in
  let cube t :=
    {| SaturnianCube.state := store;
       SaturnianCube.hexagonStrength := 1;
       SaturnianCube.clock := fun _ => t;
       SaturnianCube.isFrontFacing := fun _ => true |} in
  let saturn t :=
    {| SaturnianCube.state := Store.withTableau false true false false store;
       SaturnianCube.hexagonStrength := 0;
       SaturnianCube.clock := fun _ => t;
       SaturnianCube.isFrontFacing := fun _ => true |} in
  let away := saturn 1016 in
  let v := SaturnianCube.animations [cube 1000; away; saturn 5000]
             SaturnianCube.created in
  SaturnianCube.computed away
  /\ (SaturnianCube.hexagonStrength away <= 0.995)%Q
  /\ SaturnianCube.yellowEdgeStartTime v = 1000
  /\ In Store.actions.unlockCubeSecret (snd (SaturnianCube.animate (cube 5016) v))
  /\ snd (SaturnianCube.animate (cube 5016) v) <> [].
Proof.
  cbv zeta. split; [intros _; reflexivity |].
  split; [discriminate |].
  split; [vm_compute; reflexivity |].
  split; [vm_compute; left; reflexivity | vm_compute; discriminate].
Qed.

(** C5, amended.  In a sequence of frames of [animate] on a scene whose
    timer is off at first, a frame dispatches the unlock of the cube only
    if it is a frame of the cube tableau that ends a run of consecutive
    frames of the cube tableau, all at full reveal (strength above 0.995),
    in which the clock has advanced by 2000 ms or more between a reading
    of the first frame of the run and a reading of this one; the frames
    of the other tableaux between them do not count: such a frame
    changes nothing, timer included, and dispatches nothing.  The action
    dispatched is the unlock of the cube and nothing else, and a frame of
    the cube tableau whose strength is at or below 0.995 leaves the timer
    at zero, start and duration, and dispatches nothing. *)
Theorem reveal_debounce_on_cube_frames :
  (forall (pre : list SaturnianCube.frame) (f : SaturnianCube.frame)
          (v : SaturnianCube.vars),
     SaturnianCube.cubeObject v = true ->
     SaturnianCube.yellowEdgeStartTime v = 0 ->
     snd (SaturnianCube.animate f (SaturnianCube.animations pre v)) <> [] ->
     SaturnianCube.onCube f = true
     /\ exists older f0 rest a b,
          List.filter SaturnianCube.onCube (pre ++ [f]) = older ++ f0 :: rest
          /\ Forall (fun g => (0.995 < SaturnianCube.hexagonStrength g)%Q)
               (f0 :: rest)
          /\ 2000 <= SaturnianCube.clock f b - SaturnianCube.clock f0 a)
  /\ (forall (f : SaturnianCube.frame) (v : SaturnianCube.vars),
        Forall (eq Store.actions.unlockCubeSecret)
          (snd (SaturnianCube.animate f v)))
  /\ (forall (f : SaturnianCube.frame) (v : SaturnianCube.vars),
        SaturnianCube.cubeObject v = true ->
        SaturnianCube.onCube f = true ->
        (SaturnianCube.hexagonStrength f <= 0.995)%Q ->
        SaturnianCube.yellowEdgeStartTime (fst (SaturnianCube.animate f v)) = 0
        /\ SaturnianCube.yellowEdgeDuration (fst (SaturnianCube.animate f v)) = 0%Q
        /\ snd (SaturnianCube.animate f v) = [])
  /\ (forall (f : SaturnianCube.frame) (v : SaturnianCube.vars),
        SaturnianCube.onCube f = false -> SaturnianCube.animate f v = (v, [])).
Proof.
  destruct calls_debounce as (Hruns & Honly & Hbelow).
  split; [| split; [| split]].
  - intros pre f v Hcube Hstart Hfired.
    destruct (SaturnianCube.onCube f) eqn:Hon.
    + split; [reflexivity |].
      rewrite animate_on in Hfired by exact Hon.
      rewrite animations_calls in Hfired.
      destruct (Hruns _ f v Hcube Hstart Hfired)
        as (older & f0 & rest & a & b & Hsplit & Hall & Hlate).
      exists older, f0, rest, a, b.
      split; [| split; assumption].
      rewrite List.filter_app. cbn [List.filter]. rewrite Hon.
      exact Hsplit.
    + rewrite animate_off in Hfired by exact Hon. now elim Hfired.
  - intros f v. destruct (SaturnianCube.onCube f) eqn:Hon.
    + rewrite animate_on by exact Hon. apply Honly.
    + rewrite animate_off by exact Hon. constructor.
  - intros f v Hcube Hon Hle. rewrite animate_on by exact Hon.
    apply Hbelow; assumption.
  - intros f v. apply animate_off.
Qed.


Lemma reveal_debounce_on_cube_frames_witness :
  let shot t h :=
    {| SaturnianCube.state := Store.initialState 0;
       SaturnianCube.hexagonStrength := h;
       SaturnianCube.clock := fun _ => t;
       SaturnianCube.isFrontFacing := fun _ => true |} in
  (exists older f0 rest a b,
     List.filter SaturnianCube.onCube
       [shot 1000 1%Q; shot 2000 1%Q; shot 3000 1%Q] = older ++ f0 :: rest
     /\ Forall (fun g => (0.995 < SaturnianCube.hexagonStrength g)%Q)
          (f0 :: rest)
     /\ 2000 <= SaturnianCube.clock (shot 3000 1%Q) b
                - SaturnianCube.clock f0 a)
  /\ SaturnianCube.yellowEdgeStartTime
       (fst (SaturnianCube.animate (shot 2500 0.995%Q)
               (SaturnianCube.animations [shot 1000 1%Q; shot 2000 1%Q]
                  SaturnianCube.created))) = 0.
Proof.
  intros shot.
  destruct reveal_debounce_on_cube_frames as (Hfire & _ & Hreset & _).
  split.
  - apply (Hfire [shot 1000 1%Q; shot 2000 1%Q] (shot 3000 1%Q)
             SaturnianCube.created).
    + reflexivity.
    + reflexivity.
    + vm_compute. discriminate.
  - apply Hreset.
    + reflexivity.
    + reflexivity.
    + vm_compute. discriminate.
Defined.

(** ** AlignmentDetector: the reveal strength *)

Section RevealStrength.

Import PrimFloat.
#[local] Open Scope float_scope.

(** In automatic rotation the strength is 0; under manual control it is
    the power of the largest alignment, which is 0 on the Saturn tableau
    and without a cube. *)
Lemma hexagonStrength_gate
    (rotate : Alignment.Quaternion -> Alignment.Vector3
              -> Alignment.Vector3)
    (pow : float -> float -> float)
    (st : Store.state) (camera position : Alignment.Vector3)
    (rotation : Alignment.Quaternion) :
  (Store.truthy (Store.autoRotate st) = true ->
   Alignment.hexagonStrength rotate pow st camera
     (Some (rotation, position)) = 0)
  /\ (Store.truthy (Store.autoRotate st) = false ->
      Store.showSaturn st = true ->
      Alignment.hexagonStrength rotate pow st camera
        (Some (rotation, position)) = pow 0 100)
  /\ (Store.truthy (Store.autoRotate st) = false ->
      Store.showSaturn st = false ->
      Alignment.hexagonStrength rotate pow st camera
        (Some (rotation, position))
      = Alignment.computeRevealStrength rotate pow
          (Alignment.normalize (Alignment.sub camera position))
          rotation).
Proof.
  unfold Alignment.hexagonStrength. split; [| split].
  - intros ->. reflexivity.
  - intros -> ->. reflexivity.
  - intros -> ->. reflexivity.
Qed.




End RevealStrength.

(** ** SequenceGate: progress and appearance *)

Section FlowerInvariant.

Import FlowerOfLife.

(** The ids of the sacred order are ids of circles. *)
Lemma order_in_range (k : nat) (e : Z) :
  nth_error FRUIT_OF_LIFE_ORDER k = Some e -> 0 <= e <= 12.
Proof.
  unfold FRUIT_OF_LIFE_ORDER.
  do 13 (destruct k as [| k]; [intros [= <-]; lia |]).
  destruct k; discriminate.
Qed.

(** Accepting the expected id extends the prefix by one. *)
Lemma order_prefix_step (k : nat) (e : Z) :
  nth_error FRUIT_OF_LIFE_ORDER (length (firstn k FRUIT_OF_LIFE_ORDER))
  = Some e ->
  firstn k FRUIT_OF_LIFE_ORDER ++ [e] = firstn (S k) FRUIT_OF_LIFE_ORDER.
Proof.
  unfold FRUIT_OF_LIFE_ORDER.
  do 13 (destruct k as [| k]; [intros [= <-]; reflexivity |]).
  destruct k; discriminate.
Qed.

Lemma order_prefix_full (k : nat) :
  length (firstn k FRUIT_OF_LIFE_ORDER) = 13%nat ->
  firstn k FRUIT_OF_LIFE_ORDER = FRUIT_OF_LIFE_ORDER.
Proof.
  unfold FRUIT_OF_LIFE_ORDER.
  do 13 (destruct k as [| k]; [discriminate |]).
  intros _. cbn. now destruct k.
Qed.

Lemma colourOf_nil (i : Z) : colourOf [] i = white.
Proof.
  unfold colourOf. destruct (decide _) as [Hin | _]; [| reflexivity].
  now apply not_elem_of_nil in Hin.
Qed.

Lemma colourOf_snoc (clicks : list Z) (e i : Z) :
  colourOf (clicks ++ [e]) i
  = if decide (e = i) then dimmed else colourOf clicks i.
Proof.
  unfold colourOf.
  destruct (decide (e = i)) as [-> | Hne].
  - destruct (decide _) as [_ | Hout]; [reflexivity |].
    elim Hout. apply elem_of_app. right. apply list_elem_of_singleton.
    reflexivity.
  - destruct (decide (elem_of i (clicks ++ [e]))) as [Hin | Hout],
             (decide (elem_of i clicks)) as [Hin' | Hout'];
      try reflexivity.
    + apply elem_of_app in Hin as [Hin | Hin]; [contradiction |].
      apply list_elem_of_singleton in Hin. congruence.
    + elim Hout. apply elem_of_app. now left.
Qed.

Lemma create_consistent : consistent (create constructor).
Proof.
  unfold consistent. cbn [create constructor flowerGroup metatronClicks
                          showMetatron nodeMap].
  split; [discriminate |]. split; [exists 0%nat; reflexivity |].
  split; [discriminate |].
  intros i. cbn [fold_left map app Z.add].
  destruct (decide (0 <= i <= 12)) as [Hin | Hout].
  - rewrite colourOf_nil.
    assert (Hcases : i = 0 \/ i = 1 \/ i = 2 \/ i = 3 \/ i = 4 \/ i = 5
                     \/ i = 6 \/ i = 7 \/ i = 8 \/ i = 9 \/ i = 10
                     \/ i = 11 \/ i = 12) by lia.
    repeat destruct Hcases as [-> | Hcases]; try subst i;
      vm_compute; reflexivity.
  - repeat (rewrite lookup_insert_ne by (cbn; lia)).
    apply lookup_empty.
Qed.

Lemma reset_consistent (g : t) : consistent g -> consistent (reset g).
Proof.
  intros (Hgroup & _ & _ & Hcolours). unfold consistent.
  cbn [reset flowerGroup metatronClicks showMetatron nodeMap].
  split; [exact Hgroup |]. split; [exists 0%nat; reflexivity |].
  split; [discriminate |].
  intros i. rewrite lookup_fmap, Hcolours, colourOf_nil.
  destruct (decide _); reflexivity.
Qed.

Lemma handleClick_consistent (intersects : list userData) (g g' : t)
    (accepted : bool) :
  consistent g ->
  handleClick intersects g = Some (g', accepted) ->
  consistent g'.
Proof.
  intros Hg. pose proof Hg as (Hgroup & [k Hk] & Hdone & Hcolours).
  unfold handleClick.
  destruct (showMetatron g) eqn:Hshow; [intros [= <- _]; exact Hg |].
  destruct (flowerGroup g) as [group |] eqn:Hfg; [| congruence].
  destruct (clickedNode intersects) as [clickedId |];
    [| intros [= <- _]; exact Hg].
  destruct (decide _) as [Heq | _];
    [| intros [= <- _]; apply reset_consistent, Hg].
  symmetry in Heq. rewrite Hk in Heq.
  pose proof (order_in_range _ _ Heq) as Hrange.
  pose proof (order_prefix_step k clickedId Heq) as Hstep.
  assert (Hlookup : forall i : Z,
            alter (fun _ => dimmed) clickedId (nodeMap g) !! i
            = if decide (0 <= i <= 12)
              then Some (colourOf (metatronClicks g ++ [clickedId]) i)
              else None).
  { intros i. rewrite colourOf_snoc.
    destruct (decide (clickedId = i)) as [<- | Hne].
    - rewrite lookup_alter_eq, Hcolours.
      destruct (decide _); [reflexivity | lia].
    - rewrite lookup_alter_ne by exact Hne. apply Hcolours. }
  destruct (_ =? _)%nat eqn:Hlen; intros [= <- _]; unfold consistent;
    cbn [flowerGroup metatronClicks showMetatron nodeMap].
  - split; [discriminate |].
    split; [exists (S k); now rewrite Hk |].
    split; [| exact Hlookup].
    intros _. apply Nat.eqb_eq in Hlen. rewrite Hk, Hstep in *.
    now apply order_prefix_full.
  - split; [discriminate |].
    split; [exists (S k); now rewrite Hk |].
    split; [discriminate | exact Hlookup].
Qed.

Lemma show_consistent (g : t) : consistent g -> consistent (show g).
Proof.
  intros Hg. pose proof Hg as (Hgroup & Hk & Hdone & Hcolours).
  unfold show. destruct (flowerGroup g); [| congruence].
  apply reset_consistent. unfold consistent.
  cbn [flowerGroup metatronClicks showMetatron nodeMap].
  split; [discriminate | auto].
Qed.

Lemma hide_consistent (g : t) : consistent g -> consistent (hide g).
Proof.
  intros (Hgroup & Hk & Hdone & Hcolours). unfold consistent.
  cbn [hide flowerGroup metatronClicks showMetatron nodeMap].
  split; [destruct (flowerGroup g); [discriminate | congruence] |].
  split; [exact Hk |]. split; [discriminate | exact Hcolours].
Qed.

Lemma revealTimeout_consistent (g : t) :
  consistent g -> consistent (revealTimeout g).
Proof.
  intros (Hgroup & Hk & Hdone & Hcolours). unfold consistent.
  cbn [revealTimeout flowerGroup metatronClicks showMetatron nodeMap].
  split; [destruct (flowerGroup g); [discriminate | congruence] |].
  split; [exact Hk |]. split; [exact Hdone | exact Hcolours].
Qed.

Lemma reachable_consistent (g : t) : reachable g -> consistent g.
Proof.
  induction 1 as [| hits g g' accepted _ IH Hclick | g _ IH | g _ IH
                  | g _ IH | g _ IH].
  - apply create_consistent.
  - eapply handleClick_consistent; eassumption.
  - apply reset_consistent, IH.
  - apply show_consistent, IH.
  - apply hide_consistent, IH.
  - apply revealTimeout_consistent, IH.
Qed.

(** [handleClick] raises exactly on a flower without a group whose pattern
    is not complete. *)
Lemma handleClick_raises (intersects : list userData) (g : t) :
  handleClick intersects g = None
  <-> showMetatron g = false /\ flowerGroup g = None.
Proof.
  unfold handleClick.
  destruct (showMetatron g); [split; [discriminate | intros [? _]; discriminate] |].
  destruct (flowerGroup g); [| tauto].
  split; [| intros [_ ?]; discriminate].
  destruct (clickedNode intersects); [| discriminate].
  destruct (decide _); [| discriminate].
  destruct (_ =? _)%nat; discriminate.
Qed.

End FlowerInvariant.

(** ** ClockSecretGate: what unlocks it *)

Section ClockUnlock.

Import SaturnObject.

(** One more attempt, after a sequence of them. *)
Lemma attempts_snoc (secs : list Z) (s : Z) (g : t) :
  attempts (secs ++ [s]) g = fst (checkTimingSecret s (attempts secs g)).
Proof. unfold attempts. now rewrite fold_left_app. Qed.

Lemma credited_step (seconds : Z) (g : t) :
  credited g -> credited (fst (checkTimingSecret seconds g)).
Proof.
  intros [Hpos Hsix]. unfold credited, checkTimingSecret.
  destruct (containsSix seconds) eqn:Hs; cbn.
  - destruct (lastSixMoment g =? seconds); cbn; [auto |].
    destruct (3 <=? saturnCounter g + 1); cbn; split; intros; lia.
  - split; [lia | congruence].
Qed.

Lemma credited_attempts (secs : list Z) :
  credited (attempts secs constructor).
Proof.
  induction secs as [| s secs IH] using rev_ind.
  - split; cbn; [lia | discriminate].
  - rewrite attempts_snoc. apply credited_step, IH.
Qed.

(** The flag is set exactly when an attempt returns true or it was set. *)
Lemma unlocked_after (seconds : Z) (g : t) :
  saturnSecretUnlocked (fst (checkTimingSecret seconds g))
  = saturnSecretUnlocked g || snd (checkTimingSecret seconds g).
Proof.
  unfold checkTimingSecret.
  destruct (containsSix seconds); cbn; [| now rewrite orb_false_r].
  destruct (lastSixMoment g =? seconds); cbn; [now rewrite orb_false_r |].
  destruct (3 <=? saturnCounter g + 1); cbn;
    [now rewrite orb_true_r | now rewrite orb_false_r].
Qed.

Lemma threeInARow_snoc (secs : list Z) (s : Z) :
  threeInARow secs -> threeInARow (secs ++ [s]).
Proof.
  intros (pre & run & post & -> & Hrun & Hlen).
  exists pre, run, (post ++ [s]). split; [| split; assumption].
  now rewrite <- !app_assoc.
Qed.

Lemma streak_step (secs : list Z) (s : Z) (g : t) :
  streakBound secs g ->
  (saturnSecretUnlocked g = true -> threeInARow secs) ->
  streakBound (secs ++ [s]) (fst (checkTimingSecret s g))
  /\ (saturnSecretUnlocked (fst (checkTimingSecret s g)) = true ->
      threeInARow (secs ++ [s])).
Proof.
  intros (pre & run & -> & Hrun & Hlen) Hunlocked.
  unfold checkTimingSecret.
  destruct (containsSix s) eqn:Hs; cbn.
  - assert (Hrun' : Forall (fun s => containsSix s = true) (run ++ [s])).
    { apply Forall_app. split; [exact Hrun |]. now constructor. }
    assert (Hlen' : length (run ++ [s]) = S (length run))
      by (rewrite length_app; cbn; lia).
    destruct (lastSixMoment g =? s); cbn.
    + split.
      * exists pre, (run ++ [s]). rewrite <- app_assoc.
        repeat split; [exact Hrun' | rewrite Hlen'; cbn [saturnCounter]; lia].
      * intros Hu. apply threeInARow_snoc, Hunlocked, Hu.
    + destruct (Z.leb_spec 3 (saturnCounter g + 1)); cbn.
      * split.
        -- exists pre, (run ++ [s]). rewrite <- app_assoc.
           repeat split; [exact Hrun' | rewrite Hlen'; cbn [saturnCounter]; lia].
        -- intros _. exists pre, (run ++ [s]), [].
           rewrite app_nil_r, <- app_assoc.
           repeat split; [exact Hrun' | rewrite Hlen'; cbn [saturnCounter]; lia].
      * split.
        -- exists pre, (run ++ [s]). rewrite <- app_assoc.
           repeat split; [exact Hrun' | rewrite Hlen'; cbn [saturnCounter]; lia].
        -- intros Hu. apply threeInARow_snoc, Hunlocked, Hu.
  - split.
    + exists (pre ++ run ++ [s]), []. rewrite app_nil_r, <- app_assoc.
      repeat split; [constructor | cbn; lia].
    + intros Hu. apply threeInARow_snoc, Hunlocked, Hu.
Qed.

Lemma streak_attempts (secs : list Z) :
  streakBound secs (attempts secs constructor)
  /\ (saturnSecretUnlocked (attempts secs constructor) = true ->
      threeInARow secs).
Proof.
  induction secs as [| s secs [IHb IHu]] using rev_ind.
  - split; [| discriminate].
    exists [], []. repeat split; [constructor | cbn; lia].
  - rewrite attempts_snoc. now apply streak_step.
Qed.

End ClockUnlock.

(** ** BreathCycleGate: in milliseconds *)

Section BreathMillis.

Import TriangleObject.

(** The whole cycles in [d] milliseconds, rounded towards zero. *)
Lemma trunc_cycle (d : Z) :
  JS.trunc (inject_Z d / 1000 / cycleDuration) = Z.quot d 6000.
Proof.
  unfold JS.trunc, cycleDuration, Qdiv, Qmult, Qinv, inject_Z. cbn.
  now rewrite !Z.mul_1_r.
Qed.

(** The peak window is 1300..1700 ms into the cycle. *)
Lemma isPeakMoment_millis (d : Z) (g : t) :
  isPeakMoment (phaseTime (breathStartTime g + d) g)
  = (1300 <=? Z.rem d 6000) && (Z.rem d 6000 <=? 1700).
Proof.
  rewrite phaseTime_after_anchor. unfold JS.rem. rewrite trunc_cycle.
  pose proof (Z.quot_rem' d 6000) as Hqr.
  set (q := Z.quot d 6000) in *. set (r := Z.rem d 6000) in *.
  unfold isPeakMoment, Qle_bool, cycleDuration, Qminus, Qplus, Qopp, Qmult,
    Qdiv, Qinv, inject_Z. cbn.
  change (Z.pos (1 * 1000 * (1 * 1))) with 1000.
  change (Z.pos (1 * 1)) with 1. change (Z.pos (1 * 1000)) with 1000.
  f_equal;
    repeat match goal with
           | |- context [?a <=? ?b] => destruct (Z.leb_spec a b)
           end; try reflexivity; lia.
Qed.

(** The cycle of a click is the number of whole cycles since the
    anchor. *)
Lemma currentCycle_millis (d : Z) (g : t) :
  currentCycle (breathStartTime g + d) g = d / 6000.
Proof.
  rewrite currentCycle_after_anchor.
  unfold JS.floor, Qfloor, cycleDuration, Qdiv, Qmult, Qinv, inject_Z. cbn.
  now rewrite !Z.mul_1_r.
Qed.

(** The phase that [updateBreath] reports, once the anchor is set. *)
Lemma updateBreath_millis (d : Z) (g : t) :
  breathStartTime g <> 0 ->
  snd (updateBreath (breathStartTime g + d) g)
  = (if Z.rem d 6000 <? 3000 then inhale else exhale)
  /\ breathStartTime (fst (updateBreath (breathStartTime g + d) g))
     = breathStartTime g.
Proof.
  intros Hstart. unfold updateBreath.
  destruct (Z.eqb_spec (breathStartTime g) 0) as [| _]; [contradiction |].
  cbn [fst snd breathStartTime]. split; [| reflexivity].
  rewrite Z.add_simpl_l. unfold JS.rem. rewrite trunc_cycle.
  pose proof (Z.quot_rem' d 6000) as Hqr.
  set (q := Z.quot d 6000) in *. set (r := Z.rem d 6000) in *.
  destruct (Qlt_le_dec _ _) as [Hlt | Hle];
    destruct (Z.ltb_spec r 3000) as [Hr | Hr]; try reflexivity; exfalso.
  - revert Hlt. unfold Qlt, cycleDuration, Qminus, Qplus, Qopp, Qmult,
      Qdiv, Qinv, inject_Z. cbn.
    change (Z.pos (1 * 1)) with 1. change (Z.pos (1 * 1000)) with 1000.
    change (Z.pos (1 * 1000 * (1 * 1))) with 1000. lia.
  - revert Hle. unfold Qle, cycleDuration, Qminus, Qplus, Qopp, Qmult,
      Qdiv, Qinv, inject_Z. cbn.
    change (Z.pos (1 * 1)) with 1. change (Z.pos (1 * 1000)) with 1000.
    change (Z.pos (1 * 1000 * (1 * 1))) with 1000. lia.
Qed.

(** A click, by the milliseconds [d] since the anchor. *)
Lemma checkBreathClick_millis (d : Z) (g : t) :
  let r := checkBreathClick (breathStartTime g + d) g in
  let inWindow := (1300 <=? Z.rem d 6000) && (Z.rem d 6000 <=? 1700) in
  let fresh := negb (d / 6000 =? lastClickCycle g) in
  snd r = inWindow && fresh && (3 <=? breathCounter g + 1)
  /\ breathCounter (fst r)
     = (if inWindow
        then if fresh
             then if 3 <=? breathCounter g + 1 then 0
                  else breathCounter g + 1
             else breathCounter g
        else 0)
  /\ lastClickCycle (fst r)
     = (if inWindow
        then if fresh
             then if 3 <=? breathCounter g + 1 then -1 else d / 6000
             else lastClickCycle g
        else -1).
Proof.
  cbv zeta. unfold checkBreathClick.
  rewrite isPeakMoment_millis, currentCycle_millis.
  destruct (_ && _); [| cbn; auto].
  destruct (_ =? _); [cbn; auto |].
  destruct (3 <=? _); cbn; auto.
Qed.

(** The pace of the gate is kept by a click that is not earlier than the
    clicks before it. *)
Lemma paced_step (m d : Z) (g : t) :
  paced m g -> 0 <= d -> m <= d ->
  paced d (fst (checkBreathClick (breathStartTime g + d) g))
  /\ (snd (checkBreathClick (breathStartTime g + d) g) = true ->
      13300 <= d).
Proof.
  intros [Hrange Hcycle] Hd Hm.
  destruct (checkBreathClick_millis d g) as (Hr & Hc & Hl).
  cbv zeta in Hr, Hc, Hl. unfold paced. rewrite Hr, Hc, Hl.
  pose proof (Z.div_le_mono m d 6000 ltac:(lia) Hm) as Hmono.
  pose proof (Z.div_pos d 6000 Hd ltac:(lia)) as Hpos.
  pose proof (Z.rem_mod_nonneg d 6000 Hd ltac:(lia)) as Hrem.
  pose proof (Z.div_mod d 6000 ltac:(lia)) as Hdm.
  destruct (Z.leb_spec 1300 (Z.rem d 6000)) as [Hlow | Hlow]; cbn [andb];
    [| split; [lia | discriminate]].
  destruct (Z.leb_spec (Z.rem d 6000) 1700) as [Hhigh | Hhigh]; cbn [andb];
    [| split; [lia | discriminate]].
  destruct (Z.eqb_spec (d / 6000) (lastClickCycle g)) as [Hsame | Hnew];
    cbn [negb andb].
  - split; [| discriminate]. split; [lia |]. intros Hc1.
    specialize (Hcycle Hc1). lia.
  - destruct (Z.leb_spec 3 (breathCounter g + 1)) as [Hthree | Htwo].
    + split; [split; [lia | intros; lia] |]. intros _.
      assert (Hc1 : 1 <= breathCounter g) by lia.
      specialize (Hcycle Hc1). lia.
    + split; [| discriminate]. split; [lia |]. intros _.
      destruct (Z.le_gt_cases 1 (breathCounter g)) as [Hc1 | Hc0].
      * specialize (Hcycle Hc1). lia.
      * lia.
Qed.

(** After clicks in the order of time, none before the anchor. *)
Lemma paced_clicks (ds : list Z) (m : Z) (g : t) :
  paced m g -> 0 <= m -> Sorted Z.le (m :: ds) ->
  paced (List.last ds m) (clicks (map (Z.add (breathStartTime g)) ds) g)
  /\ m <= List.last ds m.
Proof.
  revert m g. induction ds as [| d ds IH]; intros m g Hg Hm Hsorted.
  - cbn. split; [exact Hg | lia].
  - apply Sorted_inv in Hsorted as [Hsorted Hhd].
    apply HdRel_inv in Hhd.
    destruct (paced_step m d g Hg ltac:(lia) Hhd) as [Hstep _].
    cbn [map clicks fold_left].
    pose proof (checkBreathClick_anchor (breathStartTime g + d) g) as Ha.
    set (g1 := fst (checkBreathClick (breathStartTime g + d) g)) in *.
    rewrite <- Ha.
    destruct (IH d g1 Hstep ltac:(lia) Hsorted) as [Hp Hle].
    change (List.last (d :: ds) m) with
      (match ds with [] => d | _ :: _ => List.last ds m end).
    destruct ds as [| d' ds'].
    + cbn in *. split; [exact Hp | lia].
    + replace (List.last (d' :: ds') m) with (List.last (d' :: ds') d)
        by (clear; revert d'; induction ds' as [| x xs IHx]; intros d';
            [reflexivity | apply (IHx x)]).
      split; [exact Hp | lia].
Qed.

(** The counter stays within 0..2 whatever the times of the clicks. *)
Lemma counter_range_step (now : Z) (g : t) :
  0 <= breathCounter g <= 2 ->
  0 <= breathCounter (fst (checkBreathClick now g)) <= 2
  /\ (snd (checkBreathClick now g) = true ->
      breathCounter g = 2
      /\ breathCounter (fst (checkBreathClick now g)) = 0
      /\ lastClickCycle (fst (checkBreathClick now g)) = -1
      /\ triangleGlowActive (fst (checkBreathClick now g)) = true).
Proof.
  intros Hrange. unfold checkBreathClick.
  destruct (isPeakMoment _); [| cbn; split; [lia | discriminate]].
  destruct (_ =? _); [cbn; split; [lia | discriminate] |].
  destruct (Z.leb_spec 3 (breathCounter g + 1)); cbn.
  - split; [lia |]. intros _. repeat split. lia.
  - split; [lia | discriminate].
Qed.

Lemma counter_range_clicks (times : list Z) (g : t) :
  0 <= breathCounter g <= 2 ->
  0 <= breathCounter (clicks times g) <= 2.
Proof.
  revert g. induction times as [| now times IH]; intros g Hg;
    cbn [clicks fold_left]; [exact Hg |].
  apply IH, counter_range_step, Hg.
Qed.

End BreathMillis.

Section BreathOrder.

Import TriangleObject.

(** Clicks leave the anchor of the breath where it is. *)
Lemma clicks_anchor (times : list Z) :
  forall g : t, breathStartTime (clicks times g) = breathStartTime g.
Proof.
  induction times as [| now times IH]; intros g; [reflexivity |].
  cbn [clicks fold_left]. fold (clicks times).
  change (fold_left _ times ?g0) with (clicks times g0).
  rewrite IH. apply checkBreathClick_anchor.
Qed.

(** The last element of a list that is not empty. *)
Lemma last_default (l : list Z) :
  forall x m m' : Z, List.last (x :: l) m = List.last (x :: l) m'.
Proof.
  induction l as [| y l IH]; intros x m m'; [reflexivity |].
  change (List.last (x :: y :: l) m) with (List.last (y :: l) m).
  change (List.last (x :: y :: l) m') with (List.last (y :: l) m').
  apply IH.
Qed.

Lemma last_cons (l : list Z) (x m : Z) :
  List.last (x :: l) m = List.last l x.
Proof.
  destruct l as [| y l]; [reflexivity |].
  change (List.last (x :: y :: l) m) with (List.last (y :: l) m).
  apply last_default.
Qed.

(** A time-ordered sequence without its last element. *)
Lemma sorted_snoc (ds : list Z) (d : Z) :
  forall m : Z,
    Sorted Z.le (m :: ds ++ [d]) ->
    Sorted Z.le (m :: ds) /\ List.last ds m <= d.
Proof.
  induction ds as [| x ds IH]; intros m Hsorted.
  - cbn in *. apply Sorted_inv in Hsorted as [_ Hhd].
    apply HdRel_inv in Hhd. split; [repeat constructor | exact Hhd].
  - cbn [app] in Hsorted. apply Sorted_inv in Hsorted as [Hrest Hhd].
    apply HdRel_inv in Hhd.
    destruct (IH x Hrest) as [Hs Hl]. split.
    + constructor; [exact Hs | constructor; exact Hhd].
    + rewrite last_cons. exact Hl.
Qed.

End BreathOrder.

(** ** SceneStateMachine: tableaux and flags *)

Section Tableaux.

Import Store.

(** Splits the [switch] of the reducer on a string type. *)
Ltac by_type t :=
  repeat match goal with
         | |- context [String.eqb t ?c] =>
             destruct (String.eqb_spec t c) as [-> | ?]
         end.

(** What an action does to the tableau: a SHOW action selects its own, the
    reset the cube, any other action keeps what is shown. *)
Lemma reducer_tableau (now : Z) (st st' : state) (a : action) :
  reducer now st a = Some st' ->
  (showCube st', showSaturn st', showTriangle st', showFlower st')
  = (if hasType "SHOW_CUBE" a || hasType "RESET_STATE" a
     then (true, false, false, false)
     else if hasType "SHOW_SATURN" a then (false, true, false, false)
     else if hasType "SHOW_TRIANGLE" a then (false, false, true, false)
     else if hasType "SHOW_FLOWER" a then (false, false, false, true)
     else (showCube st, showSaturn st, showTriangle st, showFlower st)).
Proof.
  unfold reducer, hasType.
  destruct (type a) as [| | b | q | t | fields] eqn:Htype;
    try (intros [= <-]; reflexivity).
  unfold typed. by_type t;
    repeat match goal with
           | |- context [prop ?n ?v] => destruct (prop n v)
           end;
    intros Hst'; try discriminate; injection Hst' as <-;
    repeat match goal with
           | |- context [String.eqb ?x ?c] =>
               destruct (String.eqb_spec x c) as [? | ?]
           end; try congruence; reflexivity.
Qed.

(** What an action does to the unlock flags, to the rotation mode and to
    the pointer. *)
Lemma reducer_flags_exact (now : Z) (st st' : state) (a : action) :
  hasType "RESET_STATE" a = false ->
  reducer now st a = Some st' ->
  cubeSecretUnlocked st'
  = cubeSecretUnlocked st || hasType "UNLOCK_CUBE_SECRET" a
  /\ saturnSecretUnlocked st'
     = saturnSecretUnlocked st || hasType "UNLOCK_SATURN_SECRET" a
  /\ trinitySecretUnlocked st'
     = trinitySecretUnlocked st || hasType "UNLOCK_TRINITY_SECRET" a.
Proof.
  unfold reducer, hasType.
  destruct (type a) as [| | b | q | t | fields] eqn:Htype;
    try (intros _ [= <-]; cbn; now rewrite !orb_false_r).
  unfold typed. by_type t;
    repeat match goal with
           | |- context [prop ?n ?v] => destruct (prop n v)
           end;
    intros Hreset Hst'; try discriminate; injection Hst' as <-;
    repeat match goal with
           | |- context [String.eqb ?x ?c] =>
               destruct (String.eqb_spec x c) as [? | ?]
           end; try congruence; cbn;
    rewrite ?orb_false_r, ?orb_true_r; auto.
Qed.

Lemma reducer_autoRotate (now : Z) (st st' : state) (a : action) :
  reducer now st a = Some st' ->
  autoRotate st'
  = (if hasType "TOGGLE_AUTO_ROTATE" a
     then Bool (negb (truthy (autoRotate st)))
     else if hasType "SET_AUTO_ROTATE" a then payload a
     else if hasType "RESET_STATE" a then Bool true
     else autoRotate st).
Proof.
  unfold reducer, hasType.
  destruct (type a) as [| | b | q | t | fields] eqn:Htype;
    try (intros [= <-]; reflexivity).
  unfold typed. by_type t;
    repeat match goal with
           | |- context [prop ?n ?v] => destruct (prop n v)
           end;
    intros Hst'; try discriminate; injection Hst' as <-;
    repeat match goal with
           | |- context [String.eqb ?x ?c] =>
               destruct (String.eqb_spec x c) as [? | ?]
           end; try congruence; reflexivity.
Qed.

Lemma oneTableau_reducer (now : Z) (st st' : state) (a : action) :
  Scene.oneTableau st -> reducer now st a = Some st' -> Scene.oneTableau st'.
Proof.
  intros Hone Hst'. pose proof (reducer_tableau now st st' a Hst') as Ht.
  unfold Scene.oneTableau in *.
  destruct (_ || _); [injection Ht as -> -> -> ->; reflexivity |].
  destruct (hasType "SHOW_SATURN" a);
    [injection Ht as -> -> -> ->; reflexivity |].
  destruct (hasType "SHOW_TRIANGLE" a);
    [injection Ht as -> -> -> ->; reflexivity |].
  destruct (hasType "SHOW_FLOWER" a);
    [injection Ht as -> -> -> ->; reflexivity |].
  injection Ht as -> -> -> ->. exact Hone.
Qed.

Lemma oneTableau_dispatchAll (clock : nat -> Z) (acts : list action) :
  forall (k : nat) (st st' : state),
    Scene.oneTableau st ->
    dispatchAll clock k acts st = Some st' ->
    Scene.oneTableau st'.
Proof.
  induction acts as [| a acts IH]; intros k st st' Hone; cbn.
  - intros [= <-]. exact Hone.
  - destruct (reducer (clock k) st a) as [st1 |] eqn:Hst1; [| discriminate].
    apply IH. eapply oneTableau_reducer; eassumption.
Qed.

End Tableaux.

(** ** The handlers of the component *)

Section Handlers.

Import Scene.

(** Dispatching leaves everything but the store as it is. *)
Lemma dispatch_store (now : Z) (a : Store.action) (s s' : t) :
  dispatch now a s = Some s' ->
  Store.reducer now (sceneStore s) a = Some (sceneStore s')
  /\ s' = withStore (sceneStore s') s.
Proof.
  unfold dispatch. destruct (Store.reducer _ _ _) as [store |];
    [| discriminate].
  intros [= <-]. split; reflexivity.
Qed.

(** The space bar toggles the rotation mode, Escape sets it, and no key
    does anything in the triangle tableau. *)
Lemma handleKeyPress_space (now : Z) (s : t) :
  canInteractWithCube s = true ->
  handleKeyPress " " now s
  = Some (withStore
            (Store.stamped Store.actions.toggleAutoRotate now
               (Store.withAutoRotate
                  (Store.Bool
                     (negb (Store.truthy (Store.autoRotate (sceneStore s)))))
                  (sceneStore s))) s).
Proof.
  intros Hcan. unfold handleKeyPress. rewrite Hcan. reflexivity.
Qed.

Lemma handleKeyPress_escape (now : Z) (s : t) :
  canInteractWithCube s = true ->
  handleKeyPress "Escape" now s
  = Some (withStore
            (Store.stamped (Store.actions.setAutoRotate (Store.Bool true))
               now
               (Store.withAutoRotate (Store.Bool true) (sceneStore s))) s).
Proof.
  intros Hcan. unfold handleKeyPress. rewrite Hcan. reflexivity.
Qed.

End Handlers.

(** ** The handlers of the component: what a pointer does *)

Section HandlerEffects.

Import Scene.

(** A click on Saturn: the gate takes the attempt, the component copies
    the counter, and the store learns of an unlock. *)
Lemma handleSaturnTimingClick_effect (now : Z) (s : t) :
  let r := SaturnObject.checkTimingSecret (currentTime s) (saturnObject s) in
  exists s',
    handleSaturnTimingClick now s = Some s'
    /\ saturnObject s' = fst r
    /\ saturnCounter s' = SaturnObject.saturnCounter (fst r)
    /\ triangleObject s' = triangleObject s
    /\ flowerObject s' = flowerObject s
    /\ Store.saturnSecretUnlocked (sceneStore s')
       = Store.saturnSecretUnlocked (sceneStore s) || snd r
    /\ Store.autoRotate (sceneStore s') = Store.autoRotate (sceneStore s)
    /\ (Store.showCube (sceneStore s'), Store.showSaturn (sceneStore s'),
        Store.showTriangle (sceneStore s'), Store.showFlower (sceneStore s'))
       = (Store.showCube (sceneStore s), Store.showSaturn (sceneStore s),
          Store.showTriangle (sceneStore s), Store.showFlower (sceneStore s)).
Proof.
  cbv zeta. unfold handleSaturnTimingClick.
  destruct (SaturnObject.checkTimingSecret _ _) as [saturn [|]];
    eexists; (split; [reflexivity |]); cbn;
    rewrite ?orb_true_r, ?orb_false_r; repeat split.
Qed.

(** A click on the triangle: the gate takes the click; on the trinity the
    store unlocks it and shows the flower, otherwise the store is left
    alone. *)
Lemma handleTriangleBreathClick_effect (clock : nat -> Z) (s : t) :
  let r := TriangleObject.checkBreathClick (clock 0%nat) (triangleObject s) in
  exists s',
    handleTriangleBreathClick clock s = Some s'
    /\ triangleObject s' = fst r
    /\ triangleGlowActive s' = TriangleObject.triangleGlowActive (fst r)
    /\ saturnObject s' = saturnObject s
    /\ flowerObject s' = flowerObject s
    /\ Store.autoRotate (sceneStore s') = Store.autoRotate (sceneStore s)
    /\ (if snd r
        then (Store.showCube (sceneStore s'), Store.showSaturn (sceneStore s'),
              Store.showTriangle (sceneStore s'),
              Store.showFlower (sceneStore s'))
             = (false, false, false, true)
             /\ Store.trinitySecretUnlocked (sceneStore s') = true
             /\ Store.cubeSecretUnlocked (sceneStore s')
                = Store.cubeSecretUnlocked (sceneStore s)
             /\ Store.saturnSecretUnlocked (sceneStore s')
                = Store.saturnSecretUnlocked (sceneStore s)
             /\ Store.timestamp (sceneStore s') = clock 2%nat
        else sceneStore s' = sceneStore s).
Proof.
  cbv zeta. unfold handleTriangleBreathClick.
  destruct (TriangleObject.checkBreathClick _ _) as [triangle [|]];
    eexists; (split; [reflexivity |]); cbn; repeat split.
Qed.

(** A click in the flower tableau. *)
Lemma handleFlowerClick_effect (event : pointer) (s s' : t) :
  handleFlowerClick event s = Some s' ->
  sceneStore s' = sceneStore s
  /\ saturnObject s' = saturnObject s
  /\ triangleObject s' = triangleObject s
  /\ (Store.showFlower (sceneStore s) = false -> s' = s).
Proof.
  unfold handleFlowerClick.
  destruct (Store.showFlower (sceneStore s)); cbn [negb].
  - destruct (intersects event) as [hits |];
      [| intros [= <-]; repeat split; discriminate].
    destruct (FlowerOfLife.handleClick hits (flowerObject s))
      as [[flower accepted] |]; [| discriminate].
    intros [= <-]. repeat split. discriminate.
  - intros [= <-]. repeat split.
Qed.

End HandlerEffects.

Section SceneRuns.

Import Scene.

(** Clicks on Saturn, one after the other: the component never raises,
    its gate takes the attempts, and the store knows of the unlock. *)
Lemma saturnClicks_effect (clicks : list (Z * Z)) :
  forall s : t,
    (SaturnObject.saturnSecretUnlocked (saturnObject s) = true ->
     Store.saturnSecretUnlocked (sceneStore s) = true) ->
    saturnCounter s = SaturnObject.saturnCounter (saturnObject s) ->
    exists s',
      saturnClicks clicks s = Some s'
      /\ saturnObject s'
         = SaturnObject.attempts (map fst clicks) (saturnObject s)
      /\ saturnCounter s' = SaturnObject.saturnCounter (saturnObject s')
      /\ Store.saturnSecretUnlocked (sceneStore s')
         = Store.saturnSecretUnlocked (sceneStore s)
           || SaturnObject.saturnSecretUnlocked (saturnObject s')
      /\ (Store.showCube (sceneStore s'), Store.showSaturn (sceneStore s'),
          Store.showTriangle (sceneStore s'),
          Store.showFlower (sceneStore s'))
         = (Store.showCube (sceneStore s), Store.showSaturn (sceneStore s),
            Store.showTriangle (sceneStore s),
            Store.showFlower (sceneStore s)).
Proof.
  induction clicks as [| [seconds now] clicks IH]; intros s Hflag Hcounter.
  - exists s. cbn. repeat split; [exact Hcounter |].
    destruct (Store.saturnSecretUnlocked (sceneStore s)) eqn:Hs;
      [reflexivity |].
    destruct (SaturnObject.saturnSecretUnlocked (saturnObject s)) eqn:Ho;
      [| reflexivity].
    specialize (Hflag eq_refl). congruence.
  - cbn [saturnClicks map fst].
    match goal with |- context [handleSaturnTimingClick now ?s0] =>
      destruct (handleSaturnTimingClick_effect now s0)
        as (s1 & -> & Hobj & Hcount & _ & _ & Hstore & _ & Htab)
    end.
    cbv zeta in Hobj, Hcount, Hstore. cbn [currentTime saturnObject
      sceneStore] in Hobj, Hcount, Hstore, Htab.
    pose proof (unlocked_after seconds (saturnObject s)) as Hafter.
    destruct (IH s1) as (s' & Hrun & Hobj' & Hcount' & Hstore' & Htab').
    + rewrite Hobj, Hstore, Hafter. intros Hu.
      apply orb_true_iff in Hu as [Hu | Hu];
        [rewrite (Hflag Hu); reflexivity | rewrite Hu; apply orb_true_r].
    + now rewrite Hcount, Hobj.
    + exists s'. split; [exact Hrun |].
      split; [rewrite Hobj', Hobj; reflexivity |].
      split; [exact Hcount' |].
      split; [| now rewrite Htab', Htab].
      rewrite Hstore', Hstore.
      destruct (Store.saturnSecretUnlocked (sceneStore s)) eqn:Hs;
        [reflexivity |].
      cbn [orb].
      destruct (snd (SaturnObject.checkTimingSecret seconds (saturnObject s)))
        eqn:Hret; [| reflexivity].
      cbn [orb]. symmetry. rewrite Hobj'.
      assert (Hu1 : SaturnObject.saturnSecretUnlocked (saturnObject s1)
                    = true)
        by (rewrite Hobj, Hafter; apply orb_true_r).
      clear - Hu1. revert Hu1. generalize (saturnObject s1) as g.
      induction (map fst clicks) as [| x xs IHx]; intros g Hg;
        [exact Hg |].
      cbn. apply IHx, unlocked_stays, Hg.
Qed.

(** One run of the visibility block on a scene whose objects exist. *)
Lemma syncVisibility_effect (s : t) :
  TriangleObject.triangle (triangleObject s) <> None ->
  FlowerOfLife.flowerGroup (flowerObject s) <> None ->
  cubeVisible (syncVisibility s) = Store.showCube (sceneStore s)
  /\ saturnVisible (syncVisibility s) = Store.showSaturn (sceneStore s)
  /\ TriangleObject.triangle (triangleObject (syncVisibility s))
     = Some {| TriangleObject.visible := Store.showTriangle (sceneStore s) |}
  /\ FlowerOfLife.flowerGroup (flowerObject (syncVisibility s))
     = Some {| FlowerOfLife.visible := Store.showFlower (sceneStore s) |}
  /\ sceneStore (syncVisibility s) = sceneStore s.
Proof.
  intros Htri Hflo. unfold syncVisibility.
  destruct (TriangleObject.triangle (triangleObject s))
    as [[tv] |] eqn:Ht; [| congruence].
  destruct (FlowerOfLife.flowerGroup (flowerObject s))
    as [[fv] |] eqn:Hf; [| congruence].
  cbn [cubeVisible saturnVisible triangleObject flowerObject sceneStore
       TriangleObject.visible FlowerOfLife.visible].
  split; [reflexivity |].
  split; [destruct (Store.showSaturn _), (saturnVisible s); reflexivity |].
  split.
  - unfold TriangleObject.show, TriangleObject.hide. rewrite Ht.
    destruct (Store.showTriangle _), tv; cbn; try reflexivity; exact Ht.
  - split; [| reflexivity].
    unfold FlowerOfLife.show, FlowerOfLife.hide. rewrite Hf.
    destruct (Store.showFlower _), fv; cbn; try reflexivity; exact Hf.
Qed.

(** The opacity after a frame lies between the opacity before it and the
    target. *)
Lemma fade_between (target current : Q) :
  ((current <= target -> current <= fade target current <= target)
   /\ (target <= current -> target <= fade target current <= current))%Q.
Proof.
  unfold fade, fadeSpeed. split; intros Hle; split; Lqa.lra.
Qed.

(** One frame more is one frame after the others. *)
Lemma fadeFrames_succ (n : nat) (target : Q) :
  forall current : Q,
    fadeFrames (S n) target current
    = fade target (fadeFrames n target current).
Proof.
  induction n as [| n IH]; intros current; [reflexivity |].
  change (fadeFrames (S (S n)) target current)
    with (fadeFrames (S n) target (fade target current)).
  rewrite IH. reflexivity.
Qed.

(** Through the frames the opacity stays between where it started and
    the target. *)
Lemma fadeFrames_between (n : nat) (target : Q) :
  forall current : Q,
    ((current <= target ->
      current <= fadeFrames n target current <= target)
     /\ (target <= current ->
         target <= fadeFrames n target current <= current))%Q.
Proof.
  induction n as [| n IH]; intros current.
  - cbn [fadeFrames]. split; intros Hle; split;
      first [exact Hle | apply Qle_refl].
  - cbn [fadeFrames].
    destruct (fade_between target current) as [Hup Hdown].
    destruct (IH (fade target current)) as [IHup IHdown].
    split; intros Hle.
    + destruct (Hup Hle) as [H1 H2]. destruct (IHup H2) as [H3 H4].
      split; [apply (Qle_trans _ _ _ H1 H3) | exact H4].
    + destruct (Hdown Hle) as [H1 H2]. destruct (IHdown H1) as [H3 H4].
      split; [exact H3 | apply (Qle_trans _ _ _ H4 H2)].
Qed.

End SceneRuns.


(** ** The tableaux behind their secrets *)

Section Session.

Import Scene.

Lemma keeps_refl (st : Store.state) :
  keeps st st.
Proof. split; auto. Qed.

(** A dispatch that is neither a navigation nor the reset. *)
Lemma keeps_reducer (now : Z) (st st' : Store.state)
    (a : Store.action) :
  Store.hasType "RESET_STATE" a = false ->
  Store.hasType "SHOW_CUBE" a = false ->
  Store.hasType "SHOW_SATURN" a = false ->
  Store.hasType "SHOW_TRIANGLE" a = false ->
  Store.hasType "SHOW_FLOWER" a = false ->
  Store.reducer now st a = Some st' ->
  keeps st st'.
Proof.
  intros Hreset Hcube Hsaturn Htriangle Hflower Hst'.
  pose proof (reducer_tableau now st st' a Hst') as Htab.
  rewrite Hreset, Hcube, Hsaturn, Htriangle, Hflower in Htab.
  cbn [orb] in Htab. injection Htab as Hc Hs Ht Hf.
  destruct (reducer_flags_exact now st st' a Hreset Hst')
    as (Hfc & Hfs & Hft).
  unfold keeps, guarded, allUnlocked.
  rewrite Hs, Ht, Hf, Hfc, Hfs, Hft.
  split.
  - intros (Gs & Gt & Gf).
    repeat split; intros Hshown;
      [rewrite (Gs Hshown) | rewrite (Gt Hshown) | rewrite (Gf Hshown)];
      reflexivity.
  - intros (-> & -> & ->). repeat split.
Qed.

Lemma keeps_dispatch (now : Z) (a : Store.action)
    (s s' : t) :
  Store.hasType "RESET_STATE" a = false ->
  Store.hasType "SHOW_CUBE" a = false ->
  Store.hasType "SHOW_SATURN" a = false ->
  Store.hasType "SHOW_TRIANGLE" a = false ->
  Store.hasType "SHOW_FLOWER" a = false ->
  dispatch now a s = Some s' ->
  keeps (sceneStore s) (sceneStore s').
Proof.
  intros Hreset Hcube Hsaturn Htriangle Hflower Hs'.
  apply dispatch_store in Hs' as [Hred _].
  eapply keeps_reducer; eassumption.
Qed.

Lemma keeps_pointer_down (event : pointer)
    (clock : nat -> Z) (s s' : t) :
  handlePointerDown event clock s = Some s' ->
  keeps (sceneStore s) (sceneStore s').
Proof.
  unfold handlePointerDown.
  destruct (targetIsButton event); [intros [= <-]; apply keeps_refl |].
  destruct (Store.showFlower (sceneStore s)).
  { intros Hclick.
    destruct (handleFlowerClick_effect event s s' Hclick) as (-> & _).
    apply keeps_refl. }
  destruct (Store.showTriangle (sceneStore s)).
  { destruct (handleTriangleBreathClick_effect clock s)
      as (s1 & -> & _ & _ & _ & _ & _ & Hstore).
    intros [= <-].
    destruct (snd (TriangleObject.checkBreathClick _ _));
      [| rewrite Hstore; apply keeps_refl].
    destruct Hstore as (Htab & Htrinity & Hcube & Hsaturn & _).
    injection Htab as Hc Hs Ht Hf.
    unfold keeps, guarded, allUnlocked.
    rewrite Hs, Ht, Hf, Htrinity, Hcube, Hsaturn.
    split; [intros _; repeat split; discriminate |].
    intros (-> & -> & _). repeat split. }
  destruct (Store.showSaturn (sceneStore s)).
  { unfold handleSaturnTimingClick.
    destruct (SaturnObject.checkTimingSecret _ _) as [saturn [|]].
    - destruct (dispatch (clock 0%nat) Store.actions.unlockSaturnSecret s)
        as [s1 |] eqn:Hd; [| discriminate].
      intros [= <-]. cbn [sceneStore].
      eapply keeps_dispatch; [.. | exact Hd]; reflexivity.
    - intros [= <-]. apply keeps_refl. }
  destruct (canInteractWithCube s); [| intros [= <-]; apply keeps_refl].
  intros Hd. eapply keeps_dispatch; [.. | exact Hd]; reflexivity.
Qed.

Lemma keeps_pointer_move (client : option (Q * Q))
    (inner : Q * Q) (now : Z) (s s' : t) :
  handlePointerMove client inner now s = Some s' ->
  keeps (sceneStore s) (sceneStore s').
Proof.
  unfold handlePointerMove.
  destruct (Store.showFlower (sceneStore s));
    [intros [= <-]; apply keeps_refl |].
  destruct client as [[clientX clientY] |];
    [| intros [= <-]; apply keeps_refl].
  intros Hd. eapply keeps_dispatch; [.. | exact Hd]; reflexivity.
Qed.

Lemma keeps_key (key : string) (now : Z) (s s' : t) :
  handleKeyPress key now s = Some s' ->
  keeps (sceneStore s) (sceneStore s').
Proof.
  unfold handleKeyPress.
  destruct (negb (canInteractWithCube s));
    [intros [= <-]; apply keeps_refl |].
  destruct (String.eqb key " ").
  { intros Hd. eapply keeps_dispatch; [.. | exact Hd]; reflexivity. }
  destruct (String.eqb key "Escape"); [| intros [= <-]; apply keeps_refl].
  intros Hd. eapply keeps_dispatch; [.. | exact Hd]; reflexivity.
Qed.

(** A rendered button leads to a tableau whose secret is unlocked. *)
Lemma button_guarded (magicMode : bool) (b : button) (now : Z) (s s' : t) :
  (magicMode = true -> allUnlocked (sceneStore s)) ->
  rendered magicMode (sceneStore s) b = true ->
  onButton b now s = Some s' ->
  guarded (sceneStore s')
  /\ (allUnlocked (sceneStore s) -> allUnlocked (sceneStore s')).
Proof.
  intros Hmagic Hrendered Hclick.
  assert (Hflag : match b with
                  | goToSaturn => Store.cubeSecretUnlocked (sceneStore s)
                  | showTriangle =>
                      Store.saturnSecretUnlocked (sceneStore s)
                  | showFlower =>
                      Store.trinitySecretUnlocked (sceneStore s)
                  | showCube => true
                  end = true).
  { destruct magicMode.
    - destruct (Hmagic eq_refl) as (Hc & Hs & Ht). destruct b; assumption.
    - destruct b; cbn in Hrendered; rewrite ?orb_false_r in Hrendered;
        first [exact Hrendered | reflexivity]. }
  destruct b; cbn in Hclick; injection Hclick as <-;
    unfold guarded, allUnlocked; cbn; (split; [| tauto]);
    repeat split; intros; first [discriminate | assumption].
Qed.

Lemma session_invariant (magicMode : bool) (s0 s : t) :
  guarded (sceneStore s0) ->
  (magicMode = true -> allUnlocked (sceneStore s0)) ->
  session magicMode s0 s ->
  guarded (sceneStore s)
  /\ (magicMode = true -> allUnlocked (sceneStore s)).
Proof.
  intros Hguard Hmagic Hsession.
  induction Hsession
    as [| event clock s s' _ [IHg IHm] Hstep
        | client inner now s s' _ [IHg IHm] Hstep
        | key now s s' _ [IHg IHm] Hstep
        | b now s s' _ [IHg IHm] Hrendered Hstep
        | now s s' _ [IHg IHm] Hstep
        | now s _ [IHg IHm]
        | s _ [IHg IHm]].
  - split; assumption.
  - destruct (keeps_pointer_down event clock s s' Hstep);
      split; auto.
  - destruct (keeps_pointer_move client inner now s s' Hstep);
      split; auto.
  - destruct (keeps_key key now s s' Hstep); split; auto.
  - destruct (button_guarded magicMode b now s s' IHm Hrendered Hstep);
      split; auto.
  - destruct (keeps_dispatch now
                Store.actions.unlockCubeSecret s s')
      as [Hg Hm]; try reflexivity; [exact Hstep |]. split; auto.
  - unfold updateTriangleBreath.
    destruct (TriangleObject.updateBreath now (triangleObject s)).
    split; assumption.
  - unfold syncVisibility.
    destruct (TriangleObject.triangle (triangleObject s));
      [| split; assumption].
    destruct (FlowerOfLife.flowerGroup (flowerObject s));
      split; assumption.
Qed.

End Session.

(** ** AlignmentDetector: when the unlock is dispatched *)

Section RevealFires.

Import SaturnianCube.

(** Runs the monadic operations of a call on an explicit state. *)
Ltac steps :=
  cbv [bind ret when get put setStartTime setDuration setTargetOpacity
       setEdge dispatch dateNow resetTimer secretUnlocked Store.truthy
       negb andb];
  cbn [fst snd this reads dispatched cubeObject targetCubeOpacity
       yellowEdgeStartTime yellowEdgeDuration cubeEdges].

Lemma Qle_bool_millis_intro (z : Z) :
  2000 <= z -> Qle_bool 2000 (inject_Z z) = true.
Proof.
  intros Hz. rewrite Qle_bool_iff. unfold Qle, inject_Z. cbn. lia.
Qed.

(** The body of the loop only adds to what was dispatched. *)
Lemma edgeBody_dispatched (f : frame) (i : nat) (r : run) :
  exists more, dispatched (snd (edgeBody f i r)) = dispatched r ++ more.
Proof.
  unfold edgeBody. destruct r as [[co tgt start dur edges] n log].
  destruct (Qlt_le_dec 0.995 (hexagonStrength f)); steps.
  - destruct (start =? 0); steps;
      destruct (Qle_bool _ _); steps;
      first [now exists [Store.actions.unlockCubeSecret]
            | exists []; now rewrite app_nil_r].
  - destruct (Qlt_le_dec 0.95 (hexagonStrength f)); steps;
      [destruct (isFrontFacing f i); steps |];
      exists []; now rewrite app_nil_r.
Qed.

Lemma edgeBody_keeps_unlock (f : frame) (i : nat) (r : run) :
  In Store.actions.unlockCubeSecret (dispatched r) ->
  In Store.actions.unlockCubeSecret (dispatched (snd (edgeBody f i r))).
Proof.
  intros Hin. destruct (edgeBody_dispatched f i r) as [more ->].
  apply in_or_app. now left.
Qed.

(** The timer after the body of the loop at full reveal: it runs when it
    ran, or when the clock read is positive. *)
Lemma edgeBody_timer (f : frame) (i : nat) (r : run) :
  fullReveal f ->
  (forall k, 0 < clock f k) ->
  0 <= timer r ->
  0 < timer (snd (edgeBody f i r)).
Proof.
  intros Hfull Hclock Htimer. unfold edgeBody.
  destruct (Qlt_le_dec 0.995 (hexagonStrength f)) as [_ | Hle];
    [| exfalso; apply (Qlt_not_le _ _ Hfull Hle)].
  destruct r as [[co tgt start dur edges] n log].
  unfold timer in *. cbn in Htimer. steps.
  destruct (Z.eqb_spec start 0) as [-> | Hstart]; steps;
    destruct (Qle_bool _ _); steps; first [apply Hclock | lia].
Qed.

Lemma preamble_timer (f : frame) (r : run) :
  fullReveal f ->
  (forall k, 0 < clock f k) ->
  0 <= timer r ->
  0 <= timer (snd ((yellowEdgeTiming f >> updateOpacity f) r)).
Proof.
  intros Hfull Hclock Htimer. unfold yellowEdgeTiming, updateOpacity.
  destruct (Qlt_le_dec 0.995 (hexagonStrength f)) as [_ | Hle];
    [| exfalso; apply (Qlt_not_le _ _ Hfull Hle)].
  destruct r as [[co tgt start dur edges] n log].
  unfold timer in *. cbn in Htimer. steps.
  destruct (Store.cubeSecretUnlocked (state f)); steps;
    destruct (Z.eqb_spec start 0) as [-> | Hstart]; steps;
    repeat match goal with
      | |- context [0 <? ?t] => destruct (Z.ltb_spec 0 t); steps
      | |- context [Qle_bool ?a ?b] => destruct (Qle_bool a b); steps
      end;
    first [lia | apply Z.lt_le_incl, Hclock].
Qed.

Lemma preamble_fires (f : frame) (v : vars) :
  fullReveal f ->
  0 < yellowEdgeStartTime v ->
  2000 <= clock f 0%nat - yellowEdgeStartTime v ->
  dispatched (snd ((yellowEdgeTiming f >> updateOpacity f)
                     {| this := v; reads := 0; dispatched := [] |}))
  = [Store.actions.unlockCubeSecret].
Proof.
  intros Hfull Hstart Hlate. unfold yellowEdgeTiming, updateOpacity.
  destruct (Qlt_le_dec 0.995 (hexagonStrength f)) as [_ | Hle];
    [| exfalso; apply (Qlt_not_le _ _ Hfull Hle)].
  destruct v as [co tgt start dur edges]. cbn in Hstart, Hlate. steps.
  destruct (Z.eqb_spec start 0) as [-> | _]; [lia |].
  destruct (Store.cubeSecretUnlocked (state f)); steps;
    (destruct (Z.ltb_spec 0 start); [| lia]); steps;
    rewrite (Qle_bool_millis_intro _ Hlate); reflexivity.
Qed.

(** The loop over a list that is not empty: what its first round
    establishes and the later rounds keep. *)
Lemma forEach_establishes (body : nat -> M unit) (P Q : run -> Prop) :
  (forall i r, P r -> Q (snd (body i r))) ->
  (forall i r, Q r -> Q (snd (body i r))) ->
  forall indices r,
    indices <> [] -> P r -> Q (snd (forEach indices body r)).
Proof.
  intros Hfirst Hlater [| i rest] r Hne Hr; [congruence |].
  cbn. unfold bind. specialize (Hfirst i r Hr).
  destruct (body i r) as [[] r1]. cbn [snd] in Hfirst.
  clear Hne Hr. revert r1 Hfirst.
  induction rest as [| j rest IH]; intros r1 Hr1; [exact Hr1 |].
  cbn. unfold bind. specialize (Hlater j r1 Hr1).
  destruct (body j r1) as [[] r2]. apply IH, Hlater.
Qed.

(** The two opening statements leave the cube object and the edges. *)
Lemma preamble_frame (f : frame) (r : run) :
  cubeObject (this (snd ((yellowEdgeTiming f >> updateOpacity f) r)))
  = cubeObject (this r)
  /\ length (cubeEdges
               (this (snd ((yellowEdgeTiming f >> updateOpacity f) r))))
     = length (cubeEdges (this r)).
Proof.
  unfold yellowEdgeTiming, updateOpacity.
  destruct r as [[co tgt start dur edges] n log]. steps.
  destruct (Store.cubeSecretUnlocked (state f)); steps;
    destruct (start =? 0); steps;
    repeat match goal with
      | |- context [0 <? ?t] => destruct (0 <? t); steps
      | |- context [Qlt_le_dec ?a ?b] => destruct (Qlt_le_dec a b); steps
      | |- context [Qle_bool ?a ?b] => destruct (Qle_bool a b); steps
      end; split; reflexivity.
Qed.

Lemma edgeBody_frame (f : frame) (i : nat) (r : run) :
  cubeObject (this (snd (edgeBody f i r))) = cubeObject (this r).
Proof.
  unfold edgeBody. destruct r as [[co tgt start dur edges] n log].
  destruct (Qlt_le_dec 0.995 (hexagonStrength f)); steps.
  - destruct (start =? 0); steps; destruct (Qle_bool _ _); reflexivity.
  - destruct (Qlt_le_dec 0.95 (hexagonStrength f)); steps;
      [destruct (isFrontFacing f i) |]; reflexivity.
Qed.

(** A call on a scene with edges: what the opening statements give and
    the first round of the loop establishes holds after the call. *)
Lemma updateCubeAppearance_establishes (f : frame) (P Q : run -> Prop)
    (r : run) :
  cubeObject (this r) = true ->
  cubeEdges (this r) <> [] ->
  P (snd ((yellowEdgeTiming f >> updateOpacity f) r)) ->
  (forall i r', P r' -> Q (snd (edgeBody f i r'))) ->
  (forall i r', Q r' -> Q (snd (edgeBody f i r'))) ->
  Q (snd (updateCubeAppearance f r)).
Proof.
  intros Hcube Hedges Hpre Hfirst Hlater.
  destruct (preamble_frame f r) as [_ Hlen].
  unfold updateCubeAppearance. unfold bind at 1. cbn [get].
  rewrite Hcube. cbn [negb].
  unfold bind at 1. unfold bind at 1 in Hpre. unfold bind at 1 in Hlen.
  destruct (yellowEdgeTiming f r) as [[] r1].
  unfold bind at 1.
  destruct (updateOpacity f r1) as [[] r2]. cbn [snd] in Hpre, Hlen.
  unfold bind at 1. cbn [get].
  apply (forEach_establishes (edgeBody f) P Q Hfirst Hlater);
    [| exact Hpre].
  rewrite Hlen. destruct (cubeEdges (this r)); [congruence | discriminate].
Qed.

(** A call at full reveal, at a clock above zero: a running timer keeps
    its start, a timer that is off is started at a reading of the
    clock. *)
Lemma call_timer (f : frame) (v : vars) :
  cubeObject v = true ->
  cubeEdges v <> [] ->
  fullReveal f ->
  (forall k, 0 < clock f k) ->
  0 <= yellowEdgeStartTime v ->
  cubeObject (fst (call f v)) = true
  /\ cubeEdges (fst (call f v)) <> []
  /\ (0 < yellowEdgeStartTime v ->
      yellowEdgeStartTime (fst (call f v)) = yellowEdgeStartTime v)
  /\ (yellowEdgeStartTime v = 0 ->
      exists k, yellowEdgeStartTime (fst (call f v)) = clock f k).
Proof.
  intros Hcube Hedges Hfull Hclock Hstart.
  set (r0 := {| this := v; reads := 0; dispatched := [] |}).
  set (started := fun r : run =>
         cubeObject (this r) = true
         /\ cubeEdges (this r) <> []
         /\ (0 < yellowEdgeStartTime v -> timer r = yellowEdgeStartTime v)
         /\ (yellowEdgeStartTime v = 0 -> exists k, timer r = clock f k)).
  set (opened := fun r : run =>
         cubeObject (this r) = true
         /\ cubeEdges (this r) <> []
         /\ (0 < yellowEdgeStartTime v -> timer r = yellowEdgeStartTime v)
         /\ (yellowEdgeStartTime v = 0 ->
             timer r = 0 \/ exists k, timer r = clock f k)).
  assert (Hbody : forall i r, opened r -> started (snd (edgeBody f i r))).
  { intros i r (Hc & He & Hrun & Hoff). unfold started, edgeBody.
    destruct (Qlt_le_dec 0.995 (hexagonStrength f)) as [_ | Hle];
      [| exfalso; apply (Qlt_not_le _ _ Hfull Hle)].
    destruct r as [[co tgt start dur edges] n log].
    unfold timer in *. cbn in Hc, He, Hrun, Hoff. steps.
    assert (Hins : forall (m : material) (l : list material),
              l <> [] -> <[ i := m ]> l <> []).
    { intros m l Hl Hnil. apply Hl.
      apply (f_equal (@List.length material)) in Hnil.
      rewrite length_insert in Hnil. now destruct l. }
    destruct (Z.eqb_spec start 0) as [-> | Hne]; steps;
      destruct (Qle_bool _ _); steps;
      (split; [exact Hc |]); (split; [apply Hins, He |]); split;
      try (intros Hpos; specialize (Hrun Hpos); lia);
      try exact Hrun;
      intros Hzero; first [now eexists |
        destruct (Hoff Hzero) as [? | ?]; [contradiction | assumption]]. }
  assert (Hkeep : forall i r, started r -> started (snd (edgeBody f i r))).
  { intros i r (Hc & He & Hrun & Hoff). apply Hbody.
    repeat split; try assumption. intros Hzero. right. auto. }
  assert (Hpre : opened (snd ((yellowEdgeTiming f >> updateOpacity f) r0))).
  { unfold opened, yellowEdgeTiming, updateOpacity.
    destruct (Qlt_le_dec 0.995 (hexagonStrength f)) as [_ | Hle];
      [| exfalso; apply (Qlt_not_le _ _ Hfull Hle)].
    subst r0. destruct v as [co tgt start dur edges].
    unfold timer. cbn in Hcube, Hedges, Hstart |- *. steps.
    destruct (Store.cubeSecretUnlocked (state f)); steps;
      destruct (Z.eqb_spec start 0) as [-> | Hne]; steps;
      repeat match goal with
        | |- context [0 <? ?t] => destruct (Z.ltb_spec 0 t); steps
        | |- context [Qle_bool ?a ?b] => destruct (Qle_bool a b); steps
        end;
      (split; [exact Hcube |]); (split; [exact Hedges |]); split;
      try (intros Hpos; lia); try reflexivity;
      intros Hzero; first [right; now eexists | left; reflexivity
                          | exfalso; lia]. }
  pose proof (updateCubeAppearance_establishes f opened started r0
                Hcube Hedges Hpre Hbody Hkeep) as Hrun.
  unfold call. fold r0.
  destruct (updateCubeAppearance f r0) as [[] r]. exact Hrun.
Qed.

(** A call at full reveal, 2000 ms or more after the start of a running
    timer, dispatches the unlock. *)
Lemma call_fires (f : frame) (v : vars) :
  cubeObject v = true ->
  fullReveal f ->
  0 < yellowEdgeStartTime v ->
  2000 <= clock f 0%nat - yellowEdgeStartTime v ->
  In Store.actions.unlockCubeSecret (snd (call f v)).
Proof.
  intros Hcube Hfull Hstart Hlate.
  set (r0 := {| this := v; reads := 0; dispatched := [] |}).
  assert (Hrun : In Store.actions.unlockCubeSecret
                   (dispatched (snd (updateCubeAppearance f r0)))).
  { apply (updateCubeAppearance_keeps f
             (fun r => In Store.actions.unlockCubeSecret (dispatched r))).
    - cbn. congruence.
    - intros _. subst r0. rewrite preamble_fires by assumption. now left.
    - intros i r'. apply edgeBody_keeps_unlock. }
  unfold call. fold r0.
  destruct (updateCubeAppearance f r0) as [[] r]. exact Hrun.
Qed.

(** Through calls at full reveal a running timer keeps its start. *)
Lemma calls_timer (frames : list frame) :
  forall v : vars,
    cubeObject v = true ->
    cubeEdges v <> [] ->
    0 < yellowEdgeStartTime v ->
    Forall (fun f => fullReveal f /\ forall k, 0 < clock f k) frames ->
    cubeObject (calls frames v) = true
    /\ yellowEdgeStartTime (calls frames v) = yellowEdgeStartTime v.
Proof.
  induction frames as [| f frames IH]; intros v Hcube Hedges Hstart Hall.
  - split; [exact Hcube | reflexivity].
  - apply List.Forall_cons_iff in Hall as [[Hfull Hclock] Hall].
    destruct (call_timer f v Hcube Hedges Hfull Hclock ltac:(lia))
      as (Hcube' & Hedges' & Hkeep & _).
    specialize (Hkeep Hstart).
    cbn [calls fold_left]. change (fold_left _ frames ?w) with (calls frames w).
    destruct (IH (fst (call f v)) Hcube' Hedges' ltac:(lia) Hall)
      as [Hc Hs].
    split; [exact Hc | now rewrite Hs].
Qed.

End RevealFires.

(** ** Further properties of the gates and of the handlers *)

(** X1.  Whatever clicks, resets, shows, hides and reveal timeouts a
    created flower has gone through, the clicks it records are the first
    ones of the sacred order, all thirteen of them when it shows the
    Metatron; each of the circles 0 to 12 is dimmed if its id is among the
    recorded clicks and white otherwise; and a click does not raise. *)
Theorem flower_progress_invariant (g : FlowerOfLife.t) :
  FlowerOfLife.reachable g ->
  (exists k : nat,
     FlowerOfLife.metatronClicks g
     = firstn k FlowerOfLife.FRUIT_OF_LIFE_ORDER)
  /\ (length (FlowerOfLife.metatronClicks g) <= 13)%nat
  /\ (FlowerOfLife.isShowingMetatron g = true ->
      FlowerOfLife.metatronClicks g = FlowerOfLife.FRUIT_OF_LIFE_ORDER)
  /\ (forall i : Z,
        0 <= i <= 12 ->
        FlowerOfLife.nodeMap g !! i
        = Some (if decide (elem_of i (FlowerOfLife.metatronClicks g))
                then FlowerOfLife.dimmed else FlowerOfLife.white))
  /\ (forall intersects,
        FlowerOfLife.handleClick intersects g <> None).
Proof.
  intros Hreach.
  destruct (reachable_consistent g Hreach)
    as (Hgroup & [k Hk] & Hdone & Hcolours).
  split; [exists k; exact Hk |].
  split; [rewrite Hk, length_firstn; apply Nat.le_min_r |].
  split; [exact Hdone |].
  split.
  - intros i Hi. rewrite Hcolours.
    destruct (decide (0 <= i <= 12)); [reflexivity | contradiction].
  - intros intersects Hraise.
    apply handleClick_raises in Hraise as [_ Hnone]. contradiction.
Qed.

Lemma flower_progress_invariant_witness :
  exists g,
    FlowerOfLife.handleClick (FlowerOfLife.node 0)
      (FlowerOfLife.create FlowerOfLife.constructor) = Some (g, true)
    /\ FlowerOfLife.nodeMap g !! 0 = Some FlowerOfLife.dimmed
    /\ FlowerOfLife.nodeMap g !! 1 = Some FlowerOfLife.white.
Proof.
  destruct (FlowerOfLife.handleClick (FlowerOfLife.node 0)
              (FlowerOfLife.create FlowerOfLife.constructor))
    as [[g accepted] |] eqn:Hclick; [| discriminate].
  assert (Hacc : accepted = true) by (vm_compute in Hclick; congruence).
  assert (Hclicks : FlowerOfLife.metatronClicks g = [0])
    by (vm_compute in Hclick; injection Hclick as <- _; reflexivity).
  subst accepted. exists g. split; [reflexivity |].
  destruct (flower_progress_invariant g) as (_ & _ & _ & Hcolours & _).
  - eapply FlowerOfLife.reach_click;
      [apply FlowerOfLife.reach_create | exact Hclick].
  - split.
    + rewrite (Hcolours 0) by lia. rewrite Hclicks. reflexivity.
    + rewrite (Hcolours 1) by lia. rewrite Hclicks. reflexivity.
Defined.

(** X2.  A click raises exactly when the flower has no group and does not
    show the Metatron: so it raises on a flower that was constructed and
    not created, and on a disposed flower unless its pattern was
    complete, while [show] leaves a disposed flower as it is. *)
Theorem flower_click_raises_without_group :
  (forall intersects g,
     FlowerOfLife.handleClick intersects g = None
     <-> FlowerOfLife.showMetatron g = false
         /\ FlowerOfLife.flowerGroup g = None)
  /\ (forall intersects,
        FlowerOfLife.handleClick intersects FlowerOfLife.constructor = None)
  /\ (forall intersects g,
        FlowerOfLife.handleClick intersects (FlowerOfLife.dispose g)
        = if FlowerOfLife.showMetatron g
          then Some (FlowerOfLife.dispose g, false) else None)
  /\ (forall g,
        FlowerOfLife.show (FlowerOfLife.dispose g) = FlowerOfLife.dispose g).
Proof.
  split; [exact handleClick_raises |].
  split; [reflexivity |].
  split; [| reflexivity].
  intros intersects g. unfold FlowerOfLife.handleClick.
  cbn [FlowerOfLife.dispose FlowerOfLife.showMetatron
       FlowerOfLife.flowerGroup].
  destruct (FlowerOfLife.showMetatron g); reflexivity.
Qed.

Lemma flower_click_raises_without_group_witness :
  FlowerOfLife.handleClick (FlowerOfLife.node 0)
    (FlowerOfLife.dispose (FlowerOfLife.create FlowerOfLife.constructor))
  = None.
Proof.
  destruct flower_click_raises_without_group as (Hiff & _).
  apply Hiff. split; reflexivity.
Defined.

(** X3.  From whatever state a sequence of attempts has left the gate in,
    three more attempts at seconds with a 6, each at another second than
    the attempt before it, unlock the gate, and the third returns true
    unless the gate was unlocked before it. *)
Theorem three_sixes_unlock (secs : list Z) (s1 s2 s3 : Z) :
  SaturnObject.containsSix s1 = true ->
  SaturnObject.containsSix s2 = true ->
  SaturnObject.containsSix s3 = true ->
  s1 <> s2 -> s2 <> s3 ->
  let g := SaturnObject.attempts secs SaturnObject.constructor in
  SaturnObject.saturnSecretUnlocked (SaturnObject.attempts [s1; s2; s3] g)
  = true
  /\ snd (SaturnObject.checkTimingSecret s3
            (SaturnObject.attempts [s1; s2] g)) = true.
Proof.
  intros H1 H2 H3 H12 H23 g.
  destruct (credited_attempts secs) as [Hpos Hsix]. fold g in Hpos, Hsix.
  assert (Hthird : snd (SaturnObject.checkTimingSecret s3
                          (SaturnObject.attempts [s1; s2] g)) = true).
  { cbn [SaturnObject.attempts fold_left].
    unfold SaturnObject.checkTimingSecret at 3. rewrite H1. cbn [negb].
    destruct (Z.eqb_spec (SaturnObject.lastSixMoment g) s1) as [Hdup | Hnew].
    - cbn [fst]. rewrite Hdup in Hsix. specialize (Hsix H1).
      unfold SaturnObject.checkTimingSecret at 2. rewrite H2. cbn [negb].
      destruct (Z.eqb_spec (SaturnObject.lastSixMoment g) s2); [congruence |].
      destruct (3 <=? SaturnObject.saturnCounter g + 1) eqn:Hc; cbn [fst];
        unfold SaturnObject.checkTimingSecret; rewrite H3;
        cbn [negb SaturnObject.lastSixMoment SaturnObject.saturnCounter];
        (destruct (Z.eqb_spec s2 s3); [congruence |]);
        (destruct (Z.leb_spec 3 (SaturnObject.saturnCounter g + 1 + 1));
         [reflexivity | lia]).
    - destruct (3 <=? SaturnObject.saturnCounter g + 1) eqn:Hc; cbn [fst];
        unfold SaturnObject.checkTimingSecret at 2; rewrite H2;
        cbn [negb SaturnObject.lastSixMoment SaturnObject.saturnCounter];
        (destruct (Z.eqb_spec s1 s2); [congruence |]);
        destruct (3 <=? SaturnObject.saturnCounter g + 1 + 1) eqn:Hc';
        cbn [fst];
        unfold SaturnObject.checkTimingSecret; rewrite H3;
        cbn [negb SaturnObject.lastSixMoment SaturnObject.saturnCounter];
        (destruct (Z.eqb_spec s2 s3); [congruence |]);
        (destruct (Z.leb_spec 3 (SaturnObject.saturnCounter g + 1 + 1 + 1));
         [reflexivity | lia]). }
  split; [| exact Hthird].
  change [s1; s2; s3] with ([s1; s2] ++ [s3]).
  rewrite attempts_snoc, unlocked_after, Hthird. apply orb_true_r.
Qed.

Lemma three_sixes_unlock_witness :
  SaturnObject.saturnSecretUnlocked
    (SaturnObject.attempts [16; 26; 36]
       (SaturnObject.attempts [6; 7] SaturnObject.constructor)) = true.
Proof.
  apply (three_sixes_unlock [6; 7] 16 26 36); try reflexivity; lia.
Defined.

(** X4.  The clock gate as constructed is unlocked by a sequence of
    attempts only if the sequence has three attempts in a row at seconds
    with a 6; and its counter never exceeds the number of such attempts
    that end the sequence. *)
Theorem unlock_needs_three_in_a_row (secs : list Z) :
  (SaturnObject.saturnSecretUnlocked
     (SaturnObject.attempts secs SaturnObject.constructor) = true ->
   SaturnObject.threeInARow secs)
  /\ SaturnObject.streakBound secs
       (SaturnObject.attempts secs SaturnObject.constructor).
Proof.
  destruct (streak_attempts secs) as [Hbound Hunlocked].
  split; assumption.
Qed.

Lemma unlock_needs_three_in_a_row_witness :
  SaturnObject.threeInARow [5; 6; 16; 26].
Proof.
  apply (unlock_needs_three_in_a_row [5; 6; 16; 26]). reflexivity.
Defined.

(** X5.  After any attempt of a gate that a sequence of attempts from
    the constructor has led to, the progress counter is displayed at the
    second of the attempt exactly when that second has a 6. *)
Theorem progress_shown_after_attempt (secs : list Z) (seconds : Z) :
  SaturnObject.shouldShowProgress seconds
    (SaturnObject.attempts (secs ++ [seconds]) SaturnObject.constructor)
  = SaturnObject.containsSix seconds.
Proof.
  rewrite attempts_snoc.
  destruct (credited_step seconds _ (credited_attempts secs))
    as [Hpos Hsix].
  unfold SaturnObject.shouldShowProgress.
  destruct (SaturnObject.containsSix seconds) eqn:Hs;
    [| now destruct (_ =? 0)].
  destruct (Z.eqb_spec
              (SaturnObject.saturnCounter
                 (fst (SaturnObject.checkTimingSecret seconds
                         (SaturnObject.attempts secs
                            SaturnObject.constructor)))) 0)
    as [Hzero | _]; [| reflexivity].
  exfalso. revert Hzero Hsix.
  set (g := SaturnObject.attempts secs SaturnObject.constructor).
  pose proof (credited_attempts secs) as [Hpos0 Hsix0]. fold g in Hpos0, Hsix0.
  unfold SaturnObject.checkTimingSecret. rewrite Hs. cbn [negb].
  destruct (Z.eqb_spec (SaturnObject.lastSixMoment g) seconds) as [He | Hne];
    cbn [fst].
  - intros Hzero _. rewrite He in Hsix0. specialize (Hsix0 Hs). lia.
  - destruct (3 <=? SaturnObject.saturnCounter g + 1); cbn; lia.
Qed.

(** C4, amended.  A click outside the peak window, less than 1300 ms or
    more than 1700 ms into its cycle of 6000 ms, puts the counter back to
    0, switches the glow off and returns false.  A click strictly inside
    the window, more than 1300 ms and less than 1700 ms into the cycle,
    of the cycle already credited returns false and changes nothing:
    counter and glow stay as they are.  The two bounds themselves are
    left out: there the binary64 remainder of the code decides. *)
Theorem breath_failure_cases (now : Z) (g : TriangleObject.t) :
  let d := now - TriangleObject.breathStartTime g in
  (Z.rem d 6000 < 1300 \/ 1700 < Z.rem d 6000 ->
   TriangleObject.breathCounter
     (fst (TriangleObject.checkBreathClick now g)) = 0
   /\ TriangleObject.triangleGlowActive
        (fst (TriangleObject.checkBreathClick now g)) = false
   /\ snd (TriangleObject.checkBreathClick now g) = false)
  /\ (1300 < Z.rem d 6000 < 1700 ->
      d / 6000 = TriangleObject.lastClickCycle g ->
      TriangleObject.checkBreathClick now g = (g, false)).
Proof.
  intros d.
  assert (Hnow : now = TriangleObject.breathStartTime g + d)
    by (unfold d; lia).
  rewrite Hnow. unfold TriangleObject.checkBreathClick.
  rewrite isPeakMoment_millis, currentCycle_millis.
  split.
  - intros Hout.
    replace ((1300 <=? Z.rem d 6000) && (Z.rem d 6000 <=? 1700))
      with false; [cbn; auto |].
    symmetry. apply andb_false_iff.
    destruct Hout; [left | right]; apply Z.leb_gt; lia.
  - intros Hin Hsame.
    replace ((1300 <=? Z.rem d 6000) && (Z.rem d 6000 <=? 1700))
      with true
      by (symmetry; apply andb_true_iff; split; apply Z.leb_le; lia).
    apply Z.eqb_eq in Hsame. now rewrite Hsame.
Qed.

Lemma breath_failure_cases_witness :
  let g := fst (TriangleObject.checkBreathClick 1500
                  TriangleObject.constructor) in
  TriangleObject.breathCounter
    (fst (TriangleObject.checkBreathClick 4500 g)) = 0
  /\ TriangleObject.checkBreathClick 1600 g = (g, false).
Proof.
  cbv zeta. split.
  - apply (breath_failure_cases 4500). vm_compute. right. reflexivity.
  - apply (breath_failure_cases 1600).
    + vm_compute. split; reflexivity.
    + reflexivity.
Defined.

Section WindowBounds.

Import PrimFloat.
#[local] Open Scope float_scope.
#[local] Set Warnings "-inexact-float".

(** At the bounds of the window the code decides in binary64: 1.3 s and
    1.7 s into the first cycle are inside, 7.3 s and 7.7 s, at the same
    bounds of the second cycle, are outside.  The remainder by 6 of a
    number from 6 up to 12 is the number less 6, which the subtraction
    gives without rounding. *)
Example window_bounds_binary64 :
  (1.3 <=? 1300 / 1000) = true
  /\ (1700 / 1000 <=? 1.7) = true
  /\ (1.3 <=? 7300 / 1000 - 6) = false
  /\ (7700 / 1000 - 6 <=? 1.7) = false.
Proof. repeat split; vm_compute; reflexivity. Qed.

End WindowBounds.

(** X6.  A click [d] milliseconds after the anchor of the breath is
    judged by the whole milliseconds into its cycle of 6000 ms: before
    1300 or after 1700 it puts the counter back to 0 and forgets the cycle
    credited last; between the two it is ignored when the cycle [d / 6000]
    was credited last, and otherwise it raises the counter and records the
    cycle, or, at the third click, returns true and starts over. *)
Theorem breath_click_in_milliseconds (d : Z) (g : TriangleObject.t) :
  let r := TriangleObject.checkBreathClick
             (TriangleObject.breathStartTime g + d) g in
  (Z.rem d 6000 < 1300 \/ 1700 < Z.rem d 6000 ->
   snd r = false
   /\ TriangleObject.breathCounter (fst r) = 0
   /\ TriangleObject.lastClickCycle (fst r) = -1
   /\ TriangleObject.triangleGlowActive (fst r) = false)
  /\ (1300 < Z.rem d 6000 < 1700 ->
      d / 6000 = TriangleObject.lastClickCycle g ->
      r = (g, false))
  /\ (1300 < Z.rem d 6000 < 1700 ->
      d / 6000 <> TriangleObject.lastClickCycle g ->
      snd r = (3 <=? TriangleObject.breathCounter g + 1)
      /\ TriangleObject.breathCounter (fst r)
         = (if 3 <=? TriangleObject.breathCounter g + 1 then 0
            else TriangleObject.breathCounter g + 1)
      /\ TriangleObject.lastClickCycle (fst r)
         = (if 3 <=? TriangleObject.breathCounter g + 1 then -1
            else d / 6000)
      /\ TriangleObject.triangleGlowActive (fst r) = true).
Proof.
  cbv zeta. unfold TriangleObject.checkBreathClick.
  rewrite isPeakMoment_millis, currentCycle_millis.
  split; [| split].
  - intros Hout.
    replace ((1300 <=? Z.rem d 6000) && (Z.rem d 6000 <=? 1700))
      with false; [cbn; auto |].
    symmetry. apply andb_false_iff.
    destruct Hout; [left | right]; apply Z.leb_gt; lia.
  - intros Hin Hsame.
    replace ((1300 <=? Z.rem d 6000) && (Z.rem d 6000 <=? 1700))
      with true
      by (symmetry; apply andb_true_iff; split; apply Z.leb_le; lia).
    apply Z.eqb_eq in Hsame. now rewrite Hsame.
  - intros Hin Hnew.
    replace ((1300 <=? Z.rem d 6000) && (Z.rem d 6000 <=? 1700))
      with true
      by (symmetry; apply andb_true_iff; split; apply Z.leb_le; lia).
    apply Z.eqb_neq in Hnew. rewrite Hnew.
    destruct (3 <=? TriangleObject.breathCounter g + 1); cbn; auto.
Qed.

Lemma breath_click_in_milliseconds_witness :
  TriangleObject.breathCounter
    (fst (TriangleObject.checkBreathClick 7500
            (fst (TriangleObject.checkBreathClick 1500
                    TriangleObject.constructor)))) = 2.
Proof.
  set (g := fst (TriangleObject.checkBreathClick 1500
                   TriangleObject.constructor)).
  destruct (breath_click_in_milliseconds 7500 g) as (_ & _ & Hnew).
  destruct Hnew as (_ & Hcounter & _).
  - vm_compute. split; reflexivity.
  - vm_compute. discriminate.
  - exact Hcounter.
Defined.

(** X7.  The first call of [updateBreath] anchors the breath at the time
    of the call, reports the inhale and forgets the cycle credited last;
    every later call keeps the anchor and reports the inhale for the
    first 3000 ms of each cycle of 6000 ms after the anchor, the exhale
    for the rest.  No call changes the counter. *)
Theorem breath_phase_in_milliseconds (g : TriangleObject.t) :
  (TriangleObject.breathStartTime g = 0 ->
   forall now,
     snd (TriangleObject.updateBreath now g) = TriangleObject.inhale
     /\ TriangleObject.breathStartTime
          (fst (TriangleObject.updateBreath now g)) = now
     /\ TriangleObject.lastClickCycle
          (fst (TriangleObject.updateBreath now g)) = -1)
  /\ (TriangleObject.breathStartTime g <> 0 ->
      forall d,
        let r := TriangleObject.updateBreath
                   (TriangleObject.breathStartTime g + d) g in
        snd r = (if Z.rem d 6000 <? 3000 then TriangleObject.inhale
                 else TriangleObject.exhale)
        /\ TriangleObject.breathStartTime (fst r)
           = TriangleObject.breathStartTime g
        /\ TriangleObject.lastClickCycle (fst r)
           = TriangleObject.lastClickCycle g)
  /\ (forall now,
        TriangleObject.breathCounter
          (fst (TriangleObject.updateBreath now g))
        = TriangleObject.breathCounter g).
Proof.
  split; [| split].
  - intros Hzero now. unfold TriangleObject.updateBreath.
    rewrite Hzero. cbn [Z.eqb fst snd TriangleObject.breathStartTime
                          TriangleObject.lastClickCycle].
    rewrite Z.sub_diag. repeat split.
  - intros Hset d. cbv zeta.
    destruct (updateBreath_millis d g Hset) as [Hphase Hanchor].
    split; [exact Hphase |]. split; [exact Hanchor |].
    unfold TriangleObject.updateBreath.
    destruct (Z.eqb_spec (TriangleObject.breathStartTime g) 0);
      [contradiction | reflexivity].
  - intros now. reflexivity.
Qed.

Lemma breath_phase_in_milliseconds_witness :
  let g := fst (TriangleObject.updateBreath 1000
                  TriangleObject.constructor) in
  snd (TriangleObject.updateBreath (1000 + 2999) g) = TriangleObject.inhale
  /\ snd (TriangleObject.updateBreath (1000 + 3000) g)
     = TriangleObject.exhale.
Proof.
  intros g.
  destruct (breath_phase_in_milliseconds g) as (_ & Hlater & _).
  assert (Hset : TriangleObject.breathStartTime g <> 0)
    by (vm_compute; discriminate).
  split.
  - destruct (Hlater Hset 2999) as [Hphase _]. exact Hphase.
  - destruct (Hlater Hset 3000) as [Hphase _]. exact Hphase.
Defined.

(** X8.  The counter of the breath gate stays within 0..2 through any
    clicks; a click returns true only at counter 2, and then leaves the
    counter at 0, no cycle credited and the glow on. *)
Theorem breath_counter_below_three (times : list Z) (now : Z)
    (g : TriangleObject.t) :
  0 <= TriangleObject.breathCounter g <= 2 ->
  let g' := TriangleObject.clicks times g in
  0 <= TriangleObject.breathCounter g' <= 2
  /\ 0 <= TriangleObject.breathCounter
            (fst (TriangleObject.checkBreathClick now g')) <= 2
  /\ (snd (TriangleObject.checkBreathClick now g') = true ->
      TriangleObject.breathCounter g' = 2
      /\ TriangleObject.breathCounter
           (fst (TriangleObject.checkBreathClick now g')) = 0
      /\ TriangleObject.lastClickCycle
           (fst (TriangleObject.checkBreathClick now g')) = -1
      /\ TriangleObject.triangleGlowActive
           (fst (TriangleObject.checkBreathClick now g')) = true).
Proof.
  intros Hrange g'.
  pose proof (counter_range_clicks times g Hrange) as Hg'. fold g' in Hg'.
  split; [exact Hg' |]. apply counter_range_step, Hg'.
Qed.

Lemma breath_counter_below_three_witness :
  TriangleObject.breathCounter
    (TriangleObject.clicks [1500; 7500] TriangleObject.constructor) = 2.
Proof.
  destruct (breath_counter_below_three [1500; 7500] 13500
              TriangleObject.constructor) as (_ & _ & Htrue).
  - vm_compute. split; discriminate.
  - apply Htrue. vm_compute. reflexivity.
Defined.

(** X9.  From a gate without progress, clicks in the order of time, none
    before the anchor of the breath, cannot complete the trinity earlier
    than 13300 ms after the anchor: the three credited clicks lie in
    three different cycles, the third not before the window of the third
    cycle. *)
Theorem trinity_not_before_third_cycle (ds : list Z) (d : Z)
    (g : TriangleObject.t) :
  TriangleObject.breathCounter g = 0 ->
  Sorted Z.le (0 :: ds ++ [d]) ->
  snd (TriangleObject.checkBreathClick
         (TriangleObject.breathStartTime g + d)
         (TriangleObject.clicks
            (map (Z.add (TriangleObject.breathStartTime g)) ds) g)) = true ->
  13300 <= d.
Proof.
  intros Hzero Hsorted.
  destruct (sorted_snoc ds d 0 Hsorted) as [Hds Hlast].
  assert (Hpaced : TriangleObject.paced 0 g)
    by (unfold TriangleObject.paced; rewrite Hzero; split; lia).
  destruct (paced_clicks ds 0 g Hpaced ltac:(lia) Hds) as [Hp Hle].
  set (g' := TriangleObject.clicks
               (map (Z.add (TriangleObject.breathStartTime g)) ds) g) in *.
  rewrite <- (clicks_anchor
                (map (Z.add (TriangleObject.breathStartTime g)) ds) g).
  fold g'.
  apply (paced_step (List.last ds 0) d g' Hp); lia.
Qed.

Lemma trinity_not_before_third_cycle_witness :
  snd (TriangleObject.checkBreathClick 13500
         (TriangleObject.clicks [1500; 7500] TriangleObject.constructor))
  = true
  /\ 13300 <= 13500.
Proof.
  assert (Hret : snd (TriangleObject.checkBreathClick 13500
                        (TriangleObject.clicks [1500; 7500]
                           TriangleObject.constructor)) = true)
    by (vm_compute; reflexivity).
  split; [exact Hret |].
  apply (trinity_not_before_third_cycle [1500; 7500] 13500
           TriangleObject.constructor).
  - reflexivity.
  - repeat constructor; lia.
  - exact Hret.
Defined.

(** X10.  Exactly one tableau is shown in every state the store reaches from
    its initial state, whatever the actions dispatched; a navigation
    action shows its own tableau and nothing else, from any state, and
    keeps the unlock flags and the rotation mode. *)
Theorem one_tableau_shown :
  (forall (clock : nat -> Z) (acts : list Store.action) (now : Z)
          (st' : Store.state),
     Store.dispatchAll clock 0 acts (Store.initialState now) = Some st' ->
     Scene.oneTableau st')
  /\ (forall (now : Z) (st : Store.state),
        exists c s t f,
          Store.reducer now st Store.actions.showCube = Some c
          /\ Store.reducer now st Store.actions.showSaturn = Some s
          /\ Store.reducer now st Store.actions.showTriangle = Some t
          /\ Store.reducer now st Store.actions.showFlower = Some f
          /\ Forall2
               (fun st' shown =>
                  (Store.showCube st', Store.showSaturn st',
                   Store.showTriangle st', Store.showFlower st') = shown
                  /\ Store.cubeSecretUnlocked st'
                     = Store.cubeSecretUnlocked st
                  /\ Store.saturnSecretUnlocked st'
                     = Store.saturnSecretUnlocked st
                  /\ Store.trinitySecretUnlocked st'
                     = Store.trinitySecretUnlocked st
                  /\ Store.autoRotate st' = Store.autoRotate st)
               [c; s; t; f]
               [(true, false, false, false); (false, true, false, false);
                (false, false, true, false); (false, false, false, true)]).
Proof.
  split.
  - intros clock acts now st'. apply oneTableau_dispatchAll. reflexivity.
  - intros now st. do 4 eexists.
    repeat (split; [reflexivity |]).
    repeat constructor.
Qed.

Lemma one_tableau_shown_witness :
  exists st',
    Store.dispatchAll (fun _ => 7) 0
      [Store.actions.showSaturn; Store.actions.unlockCubeSecret;
       Store.actions.showFlower; Store.actions.toggleAutoRotate]
      (Store.initialState 0) = Some st'
    /\ Scene.oneTableau st'.
Proof.
  eexists. split; [reflexivity |].
  destruct one_tableau_shown as [Hone _].
  apply (Hone (fun _ => 7)
           [Store.actions.showSaturn; Store.actions.unlockCubeSecret;
            Store.actions.showFlower; Store.actions.toggleAutoRotate] 0).
  reflexivity.
Defined.

(** X11.  For an action that is not the reset, each unlock flag after the
    reducer is the flag before it or-ed with "the action is the unlock of
    this flag": an unlock action sets its own flag only, and no other
    action changes a flag. *)
Theorem unlock_flag_changes_only_by_its_action
    (now : Z) (st st' : Store.state) (a : Store.action) :
  Store.hasType "RESET_STATE" a = false ->
  Store.reducer now st a = Some st' ->
  Store.cubeSecretUnlocked st'
  = Store.cubeSecretUnlocked st || Store.hasType "UNLOCK_CUBE_SECRET" a
  /\ Store.saturnSecretUnlocked st'
     = Store.saturnSecretUnlocked st
       || Store.hasType "UNLOCK_SATURN_SECRET" a
  /\ Store.trinitySecretUnlocked st'
     = Store.trinitySecretUnlocked st
       || Store.hasType "UNLOCK_TRINITY_SECRET" a.
Proof. apply reducer_flags_exact. Qed.

Lemma unlock_flag_changes_only_by_its_action_witness :
  exists st',
    Store.reducer 5 (Store.initialState 0) Store.actions.unlockSaturnSecret
    = Some st'
    /\ Store.cubeSecretUnlocked st' = false
    /\ Store.saturnSecretUnlocked st' = true
    /\ Store.trinitySecretUnlocked st' = false.
Proof.
  eexists. split; [reflexivity |].
  match goal with |- Store.cubeSecretUnlocked ?st' = _ /\ _ =>
    destruct (unlock_flag_changes_only_by_its_action 5
                (Store.initialState 0) st' Store.actions.unlockSaturnSecret)
      as (Hc & Hs & Ht); [reflexivity | reflexivity |]
  end.
  rewrite Hc, Hs, Ht. repeat split.
Defined.

(** X12.  Outside the triangle tableau the handler of the keys toggles
    the rotation mode on the space bar, so that two calls of it, as the
    [keydown] and the [keypress] listeners both make, bring a boolean
    mode back; on Escape it sets the mode to automatic whatever it was;
    in the triangle tableau no key changes anything.  The keys touch
    nothing but the rotation mode, [lastAction] and [timestamp]. *)
Theorem keys_set_rotation_mode (now now' : Z) (s : Scene.t) :
  (Scene.canInteractWithCube s = true ->
   exists s1 s2,
     Scene.handleKeyPress " " now s = Some s1
     /\ Scene.handleKeyPress " " now' s1 = Some s2
     /\ Store.autoRotate (Scene.sceneStore s1)
        = Store.Bool
            (negb (Store.truthy (Store.autoRotate (Scene.sceneStore s))))
     /\ Store.autoRotate (Scene.sceneStore s2)
        = Store.Bool (Store.truthy (Store.autoRotate (Scene.sceneStore s)))
     /\ s2 = Scene.withStore
               (Store.stamped Store.actions.toggleAutoRotate now'
                  (Store.withAutoRotate
                     (Store.Bool
                        (Store.truthy
                           (Store.autoRotate (Scene.sceneStore s))))
                     (Scene.sceneStore s))) s)
  /\ (Scene.canInteractWithCube s = true ->
      exists s1,
        Scene.handleKeyPress "Escape" now s = Some s1
        /\ Store.autoRotate (Scene.sceneStore s1) = Store.Bool true)
  /\ (Scene.canInteractWithCube s = false ->
      forall key, Scene.handleKeyPress key now s = Some s).
Proof.
  split; [| split].
  - intros Hcan. do 2 eexists.
    split; [apply handleKeyPress_space, Hcan |].
    split; [apply handleKeyPress_space; exact Hcan |].
    cbn. rewrite negb_involutive. repeat split.
  - intros Hcan. eexists.
    split; [apply handleKeyPress_escape, Hcan | reflexivity].
  - intros Hcan key. unfold Scene.handleKeyPress. now rewrite Hcan.
Qed.

Lemma keys_set_rotation_mode_witness :
  exists s1 s2,
    Scene.handleKeyPress " " 1 (Scene.init (Store.initialState 0)) = Some s1
    /\ Scene.handleKeyPress " " 2 s1 = Some s2
    /\ Store.autoRotate (Scene.sceneStore s1) = Store.Bool false
    /\ Store.autoRotate (Scene.sceneStore s2) = Store.Bool true.
Proof.
  destruct (keys_set_rotation_mode 1 2 (Scene.init (Store.initialState 0)))
    as (Hspace & _ & _).
  destruct (Hspace eq_refl) as (s1 & s2 & H1 & H2 & Ha1 & Ha2 & _).
  exists s1, s2. repeat split; assumption.
Defined.

(** X13.  A pointer press goes to the gate of the tableau shown and to no
    other: a press on a button changes nothing; the flower changes only
    in the flower tableau, the breath gate only in the triangle tableau,
    the clock gate only in the Saturn tableau; and the rotation mode
    changes only in the cube tableau, where the press toggles it. *)
Theorem pointer_press_goes_to_shown_gate
    (event : Scene.pointer) (clock : nat -> Z) (s s' : Scene.t) :
  Scene.handlePointerDown event clock s = Some s' ->
  let st := Scene.sceneStore s in
  (Scene.targetIsButton event = true -> s' = s)
  /\ (Store.showFlower st = false ->
      Scene.flowerObject s' = Scene.flowerObject s)
  /\ (Store.showFlower st = true \/ Store.showTriangle st = false ->
      Scene.triangleObject s' = Scene.triangleObject s)
  /\ (Store.showFlower st = true \/ Store.showTriangle st = true
      \/ Store.showSaturn st = false ->
      Scene.saturnObject s' = Scene.saturnObject s)
  /\ (Store.showFlower st = true \/ Store.showTriangle st = true
      \/ Store.showSaturn st = true ->
      Store.autoRotate (Scene.sceneStore s') = Store.autoRotate st)
  /\ (Scene.targetIsButton event = false ->
      Store.showFlower st = false -> Store.showTriangle st = false ->
      Store.showSaturn st = false ->
      Store.autoRotate (Scene.sceneStore s')
      = Store.Bool (negb (Store.truthy (Store.autoRotate st)))).
Proof.
  cbv zeta. unfold Scene.handlePointerDown, Scene.canInteractWithCube.
  destruct (Scene.targetIsButton event).
  { intros [= <-]. repeat split; intros; congruence. }
  destruct (Store.showFlower (Scene.sceneStore s)) eqn:Hflower.
  { intros Hclick.
    destruct (handleFlowerClick_effect event s s' Hclick)
      as (Hstore & Hsat & Htri & _).
    rewrite Hstore, Hsat, Htri.
    repeat split; intros; try reflexivity; try discriminate. }
  destruct (Store.showTriangle (Scene.sceneStore s)) eqn:Htriangle.
  { destruct (handleTriangleBreathClick_effect clock s)
      as (s1 & -> & _ & _ & Hsat & Hflo & Hauto & _).
    intros [= <-]. rewrite Hsat, Hflo, Hauto.
    repeat split; intros; try reflexivity; try discriminate;
      repeat match goal with H : _ \/ _ |- _ => destruct H end;
      discriminate. }
  destruct (Store.showSaturn (Scene.sceneStore s)) eqn:Hsaturn.
  { destruct (handleSaturnTimingClick_effect (clock 0%nat) s)
      as (s1 & -> & _ & _ & Htri & Hflo & _ & Hauto & _).
    intros [= <-]. rewrite Htri, Hflo, Hauto.
    repeat split; intros; try reflexivity; try discriminate;
      repeat match goal with H : _ \/ _ |- _ => destruct H end;
      discriminate. }
  cbn [negb]. intros [= <-].
  repeat split; intros; try reflexivity;
    repeat match goal with H : _ \/ _ |- _ => destruct H end;
    discriminate.
Qed.

Lemma pointer_press_goes_to_shown_gate_witness :
  exists s',
    Scene.handlePointerDown
      {| Scene.targetIsButton := false; Scene.intersects := None |}
      (fun _ => 9) (Scene.init (Store.initialState 0)) = Some s'
    /\ Store.autoRotate (Scene.sceneStore s') = Store.Bool false
    /\ Scene.saturnObject s' = SaturnObject.constructor.
Proof.
  eexists. split; [reflexivity |].
  match goal with |- Store.autoRotate (Scene.sceneStore ?s1) = _ /\ _ =>
    destruct (pointer_press_goes_to_shown_gate
                {| Scene.targetIsButton := false; Scene.intersects := None |}
                (fun _ => 9) (Scene.init (Store.initialState 0)) s1
                eq_refl)
      as (_ & _ & _ & Hsat & _ & Htoggle)
  end.
  split.
  - rewrite Htoggle; reflexivity.
  - rewrite Hsat; [reflexivity | right; right; reflexivity].
Defined.

(** X14.  Clicks on Saturn never raise.  After any sequence of them on
    the component as initialised, its clock gate is the gate after the
    attempts at the seconds shown, the counter it displays is the
    counter of the gate, the tableau is the one before, and the store has
    the Saturn secret unlocked exactly when it had it before or the gate
    is unlocked. *)
Theorem saturn_clicks_reach_store (store : Store.state)
    (clicks : list (Z * Z)) :
  exists s',
    Scene.saturnClicks clicks (Scene.init store) = Some s'
    /\ Scene.saturnObject s'
       = SaturnObject.attempts (map fst clicks) SaturnObject.constructor
    /\ Scene.saturnCounter s'
       = SaturnObject.saturnCounter (Scene.saturnObject s')
    /\ Store.saturnSecretUnlocked (Scene.sceneStore s')
       = Store.saturnSecretUnlocked store
         || SaturnObject.shouldShowTriangleButton (Scene.saturnObject s')
    /\ (Store.showCube (Scene.sceneStore s'),
        Store.showSaturn (Scene.sceneStore s'),
        Store.showTriangle (Scene.sceneStore s'),
        Store.showFlower (Scene.sceneStore s'))
       = (Store.showCube store, Store.showSaturn store,
          Store.showTriangle store, Store.showFlower store).
Proof.
  apply (saturnClicks_effect clicks (Scene.init store));
    [discriminate | reflexivity].
Qed.

(** X15.  A click on the triangle never raises: the breath gate takes the
    click and the component copies its glow; when the gate reports the
    trinity the store unlocks the trinity secret and shows the flower
    tableau alone, stamped with the second dispatch, the other two
    secrets as they were; otherwise the store is not touched.  Saturn,
    the flower and the rotation mode are as before in both cases. *)
Theorem trinity_click_opens_flower (clock : nat -> Z) (s : Scene.t) :
  let r := TriangleObject.checkBreathClick (clock 0%nat)
             (Scene.triangleObject s) in
  exists s',
    Scene.handleTriangleBreathClick clock s = Some s'
    /\ Scene.triangleObject s' = fst r
    /\ Scene.triangleGlowActive s'
       = TriangleObject.triangleGlowActive (fst r)
    /\ Scene.saturnObject s' = Scene.saturnObject s
    /\ Scene.flowerObject s' = Scene.flowerObject s
    /\ Store.autoRotate (Scene.sceneStore s')
       = Store.autoRotate (Scene.sceneStore s)
    /\ (if snd r
        then (Store.showCube (Scene.sceneStore s'),
              Store.showSaturn (Scene.sceneStore s'),
              Store.showTriangle (Scene.sceneStore s'),
              Store.showFlower (Scene.sceneStore s'))
             = (false, false, false, true)
             /\ Store.trinitySecretUnlocked (Scene.sceneStore s') = true
             /\ Store.cubeSecretUnlocked (Scene.sceneStore s')
                = Store.cubeSecretUnlocked (Scene.sceneStore s)
             /\ Store.saturnSecretUnlocked (Scene.sceneStore s')
                = Store.saturnSecretUnlocked (Scene.sceneStore s)
             /\ Store.timestamp (Scene.sceneStore s') = clock 2%nat
        else Scene.sceneStore s' = Scene.sceneStore s).
Proof. apply handleTriangleBreathClick_effect. Qed.

(** X16.  In the flower tableau the component sets its own [showMetatron]
    on every click that the flower accepts: also on a click that is not
    the thirteenth, after which the flower itself does not show the
    Metatron.  A click that is not accepted leaves the variable as it
    was, and no click changes the store. *)
Theorem flower_click_sets_component_flag
    (event : Scene.pointer) (hits : list FlowerOfLife.userData)
    (s : Scene.t) (flower : FlowerOfLife.t) (accepted : bool) :
  Store.showFlower (Scene.sceneStore s) = true ->
  Scene.intersects event = Some hits ->
  FlowerOfLife.handleClick hits (Scene.flowerObject s)
  = Some (flower, accepted) ->
  exists s',
    Scene.handleFlowerClick event s = Some s'
    /\ Scene.flowerObject s' = flower
    /\ Scene.sceneStore s' = Scene.sceneStore s
    /\ Scene.showMetatron s' = accepted || Scene.showMetatron s
    /\ (accepted = true ->
        length (FlowerOfLife.metatronClicks (Scene.flowerObject s))
        <> 12%nat ->
        FlowerOfLife.isShowingMetatron flower = false).
Proof.
  intros Hflower Hhits Hclick. unfold Scene.handleFlowerClick.
  rewrite Hflower, Hhits, Hclick. cbn [negb].
  eexists. split; [reflexivity |].
  cbn [Scene.flowerObject Scene.sceneStore Scene.showMetatron].
  split; [reflexivity |]. split; [reflexivity |].
  split; [destruct accepted; reflexivity |].
  intros -> Hlen. revert Hclick. unfold FlowerOfLife.handleClick.
  destruct (FlowerOfLife.showMetatron (Scene.flowerObject s)) eqn:Hshow;
    [discriminate |].
  destruct (FlowerOfLife.flowerGroup (Scene.flowerObject s));
    [| discriminate].
  destruct (FlowerOfLife.clickedNode hits); [| discriminate].
  destruct (decide _); [| discriminate].
  rewrite length_app. cbn [length].
  destruct (Nat.eqb_spec
              (length (FlowerOfLife.metatronClicks (Scene.flowerObject s))
               + 1) 13) as [Heq | _].
  - exfalso. apply Hlen. lia.
  - intros [= <-]. reflexivity.
Qed.

Lemma flower_click_sets_component_flag_witness :
  exists s',
    Scene.handleFlowerClick
      {| Scene.targetIsButton := false;
         Scene.intersects := Some (FlowerOfLife.node 0) |}
      (Scene.withStore
         (Store.withTableau false false false true (Store.initialState 0))
         (Scene.init (Store.initialState 0))) = Some s'
    /\ Scene.showMetatron s' = true
    /\ FlowerOfLife.isShowingMetatron (Scene.flowerObject s') = false.
Proof.
  destruct (FlowerOfLife.handleClick (FlowerOfLife.node 0)
              (FlowerOfLife.create FlowerOfLife.constructor))
    as [[flower accepted] |] eqn:Hclick; [| discriminate].
  assert (Hacc : accepted = true) by (vm_compute in Hclick; congruence).
  subst accepted.
  destruct (flower_click_sets_component_flag
              {| Scene.targetIsButton := false;
                 Scene.intersects := Some (FlowerOfLife.node 0) |}
              (FlowerOfLife.node 0)
              (Scene.withStore
                 (Store.withTableau false false false true
                    (Store.initialState 0))
                 (Scene.init (Store.initialState 0)))
              flower true eq_refl eq_refl Hclick)
    as (s' & Hrun & Hflo & _ & Hflag & Hobj).
  exists s'. split; [exact Hrun |]. split; [exact Hflag |].
  rewrite Hflo. apply Hobj; [reflexivity | discriminate].
Defined.

(** X17.  One run of the visibility block, on a scene whose triangle and
    flower exist, makes the cube, Saturn, the triangle and the flower
    group visible exactly as the store shows their tableau, keeps the
    store, and a second run changes nothing more.  The run that shows a
    hidden triangle resets the breath gate; the run that shows a hidden
    flower group in the flower tableau, as after the reveal of the
    Metatron, restarts the pattern and leaves the Metatron cube as it
    is. *)
Theorem visibility_follows_store (s : Scene.t) :
  TriangleObject.triangle (Scene.triangleObject s) <> None ->
  FlowerOfLife.flowerGroup (Scene.flowerObject s) <> None ->
  let st := Scene.sceneStore s in
  let s' := Scene.syncVisibility s in
  Scene.cubeVisible s' = Store.showCube st
  /\ Scene.saturnVisible s' = Store.showSaturn st
  /\ TriangleObject.triangle (Scene.triangleObject s')
     = Some {| TriangleObject.visible := Store.showTriangle st |}
  /\ FlowerOfLife.flowerGroup (Scene.flowerObject s')
     = Some {| FlowerOfLife.visible := Store.showFlower st |}
  /\ Scene.sceneStore s' = st
  /\ Scene.syncVisibility s' = s'
  /\ (Store.showTriangle st = true ->
      TriangleObject.triangle (Scene.triangleObject s)
      = Some {| TriangleObject.visible := false |} ->
      TriangleObject.breathCounter (Scene.triangleObject s') = 0
      /\ TriangleObject.breathStartTime (Scene.triangleObject s') = 0
      /\ TriangleObject.lastClickCycle (Scene.triangleObject s') = -1)
  /\ (Store.showFlower st = true ->
      FlowerOfLife.flowerGroup (Scene.flowerObject s)
      = Some {| FlowerOfLife.visible := false |} ->
      FlowerOfLife.metatronClicks (Scene.flowerObject s') = []
      /\ FlowerOfLife.showMetatron (Scene.flowerObject s') = false
      /\ FlowerOfLife.metatronCube (Scene.flowerObject s')
         = FlowerOfLife.metatronCube (Scene.flowerObject s)).
Proof.
  intros Htri Hflo st s'.
  destruct (syncVisibility_effect s Htri Hflo)
    as (Hcube & Hsaturn & Htriangle & Hflower & Hstore).
  fold s' in Hcube, Hsaturn, Htriangle, Hflower, Hstore.
  fold st in Hcube, Hsaturn, Htriangle, Hflower, Hstore.
  do 5 (split; [assumption |]).
  split; [| split].
  - unfold Scene.syncVisibility at 1.
    rewrite Htriangle, Hflower, Hstore, Hsaturn.
    cbn [TriangleObject.visible FlowerOfLife.visible].
    rewrite !andb_negb_r, !andb_negb_l, <- Hcube, <- Hsaturn, <- Hstore.
    destruct s'; reflexivity.
  - intros Hshown Hhidden. subst s'. unfold Scene.syncVisibility.
    rewrite Hhidden.
    destruct (FlowerOfLife.flowerGroup (Scene.flowerObject s));
      [| congruence].
    cbn [Scene.triangleObject TriangleObject.visible]. fold st.
    rewrite Hshown. cbn [negb andb].
    unfold TriangleObject.show. rewrite Hhidden. repeat split.
  - intros Hshown Hhidden. subst s'. unfold Scene.syncVisibility.
    rewrite Hhidden.
    destruct (TriangleObject.triangle (Scene.triangleObject s));
      [| congruence].
    cbn [Scene.flowerObject FlowerOfLife.visible]. fold st.
    rewrite Hshown. cbn [negb andb].
    unfold FlowerOfLife.show. rewrite Hhidden. repeat split.
Qed.

Lemma visibility_follows_store_witness :
  let s := Scene.withStore
             (Store.withTableau false false true false
                (Store.initialState 0))
             (Scene.init (Store.initialState 0)) in
  Scene.cubeVisible (Scene.syncVisibility s) = false
  /\ TriangleObject.triangle
       (Scene.triangleObject (Scene.syncVisibility s))
     = Some {| TriangleObject.visible := true |}.
Proof.
  intros s.
  destruct (visibility_follows_store s) as (Hcube & _ & Htri & _);
    [discriminate | discriminate |].
  split; [exact Hcube | exact Htri].
Defined.

(** X18.  A frame of the fade moves the opacity of the cube towards its
    target and not past it: after any number of frames with the same
    target the opacity lies between the opacity at the start and the
    target, and the frame after it lies between that opacity and the
    target. *)
Theorem fade_approaches_target (target current : Q) (n : nat) :
  ((current <= target ->
    current <= Scene.fadeFrames n target current
    /\ Scene.fadeFrames n target current
       <= Scene.fadeFrames (S n) target current
    /\ Scene.fadeFrames (S n) target current <= target)
   /\ (target <= current ->
       target <= Scene.fadeFrames (S n) target current
       /\ Scene.fadeFrames (S n) target current
          <= Scene.fadeFrames n target current
       /\ Scene.fadeFrames n target current <= current))%Q.
Proof.
  rewrite fadeFrames_succ.
  destruct (fadeFrames_between n target current) as [Hup Hdown].
  destruct (fade_between target (Scene.fadeFrames n target current))
    as [Hstep_up Hstep_down].
  split; intros Hle.
  - destruct (Hup Hle) as [H1 H2]. destruct (Hstep_up H2) as [H3 H4].
    repeat split; assumption.
  - destruct (Hdown Hle) as [H1 H2]. destruct (Hstep_down H1) as [H3 H4].
    repeat split; assumption.
Qed.

Lemma fade_approaches_target_witness :
  (0.3 <= Scene.fadeFrames 2 1 0.3
   /\ Scene.fadeFrames 2 1 0.3 <= Scene.fadeFrames 3 1 0.3
   /\ Scene.fadeFrames 3 1 0.3 <= 1)%Q.
Proof.
  destruct (fade_approaches_target 1 0.3 2) as (Hup & _).
  apply Hup. discriminate.
Defined.

(** X19.  A pointer move outside the flower tableau stores the position
    of the pointer in normalised coordinates: for a pointer inside a
    window of positive size both are between -1 and 1, x growing to the
    right from -1 and y growing upwards to 1 at the top; the gates are
    not touched.  In the flower tableau a pointer move changes
    nothing. *)
Theorem pointer_move_normalised
    (clientX clientY innerWidth innerHeight : Q) (now : Z) (s : Scene.t) :
  (Store.showFlower (Scene.sceneStore s) = true ->
   forall client,
     Scene.handlePointerMove client (innerWidth, innerHeight) now s
     = Some s)
  /\ (Store.showFlower (Scene.sceneStore s) = false ->
      (0 < innerWidth)%Q -> (0 < innerHeight)%Q ->
      (0 <= clientX <= innerWidth)%Q -> (0 <= clientY <= innerHeight)%Q ->
      exists s' x y,
        Scene.handlePointerMove (Some (clientX, clientY))
          (innerWidth, innerHeight) now s = Some s'
        /\ Store.mouseX (Scene.sceneStore s') = Store.Num x
        /\ Store.mouseY (Scene.sceneStore s') = Store.Num y
        /\ (x == 2 * (clientX / innerWidth) - 1)%Q
        /\ (y == 1 - 2 * (clientY / innerHeight))%Q
        /\ (-1 <= x <= 1)%Q /\ (-1 <= y <= 1)%Q
        /\ Scene.saturnObject s' = Scene.saturnObject s
        /\ Scene.triangleObject s' = Scene.triangleObject s
        /\ Scene.flowerObject s' = Scene.flowerObject s).
Proof.
  split.
  - intros Hflower client. unfold Scene.handlePointerMove.
    now rewrite Hflower.
  - intros Hflower Hw Hh [Hx0 Hx1] [Hy0 Hy1].
    unfold Scene.handlePointerMove. rewrite Hflower. cbn [fst snd].
    do 3 eexists. split; [reflexivity |].
    cbn [Scene.sceneStore Scene.withStore Store.mouseX Store.mouseY
         Scene.saturnObject Scene.triangleObject Scene.flowerObject].
    split; [reflexivity |]. split; [reflexivity |].
    assert (Hqx : (0 <= clientX / innerWidth <= 1)%Q).
    { split.
      - apply Qle_shift_div_l; [exact Hw | Lqa.lra].
      - apply Qle_shift_div_r; [exact Hw | Lqa.lra]. }
    assert (Hqy : (0 <= clientY / innerHeight <= 1)%Q).
    { split.
      - apply Qle_shift_div_l; [exact Hh | Lqa.lra].
      - apply Qle_shift_div_r; [exact Hh | Lqa.lra]. }
    set (qx := (clientX / innerWidth)%Q) in *.
    set (qy := (clientY / innerHeight)%Q) in *.
    split; [ring |]. split; [ring |].
    repeat split; try reflexivity; Lqa.lra.
Qed.

Lemma pointer_move_normalised_witness :
  exists s' x y,
    Scene.handlePointerMove (Some (200, 150)%Q) (800, 600)%Q 3
      (Scene.init (Store.initialState 0)) = Some s'
    /\ Store.mouseX (Scene.sceneStore s') = Store.Num x
    /\ Store.mouseY (Scene.sceneStore s') = Store.Num y
    /\ (-1 <= x <= 1)%Q /\ (-1 <= y <= 1)%Q.
Proof.
  destruct (pointer_move_normalised 200 150 800 600 3
              (Scene.init (Store.initialState 0))) as [_ Hmove].
  destruct Hmove as (s' & x & y & Hrun & Hx & Hy & _ & _ & Hbx & Hby & _);
    try reflexivity; try (split; discriminate).
  exists s', x, y. repeat split; try assumption; apply Hbx || apply Hby.
Defined.

(** X21.  In a session of the component, whatever the pointer, the keys,
    the rendered buttons and the frames do, a tableau other than the cube
    is shown only when its secret is unlocked in the store: Saturn needs
    the cube secret, the triangle the Saturn secret, the flower the
    trinity secret.  This holds from any start that satisfies it, without
    magic mode, and in magic mode when the three secrets are unlocked at
    the start, as [App.svelte] unlocks them. *)
Theorem tableaux_behind_secrets (magicMode : bool) (s0 s : Scene.t) :
  Scene.guarded (Scene.sceneStore s0) ->
  (magicMode = true -> Scene.allUnlocked (Scene.sceneStore s0)) ->
  Scene.session magicMode s0 s ->
  (Store.showSaturn (Scene.sceneStore s) = true ->
   Store.cubeSecretUnlocked (Scene.sceneStore s) = true)
  /\ (Store.showTriangle (Scene.sceneStore s) = true ->
      Store.saturnSecretUnlocked (Scene.sceneStore s) = true)
  /\ (Store.showFlower (Scene.sceneStore s) = true ->
      Store.trinitySecretUnlocked (Scene.sceneStore s) = true).
Proof.
  intros Hguard Hmagic Hsession.
  apply (session_invariant magicMode s0 s Hguard Hmagic Hsession).
Qed.

Lemma tableaux_behind_secrets_witness :
  exists s,
    Scene.session false (Scene.init (Store.initialState 0)) s
    /\ Store.showSaturn (Scene.sceneStore s) = true
    /\ Store.cubeSecretUnlocked (Scene.sceneStore s) = true.
Proof.
  assert (Hsession :
            Scene.session false (Scene.init (Store.initialState 0))
              (Scene.withStore
                 (Store.stamped Store.actions.showSaturn 2
                    (Store.withTableau false true false false
                       (Store.stamped Store.actions.unlockCubeSecret 1
                          (Store.withSecrets true false false
                             (Store.initialState 0)))))
                 (Scene.init (Store.initialState 0)))).
  { eapply (Scene.session_button false _ Scene.goToSaturn 2);
      [eapply (Scene.session_cube_secret false _ 1);
       [apply Scene.session_start | reflexivity]
      | reflexivity | reflexivity]. }
  eexists. split; [exact Hsession |]. split; [reflexivity |].
  apply (tableaux_behind_secrets false _ _) in Hsession
    as (Hsaturn & _ & _).
  - apply Hsaturn. reflexivity.
  - repeat split; discriminate.
  - discriminate.
Defined.

(** X22.  Holding the full reveal unlocks the cube: on a scene with edges
    whose timer is off, a first call of [updateCubeAppearance] at full
    reveal starts the timer at a reading of its clock; further calls at
    full reveal keep that start; and a call at full reveal whose first
    reading of the clock is 2000 ms or more after every reading of the
    first call dispatches the unlock of the cube, whatever the flags of
    the store.  The readings of the clock are above zero. *)
Theorem held_reveal_unlocks
    (f1 f2 : SaturnianCube.frame) (mid : list SaturnianCube.frame)
    (v : SaturnianCube.vars) :
  SaturnianCube.cubeObject v = true ->
  SaturnianCube.cubeEdges v <> [] ->
  SaturnianCube.yellowEdgeStartTime v = 0 ->
  Forall (fun f => SaturnianCube.fullReveal f
                   /\ forall k, 0 < SaturnianCube.clock f k)
    (f1 :: mid ++ [f2]) ->
  (forall k,
     2000 <= SaturnianCube.clock f2 0%nat - SaturnianCube.clock f1 k) ->
  (exists k,
     SaturnianCube.yellowEdgeStartTime (SaturnianCube.calls (f1 :: mid) v)
     = SaturnianCube.clock f1 k)
  /\ In Store.actions.unlockCubeSecret
       (snd (SaturnianCube.call f2 (SaturnianCube.calls (f1 :: mid) v))).
Proof.
  intros Hcube Hedges Hoff Hall Hlate.
  apply List.Forall_cons_iff in Hall as [[Hfull1 Hclock1] Hall].
  apply Forall_app in Hall as [Hmid Hlast].
  apply List.Forall_cons_iff in Hlast as [[Hfull2 Hclock2] _].
  destruct (call_timer f1 v Hcube Hedges Hfull1 Hclock1 ltac:(lia))
    as (Hcube1 & Hedges1 & _ & Hstart).
  destruct (Hstart Hoff) as [k Hk].
  assert (Hpos : 0 < SaturnianCube.yellowEdgeStartTime
                       (fst (SaturnianCube.call f1 v)))
    by (rewrite Hk; apply Hclock1).
  destruct (calls_timer mid _ Hcube1 Hedges1 Hpos Hmid) as [Hcube' Hkeep].
  change (SaturnianCube.calls (f1 :: mid) v)
    with (SaturnianCube.calls mid (fst (SaturnianCube.call f1 v))).
  split; [exists k; now rewrite Hkeep |].
  apply call_fires; [exact Hcube' | exact Hfull2 | |];
    rewrite Hkeep, Hk; [apply Hclock1 | apply Hlate].
Qed.

Lemma held_reveal_unlocks_witness :
  let shot t :=
    {| SaturnianCube.state := Store.initialState 0;
       SaturnianCube.hexagonStrength := 1;
       SaturnianCube.clock := fun _ => t;
       SaturnianCube.isFrontFacing := fun _ => true |} in
  In Store.actions.unlockCubeSecret
    (snd (SaturnianCube.call (shot 3000)
            (SaturnianCube.calls [shot 1000; shot 2000]
               SaturnianCube.created))).
Proof.
  intros shot.
  apply (held_reveal_unlocks (shot 1000) (shot 3000) [shot 2000]
           SaturnianCube.created).
  - reflexivity.
  - discriminate.
  - reflexivity.
  - repeat constructor.
  - intros k. cbn. lia.
Defined.
